(** * FlyteDirectory: lazy directory handles and their literal codec

    A shallow embedding of [flytekit/types/directory/types.py]:
    the [FlyteDirectory] handle ([__init__], [__fspath__], [download], [new],
    [listdir]) and the [FlyteDirToMultipartBlobTransformer] codec
    ([async_to_literal], [async_to_python_value] and its helpers).

    Python objects are records, exceptions are values of [exn], and every
    function that touches the local filesystem or the storage client is a
    computation in a state-and-exception monad over [World].  The world
    records the calls made on the outside ([trace]), the local filesystem as
    far as the code asks about it ([nodes]) and how many random paths were
    handed out ([fresh]). *)

From Stdlib Require Import String Ascii List Bool Arith NArith ZArith DecimalString Lia.
Import ListNotations.
Open Scope string_scope.

(** ** Python values shared by all modules *)

Module Py.

(** Messages of the exceptions the module raises, one per raise site. *)
Inductive message : Type :=
| Path_should_be_relative                    (* new *)
| Stem_should_not_have_a_file_extension      (* new_remote *)
| Expected_a_directory (source_path : string)            (* async_to_literal *)
| Expected_FlyteDirectory_or_PathLike                    (* async_to_literal *)
| Path_should_not_be_None                                (* dict_to_flyte_directory *)
| Unsupported_binary_format (tag : string)               (* from_binary_idl *)
| Cannot_convert_from                                    (* async_to_python_value *)
| Is_not_a_directory (uri : string)                      (* async_to_python_value *)
| Expected_a_directory_but_uri (uri : string)            (* async_to_python_value *)
| Cannot_reverse                                         (* guess_python_type *)
| Raised_outside (what : string).                         (* collaborators *)

(** Exception classes, as the source names them. *)
Inductive exn : Type :=
| ValueError (m : message)
| AssertionError (m : message)
| FlyteAssertion (m : message)
| TypeTransformerFailedError (m : message)
| FileExistsError (path : string)
| NotADirectoryError (path : string)
| FileNotFoundError (path : string)
| OSError (m : message).

Inductive result (A : Type) : Type :=
| Ok (a : A)
| Raise (e : exn).
Arguments Ok {A} a.
Arguments Raise {A} e.

Definition is_ok {A} (r : result A) : bool :=
  match r with Ok _ => true | Raise _ => false end.

End Py.
Export Py.

(** ** posixpath and the string methods the module uses *)

Module PosixPath.

Definition sep : ascii := "/"%char.

Definition startswith_sep (s : string) : bool :=
  match s with
  | String c _ => Ascii.eqb c sep
  | EmptyString => false
  end.

Fixpoint endswith_sep (s : string) : bool :=
  match s with
  | EmptyString => false
  | String c EmptyString => Ascii.eqb c sep
  | String _ rest => endswith_sep rest
  end.


(** [os.path.join(a, b)]: an absolute [b] discards [a]; otherwise one
    separator is put between them unless [a] is empty or ends with one. *)
Definition join (a b : string) : string :=
  if startswith_sep b then b
  else if (String.eqb a "" || endswith_sep a)%bool then a ++ b
  else a ++ String sep b.

(** [s.split(os.sep)[-1]]: what follows the last separator. *)
Fixpoint last_component_from (cur s : string) : string :=
  match s with
  | EmptyString => cur
  | String c rest =>
      if Ascii.eqb c sep then last_component_from "" rest
      else last_component_from (cur ++ String c "") rest
  end.

Definition last_component (s : string) : string := last_component_from "" s.

(** [s.split(os.sep)]: the pieces between separators, empty ones included. *)
Fixpoint split_sep_from (cur s : string) : list string :=
  match s with
  | EmptyString => [cur]
  | String c rest =>
      if Ascii.eqb c sep then cur :: split_sep_from "" rest
      else split_sep_from (cur ++ String c "") rest
  end.

Definition split_sep (s : string) : list string := split_sep_from "" s.

(** [pathlib.PurePosixPath(s)]: the root is ["//"] for exactly two leading
    separators, ["/"] for any other number of them and empty for a relative
    path; the parts are the pieces other than the empty one and ["."]. *)
Definition root (s : string) : string :=
  match s with
  | String c1 (String c2 (String c3 _)) =>
      if Ascii.eqb c1 sep
      then if (Ascii.eqb c2 sep && negb (Ascii.eqb c3 sep))%bool then "//" else "/"
      else ""
  | String c1 (String c2 EmptyString) =>
      if Ascii.eqb c1 sep then if Ascii.eqb c2 sep then "//" else "/" else ""
  | String c1 EmptyString => if Ascii.eqb c1 sep then "/" else ""
  | EmptyString => ""
  end.

Definition is_part (piece : string) : bool :=
  negb (String.eqb piece "" || String.eqb piece ".").

Definition parts (s : string) : list string := filter is_part (split_sep s).

(** [str] of a path with this root and these parts: ["."] when there is
    neither. *)
Definition format_parsed_parts (root : string) (parts : list string) : string :=
  match parts with
  | [] => if String.eqb root "" then "." else root
  | _ => root ++ String.concat "/" parts
  end.

(** [str(pathlib.Path(s).parent)]: the last part is dropped; a path without
    parts is its own parent. *)
Definition parent (s : string) : string :=
  format_parsed_parts (root s) (removelast (parts s)).

(** The heads [os.makedirs(name)] goes through, outermost first: every
    prefix of [name] that ends a component which a run of separators and a
    further component follow ([posixpath.split] repeated, each head with its
    trailing separators removed).  The root is left out: it always exists,
    and [os.makedirs] never descends into it. *)
Fixpoint has_component (s : string) : bool :=
  match s with
  | EmptyString => false
  | String c rest => (negb (Ascii.eqb c sep) || has_component rest)%bool
  end.

Fixpoint heads_from (seen rest : string) : list string :=
  match rest with
  | EmptyString => []
  | String c rest' =>
      let here :=
        if (Ascii.eqb c sep && negb (String.eqb seen "")
            && negb (endswith_sep seen) && has_component rest')%bool
        then [seen] else [] in
      (here ++ heads_from (seen ++ String c "") rest')%list
  end.

Definition heads (name : string) : list string := heads_from "" name.

(** The [tail] that [os.makedirs(name)] compares with [os.curdir]: the last
    component of [name], trailing separators apart. *)
Fixpoint rstrip_sep_rev (r : list ascii) : list ascii :=
  match r with
  | c :: rest => if Ascii.eqb c sep then rstrip_sep_rev rest else r
  | [] => []
  end.

Definition rstrip_sep (s : string) : string :=
  string_of_list_ascii (rev (rstrip_sep_rev (rev (list_ascii_of_string s)))).

Definition tail (name : string) : string := last_component (rstrip_sep name).

End PosixPath.

(** [str.lstrip(chars)] for a single character and [str.strip()].  A
    character of a [string] stands for the code point of the same number,
    so a [string] is a Python [str] of code points below 256; [is_space] is
    [str.isspace] on them: the ASCII white space, the separators 28 to 31,
    NEL (133) and the no-break space (160). *)
Module Str.

Fixpoint lstrip_char (c : ascii) (s : string) : string :=
  match s with
  | String d rest => if Ascii.eqb c d then lstrip_char c rest else s
  | EmptyString => EmptyString
  end.

Definition is_space (c : ascii) : bool :=
  let n := nat_of_ascii c in
  (Nat.leb 9 n && Nat.leb n 13 || Nat.eqb n 32 || Nat.leb 28 n && Nat.leb n 31
   || Nat.eqb n 133 || Nat.eqb n 160)%bool.

Fixpoint lstrip (s : string) : string :=
  match s with
  | String d rest => if is_space d then lstrip rest else s
  | EmptyString => EmptyString
  end.

Definition reverse (s : string) : string :=
  string_of_list_ascii (rev (list_ascii_of_string s)).

Definition strip (s : string) : string :=
  reverse (lstrip (reverse (lstrip s))).

End Str.

(** ** The outside world: local filesystem, storage client, execution context *)

Module Storage.

(** What the local filesystem holds at a path, as the path is spelled: two
    spellings of one place are two keys, and the filesystem of a real
    machine answers alike at both, and holds a directory at the root and
    at the current directory. *)
Inductive node : Type := Absent | File | Dir.

Definition filesystem : Type := string -> node.

(** One entry of [fs.listdir(path)]: the dict keys [name] and [type]. *)
Record entry : Type := { name : string; type : string }.

(** Calls that leave the process, in the order they were made.
    [Call_downloader] marks one invocation of a handle's [_downloader]. *)
Inductive event : Type :=
| Call_downloader
| Get_data (remote local : string) (is_multipart : bool) (batch_size : option nat)
| Put_data (src dst : string) (is_multipart : bool) (batch_size : option nat)
| Fs_listdir (path : string)
| Os_listdir (path : string)
| Is_dir (path : string)
| Is_file (path : string)
| Makedirs (path : string) (exist_ok : bool)
| Random_local_path
| Random_local_directory
| Random_remote_directory.

Record World : Type := {
  nodes : filesystem;
  children : string -> result (list string);   (* what os.listdir answers *)
  trace : list event;
  fresh : nat
}.

(** [ctx.file_access]: the storage client.  Its answers are parameters;
    the calls themselves are logged by the wrappers below. *)
Record FileAccessProvider : Type := {
  is_remote : string -> bool;
  random_local_path : nat -> string;
  random_local_directory : nat -> string;
  random_remote_directory : nat -> string;
  get_data_is_coroutine : bool;
  get_data_outcome :
    string -> string -> bool -> option nat -> filesystem -> result unit * filesystem;
  put_data_outcome :
    string -> string -> bool -> option nat -> filesystem -> result string;
  fs_listdir_outcome : string -> result (list entry)
}.

(** [FlyteContext]: [ctx.file_access], [ctx.execution_state.is_local_execution()]
    and [ctx.user_space_params.working_directory]. *)
Record FlyteContext : Type := {
  file_access : FileAccessProvider;
  is_local_execution : bool;
  working_directory : string
}.

(** *** State and exceptions *)

Definition M (A : Type) : Type := World -> result A * World.

Definition ret {A} (a : A) : M A := fun w => (Ok a, w).

Definition raise {A} (e : exn) : M A := fun w => (Raise e, w).

Definition bind {A B} (m : M A) (k : A -> M B) : M B :=
  fun w =>
    match m w with
    | (Ok a, w') => k a w'
    | (Raise e, w') => (Raise e, w')
    end.

Definition log (e : event) : M unit :=
  fun w => (Ok tt, {| nodes := nodes w; children := children w;
                      trace := trace w ++ [e]; fresh := fresh w |}).

Definition set_nodes (fs : filesystem) (w : World) : World :=
  {| nodes := fs; children := children w; trace := trace w; fresh := fresh w |}.

Definition next_fresh : M nat :=
  fun w => (Ok (fresh w), {| nodes := nodes w; children := children w;
                             trace := trace w; fresh := S (fresh w) |}).

Definition of_result {A} (r : result A) : M A :=
  fun w => (r, w).

Fixpoint mapM {A B} (f : A -> M B) (l : list A) : M (list B) :=
  match l with
  | [] => ret []
  | x :: rest =>
      bind (f x) (fun y => bind (mapM f rest) (fun ys => ret (y :: ys)))
  end.

End Storage.
Export Storage.

Declare Scope io_scope.
Delimit Scope io_scope with io.
Notation "x <- m ;; k" := (bind m (fun x => k))
  (at level 61, m at next level, right associativity) : io_scope.
Notation "m ;;; k" := (bind m (fun _ => k))
  (at level 61, right associativity) : io_scope.
Open Scope io_scope.

(** *** The operating system and the storage client, as logged calls *)

Module Os.

Definition update (fs : filesystem) (p : string) (n : node) : filesystem :=
  fun q => if String.eqb q p then n else fs q.

(** [os.path.isdir(p)] and [pathlib.Path(p).is_dir()] *)
Definition isdir (p : string) : M bool :=
  log (Is_dir p) ;;;
  fun w => (Ok match nodes w p with Dir => true | _ => false end, w).

(** [os.path.isfile(p)] *)
Definition isfile (p : string) : M bool :=
  log (Is_file p) ;;;
  fun w => (Ok match nodes w p with File => true | _ => false end, w).

(** [os.listdir(p)] *)
Definition listdir (p : string) : M (list string) :=
  log (Os_listdir p) ;;; fun w => (children w p, w).

(** [os.mkdir(name)], where [container] is the head of [name] (none when
    [name] lies in the root or in the current directory, which exist): the
    empty name and a missing container raise [FileNotFoundError], a
    container that is no directory raises [NotADirectoryError], anything
    already at [name] raises [FileExistsError]; otherwise the directory
    comes into being. *)
Definition mkdir (container : option string) (name : string) : M unit :=
  fun w =>
    let make :=
      match nodes w name with
      | Absent => (Ok tt, set_nodes (update (nodes w) name Dir) w)
      | _ => (Raise (FileExistsError name), w)
      end in
    if String.eqb name "" then (Raise (FileNotFoundError name), w)
    else
      match container with
      | None => make
      | Some head =>
          match nodes w head with
          | Dir => make
          | File => (Raise (NotADirectoryError name), w)
          | Absent => (Raise (FileNotFoundError name), w)
          end
      end.

(** The end of [os.makedirs]: [mkdir(name)], whose [OSError] is passed over
    when [exist_ok] is set and [name] is a directory. *)
Definition mkdir_unless_there (container : option string) (name : string)
    (exist_ok : bool) : M unit :=
  fun w =>
    match mkdir container name w with
    | (Ok u, w') => (Ok u, w')
    | (Raise e, w') =>
        match exist_ok, nodes w' name with
        | true, Dir => (Ok tt, w')
        | _, _ => (Raise e, w')
        end
    end.

(** The recursion of [os.makedirs(name, exist_ok)] along the heads of
    [name], deepest first.  A head that does not exist is made first, by the
    same procedure, and its [FileExistsError] is passed over; when the last
    component of [name] is ["."] the call returns there, [name] being
    another spelling of the head just made.  Then [mkdir(name)]. *)
Fixpoint makedirs_along (name : string) (chain : list string) (exist_ok : bool)
    : M unit :=
  match chain with
  | [] => mkdir_unless_there None name exist_ok
  | head :: up =>
      fun w =>
        match nodes w head with
        | Absent =>
            let continue w1 :=
              if String.eqb (PosixPath.tail name) "."
              then (Ok tt, set_nodes (update (nodes w1) name (nodes w1 head)) w1)
              else mkdir_unless_there (Some head) name exist_ok w1 in
            match makedirs_along head up exist_ok w with
            | (Ok _, w1) => continue w1
            | (Raise (FileExistsError _), w1) => continue w1
            | (Raise e, w1) => (Raise e, w1)
            end
        | _ => mkdir_unless_there (Some head) name exist_ok w
        end
  end.

(** [os.makedirs(name, exist_ok=...)]: the call is logged once. *)
Definition makedirs (name : string) (exist_ok : bool) : M unit :=
  log (Makedirs name exist_ok) ;;;
  makedirs_along name (rev (PosixPath.heads name)) exist_ok.

End Os.

Module FileAccess.

(** [file_access.get_data(remote, local, is_multipart=..., batch_size=...)] *)
Definition get_data (fa : FileAccessProvider) (remote local : string)
    (is_multipart : bool) (batch_size : option nat) : M unit :=
  log (Get_data remote local is_multipart batch_size) ;;;
  fun w =>
    let '(r, fs) := get_data_outcome fa remote local is_multipart batch_size (nodes w) in
    (r, set_nodes fs w).

(** [await file_access.async_put_data(src, dst, is_multipart=..., batch_size=...)] *)
Definition async_put_data (fa : FileAccessProvider) (src dst : string)
    (is_multipart : bool) (batch_size : option nat) : M string :=
  log (Put_data src dst is_multipart batch_size) ;;;
  fun w => (put_data_outcome fa src dst is_multipart batch_size (nodes w), w).

Definition get_random_local_path (fa : FileAccessProvider) : M string :=
  log Random_local_path ;;; n <- next_fresh ;; ret (random_local_path fa n).

Definition get_random_local_directory (fa : FileAccessProvider) : M string :=
  log Random_local_directory ;;; n <- next_fresh ;; ret (random_local_directory fa n).

Definition get_random_remote_directory (fa : FileAccessProvider) : M string :=
  log Random_remote_directory ;;; n <- next_fresh ;; ret (random_remote_directory fa n).

(** [file_access.get_filesystem_for_path(p).listdir(p)] *)
Definition fs_listdir (fa : FileAccessProvider) (p : string) : M (list entry) :=
  log (Fs_listdir p) ;;; of_result (fs_listdir_outcome fa p).

End FileAccess.

(** ** class FlyteDirectory *)

Module FlyteDirectory.

(** What a handle's [_downloader] can be: the default [noop], a
    [partial(file_access.get_data, ...)] as the codec and [listdir] bind it,
    or a callable given by the caller, which acts on the local filesystem
    and may raise; [is_coroutine] is [asyncio.iscoroutinefunction] of it. *)
Inductive downloader : Type :=
| noop
| partial_get_data (remote local : string) (is_multipart : bool) (batch_size : option nat)
| callable (is_coroutine : bool) (f : filesystem -> result unit * filesystem).

(** The values of [remote_directory]:
    [Optional[Union[os.PathLike, str, Literal[False]]]]. *)
Inductive remote_directory_t : Type :=
| RD_None
| RD_False
| RD_str (s : string)
| RD_Path (s : string)          (* a pathlib.Path *)
| RD_PathLike (s : string).     (* another os.PathLike *)

(** The handle.  [path] is kept as [str(path)] renders it; [format] is
    [extension()] of the handle's class. *)
Record t : Type := {
  path : string;
  _downloader : downloader;
  _downloaded : bool;
  _remote_directory : remote_directory_t;
  _remote_source : option string;
  format : string
}.

(** [cls(path, downloader, remote_directory)], that is [__init__] *)
Definition __init__ (cls : string) (path : string) (downloader : option downloader)
    (remote_directory : remote_directory_t) : t :=
  {| path := path;
     _downloader := match downloader with Some d => d | None => noop end;
     _downloaded := false;
     _remote_directory := remote_directory;
     _remote_source := None;
     format := cls |}.

Definition set_remote_source (self : t) (uri : string) : t :=
  {| path := path self; _downloader := _downloader self;
     _downloaded := _downloaded self;
     _remote_directory := _remote_directory self;
     _remote_source := Some uri; format := format self |}.

Definition set_downloaded (self : t) (b : bool) : t :=
  {| path := path self; _downloader := _downloader self;
     _downloaded := b;
     _remote_directory := _remote_directory self;
     _remote_source := _remote_source self; format := format self |}.

(** [isinstance(rd, (pathlib.Path, str))] *)
Definition is_path_or_str (rd : remote_directory_t) : bool :=
  match rd with RD_str _ | RD_Path _ => true | _ => false end.

(** [rd is False] *)
Definition is_False (rd : remote_directory_t) : bool :=
  match rd with RD_False => true | _ => false end.

(** [rd or None], also the truth value of [rd]: [None], [False] and the
    empty string are falsy. *)
Definition or_None (rd : remote_directory_t) : option string :=
  match rd with
  | RD_None | RD_False => None
  | RD_str s => if String.eqb s "" then None else Some s
  | RD_Path s | RD_PathLike s => Some s
  end.

(** Calling the downloader once. *)
Definition call (ctx : FlyteContext) (d : downloader) : M unit :=
  log Call_downloader ;;;
  match d with
  | noop => ret tt
  | partial_get_data remote local is_multipart batch_size =>
      FileAccess.get_data (file_access ctx) remote local is_multipart batch_size
  | callable _ f =>
      fun w => let '(r, fs) := f (nodes w) in (r, set_nodes fs w)
  end.

(** [loop_manager.synced(d)()]: the coroutine is driven to completion. *)
Definition synced_call (ctx : FlyteContext) (d : downloader) : M unit :=
  call ctx d.

(** [asyncio.iscoroutinefunction(underlying_func)], where the underlying
    function of a [partial] is its [func]. *)
Definition iscoroutinefunction_underlying (ctx : FlyteContext) (d : downloader) : bool :=
  match d with
  | noop => false
  | partial_get_data _ _ _ _ => get_data_is_coroutine (file_access ctx)
  | callable is_coroutine _ => is_coroutine
  end.

(** [__fspath__]: the result, the handle after the call and the world. *)
Definition __fspath__ (ctx : FlyteContext) (self : t) (w : World)
    : result string * t * World :=
  if _downloaded self then (Ok (path self), self, w)
  else
    let run :=
      if iscoroutinefunction_underlying ctx (_downloader self)
      then synced_call ctx (_downloader self)
      else call ctx (_downloader self) in
    match run w with
    | (Ok _, w') => (Ok (path self), set_downloaded self true, w')
    | (Raise e, w') => (Raise e, self, w')
    end.

(** [download] *)
Definition download (ctx : FlyteContext) (self : t) (w : World)
    : result string * t * World :=
  __fspath__ ctx self w.


(** [__class_getitem__(item)] on [FlyteDirectory] itself, as the extension
    of the class it returns.  [FileExt.check_and_convert_to_str] is taken
    on a string, which it returns. *)
Definition __class_getitem__ (item : option string) : string :=
  match item with
  | None => ""
  | Some item =>
      let item_string :=
        Str.lstrip_char "."%char (Str.lstrip_char "~"%char (Str.strip item)) in
      if String.eqb item_string "" then "" else item_string
  end.

(** Modelled from the spec: [FlyteFile] (flytekit.types.file) is not under
    src; a file handle owns a path, a deferred download trigger and the
    remote origin, which is what [listdir] sets on it. *)
Record FlyteFile : Type := {
  file_path : string;
  file_downloader : downloader;
  file_remote_source : option string
}.

Inductive child : Type :=
| A_file (f : FlyteFile)
| A_directory (d : t).

(** The path [listdir] and [crawl] enumerate. *)
Definition final_path (directory : t) : string :=
  match _remote_source directory with
  | Some s =>
      if negb (String.eqb s "") then s
      else match or_None (_remote_directory directory) with
           | Some rd => rd
           | None => path directory
           end
  | None =>
      match or_None (_remote_directory directory) with
      | Some rd => rd
      | None => path directory
      end
  end.

Definition listdir_local_entry (final_path p : string) : M child :=
  let joined_path := PosixPath.join final_path p in
  is_file <- Os.isfile joined_path ;;
  if is_file
  then ret (A_file {| file_path := joined_path; file_downloader := noop;
                      file_remote_source := None |})
  else ret (A_directory (__init__ "" joined_path None RD_None)).

Definition listdir_remote_entry (ctx : FlyteContext) (final_path : string)
    (key : entry) : M child :=
  let remote_path := PosixPath.join final_path (PosixPath.last_component (name key)) in
  if String.eqb (type key) "file" then
    local_path <- FileAccess.get_random_local_path (file_access ctx) ;;
    Os.makedirs (PosixPath.parent local_path) true ;;;
    let downloader := partial_get_data remote_path local_path false None in
    ret (A_file {| file_path := local_path; file_downloader := downloader;
                   file_remote_source := Some remote_path |})
  else
    local_folder <- FileAccess.get_random_local_directory (file_access ctx) ;;
    let downloader := partial_get_data remote_path local_folder true None in
    ret (A_directory
           (set_remote_source (__init__ "" local_folder (Some downloader) RD_None)
                              remote_path)).

(** [listdir(directory)] *)
Definition listdir (ctx : FlyteContext) (directory : t) : M (list child) :=
  let final_path := final_path directory in
  if negb (is_remote (file_access ctx) final_path) then
    ps <- Os.listdir final_path ;;
    mapM (listdir_local_entry final_path) ps
  else
    keys <- FileAccess.fs_listdir (file_access ctx) final_path ;;
    mapM (listdir_remote_entry ctx final_path) keys.

End FlyteDirectory.

(** ** Literals (flytekit.models.literals), as far as the codec reads them *)

Module Literals.

Inductive BlobDimensionality : Type := SINGLE | MULTIPART.

Definition dimensionality_eqb (a b : BlobDimensionality) : bool :=
  match a, b with
  | SINGLE, SINGLE | MULTIPART, MULTIPART => true
  | _, _ => false
  end.

Record BlobType : Type := {
  blob_format : string;
  dimensionality : BlobDimensionality
}.

Record BlobMetadata : Type := { metadata_type : BlobType }.

Record Blob : Type := { metadata : BlobMetadata; uri : string }.

Record Binary : Type := { value : list Byte.byte; tag : string }.

(** A protobuf [Struct] and a decoded payload: a mapping of strings. *)
Definition mapping : Type := list (string * string).

(** [Scalar]: of its fields the codec reads [blob], [binary], [generic]. *)
Record Scalar : Type := {
  blob : option Blob;
  binary : option Binary;
  generic : option mapping
}.

Record Literal : Type := { scalar : option Scalar }.

(** [LiteralType], of which the codec reads [blob]. *)
Record LiteralType : Type := { literal_type_blob : option BlobType }.

(** [dict_obj.get(key, None)] *)
Fixpoint get (key : string) (d : mapping) : option string :=
  match d with
  | [] => None
  | (k, v) :: rest => if String.eqb k key then Some v else get key rest
  end.

(** [Literal(scalar=Scalar(blob=Blob(metadata=meta, uri=uri)))] *)
Definition blob_literal (meta : BlobMetadata) (uri : string) : Literal :=
  {| scalar := Some {| blob := Some {| metadata := meta; uri := uri |};
                       binary := None; generic := None |} |}.

End Literals.
Export Literals.

(** ** class FlyteDirToMultipartBlobTransformer *)

Module Transformer.

Import FlyteDirectory.

(** A Python type [FlyteDirectory[...]], possibly annotated with a batch
    size: its [extension()] and what [get_batch_size] finds on it. *)
Record python_type : Type := {
  extension : string;
  annotated_batch_size : option nat
}.

Definition get_batch_size (t : python_type) : option nat := annotated_batch_size t.

(** The values [async_to_literal] is handed. *)
Inductive python_value : Type :=
| A_FlyteDirectory (d : FlyteDirectory.t)
| A_str (s : string)
| A_Path (s : string)          (* a pathlib.Path, as str() renders it *)
| Another.

Definition get_format (t : python_type) : string := extension t.

Definition _blob_type (format : string) : BlobType :=
  {| blob_format := format; dimensionality := MULTIPART |}.

Definition get_literal_type (t : python_type) : LiteralType :=
  {| literal_type_blob := Some (_blob_type (get_format t)) |}.

(** The tail of [async_to_literal], from [if should_upload:]. *)
Definition emit (ctx : FlyteContext) (meta : BlobMetadata) (batch_size : option nat)
    (should_upload : bool) (remote_directory : option string) (source_path : string)
    : M Literal :=
  if should_upload then
    remote_directory <-
      match remote_directory with
      | None => FileAccess.get_random_remote_directory (file_access ctx)
      | Some rd => ret rd
      end ;;
    is_dir <- Os.isdir source_path ;;
    if negb is_dir then raise (FlyteAssertion (Expected_a_directory source_path))
    else
      remote_directory <-
        FileAccess.async_put_data (file_access ctx) source_path remote_directory
                                  true batch_size ;;
      ret (blob_literal meta remote_directory)
  else ret (blob_literal meta source_path).

(** [should_upload] after the handle branch: it stays [True] unless
    [remote_directory] is neither a [pathlib.Path] nor a [str] and one of the
    three conditions holds. *)
Definition handle_should_upload (ctx : FlyteContext) (python_val : FlyteDirectory.t)
    (source_path : string) : bool :=
  if (negb (is_path_or_str (_remote_directory python_val))
      && (is_False (_remote_directory python_val)
          || is_remote (file_access ctx) source_path
          || is_local_execution ctx))%bool
  then false
  else true.

(** [async_to_literal(ctx, python_val, python_type, expected)] *)
Definition async_to_literal (ctx : FlyteContext) (python_val : python_value)
    (python_type : python_type) : M Literal :=
  let batch_size := get_batch_size python_type in
  let meta := {| metadata_type := _blob_type (get_format python_type) |} in
  match python_val with
  | A_FlyteDirectory d =>
      match _remote_source d with
      | Some remote_source => ret (blob_literal meta remote_source)
      | None =>
          let source_path := path d in
          let should_upload := handle_should_upload ctx d source_path in
          let remote_directory := or_None (_remote_directory d) in
          emit ctx meta batch_size should_upload remote_directory source_path
      end
  | A_str source_path | A_Path source_path =>
      if is_remote (file_access ctx) source_path then
        emit ctx meta batch_size false None source_path
      else
        is_dir <- Os.isdir source_path ;;
        if negb is_dir then raise (ValueError (Expected_a_directory source_path))
        else emit ctx meta batch_size true None source_path
  | Another => raise (AssertionError Expected_FlyteDirectory_or_PathLike)
  end.

(** [async_to_python_value] once the payload gates are passed: from
    [try: uri = lv.scalar.blob.uri] on. *)
Definition blob_to_python_value (ctx : FlyteContext) (lv : Literal)
    (expected_python_type : python_type) : M FlyteDirectory.t :=
  match match scalar lv with Some sc => blob sc | None => None end with
  | None => raise (TypeTransformerFailedError Cannot_convert_from)
  | Some b =>
      let uri := uri b in
      if negb (dimensionality_eqb (dimensionality (metadata_type (metadata b))) MULTIPART)
      then raise (TypeTransformerFailedError (Is_not_a_directory uri))
      else
        not_a_directory <-
          (if negb (is_remote (file_access ctx) uri)
           then is_dir <- Os.isdir uri ;; ret (negb is_dir)
           else ret false) ;;
        if (not_a_directory : bool)
        then raise (FlyteAssertion (Expected_a_directory_but_uri uri))
        else if negb (is_remote (file_access ctx) uri)
        then ret (__init__ (extension expected_python_type) uri None RD_False)
        else
          local_folder <- FileAccess.get_random_local_directory (file_access ctx) ;;
          let batch_size := get_batch_size expected_python_type in
          let _downloader := partial_get_data uri local_folder true batch_size in
          let expected_format := get_format expected_python_type in
          let fd := __init__ (__class_getitem__ (Some expected_format))
                             local_folder (Some _downloader) RD_None in
          ret (set_remote_source fd uri)
  end.

(** [dict_to_flyte_directory]: the literal it builds carries a blob only,
    so the call of [to_python_value] continues after the payload gates. *)
Definition dict_to_flyte_directory (ctx : FlyteContext) (dict_obj : mapping)
    (expected_python_type : python_type) : M FlyteDirectory.t :=
  match get "path" dict_obj with
  | None => raise (ValueError Path_should_not_be_None)
  | Some path =>
      blob_to_python_value ctx
        (blob_literal {| metadata_type :=
                           {| blob_format := ""; dimensionality := MULTIPART |} |} path)
        expected_python_type
  end.

Section Payloads.

(** [flytekit.core.constants.MESSAGEPACK] and [msgpack.loads], neither
    under src. *)
Variable MESSAGEPACK : string.
Variable msgpack_loads : list Byte.byte -> result mapping.

(** [from_binary_idl] *)
Definition from_binary_idl (ctx : FlyteContext) (binary_idl_object : Binary)
    (expected_python_type : python_type) : M FlyteDirectory.t :=
  if String.eqb (tag binary_idl_object) MESSAGEPACK then
    python_val <- of_result (msgpack_loads (value binary_idl_object)) ;;
    dict_to_flyte_directory ctx python_val expected_python_type
  else raise (TypeTransformerFailedError
                (Unsupported_binary_format (tag binary_idl_object))).

(** [from_generic_idl]: the struct read back through JSON is the mapping. *)
Definition from_generic_idl (ctx : FlyteContext) (generic : mapping)
    (expected_python_type : python_type) : M FlyteDirectory.t :=
  dict_to_flyte_directory ctx generic expected_python_type.

(** The truth value of [lv.scalar.generic]: a protobuf [Struct] has a
    length, so one without fields is falsy. *)
Definition truthy_generic (g : option mapping) : option mapping :=
  match g with
  | Some [] => None
  | other => other
  end.

(** [async_to_python_value(ctx, lv, expected_python_type)] *)
Definition async_to_python_value (ctx : FlyteContext) (lv : Literal)
    (expected_python_type : python_type) : M FlyteDirectory.t :=
  match scalar lv with
  | Some sc =>
      match binary sc with
      | Some b => from_binary_idl ctx b expected_python_type
      | None =>
          match truthy_generic (generic sc) with
          | Some g => from_generic_idl ctx g expected_python_type
          | None => blob_to_python_value ctx lv expected_python_type
          end
      end
  | None => blob_to_python_value ctx lv expected_python_type
  end.

End Payloads.

(** [guess_python_type], as the extension of the class it returns *)
Definition guess_python_type (literal_type : LiteralType) : result string :=
  match literal_type_blob literal_type with
  | Some b =>
      if dimensionality_eqb (dimensionality b) MULTIPART
      then Ok (__class_getitem__ (Some (blob_format b)))
      else Raise (ValueError Cannot_reverse)
  | None => Raise (ValueError Cannot_reverse)
  end.

End Transformer.

(** ** Observing a run *)

Module Observe.

Import FlyteDirectory Transformer.

(** The metadata [async_to_literal] puts on every literal it emits. *)
Definition meta_of (pt : python_type) : BlobMetadata :=
  {| metadata_type := _blob_type (get_format pt) |}.

Definition is_downloader_call (e : event) : bool :=
  match e with Call_downloader => true | _ => false end.

Definition is_put_data (e : event) : bool :=
  match e with Put_data _ _ _ _ => true | _ => false end.

(** [get_data] and [put_data]: the calls that move bytes. *)
Definition is_transfer (e : event) : bool :=
  match e with Get_data _ _ _ _ | Put_data _ _ _ _ => true | _ => false end.


Definition count (p : event -> bool) (l : list event) : nat :=
  length (filter p l).

(** [n] calls of [download()] on one handle, one after the other: every
    result, the handle and the world at the end. *)
Fixpoint download_times (ctx : FlyteContext) (n : nat) (self : t) (w : World)
    : list (result string) * t * World :=
  match n with
  | O => ([], self, w)
  | S k =>
      let '(r, self', w') := download ctx self w in
      let '(rs, self'', w'') := download_times ctx k self' w' in
      (r :: rs, self'', w'')
  end.

Definition child_path (c : child) : string :=
  match c with A_file f => file_path f | A_directory d => path d end.

Definition child_downloader (c : child) : downloader :=
  match c with A_file f => file_downloader f | A_directory d => _downloader d end.

Definition child_remote_source (c : child) : option string :=
  match c with A_file f => file_remote_source f | A_directory d => _remote_source d end.

Definition child_is_file (c : child) : bool :=
  match c with A_file _ => true | A_directory _ => false end.

Definition child_downloaded (c : child) : bool :=
  match c with A_file _ => false | A_directory d => _downloaded d end.

(** [c] is the lazy handle for the listed entry [key] of the remote
    directory [p], with the [n]-th random local path as its destination:
    its remote source is the entry's own key under [p], nothing has been
    downloaded, and its downloader fetches that key to that destination,
    as one object for a file and as a multipart for anything else. *)
Definition lazy_child_of (ctx : FlyteContext) (p : string) (n : nat)
    (key : entry) (c : child) : Prop :=
  let remote_path := PosixPath.join p (PosixPath.last_component (name key)) in
  let is_file := String.eqb (type key) "file" in
  let local :=
    if is_file then random_local_path (file_access ctx) n
    else random_local_directory (file_access ctx) n in
  child_is_file c = is_file
  /\ child_remote_source c = Some remote_path
  /\ child_path c = local
  /\ child_downloaded c = false
  /\ child_downloader c = partial_get_data remote_path local (negb is_file) None.







End Observe.

(** ** A concrete context and concrete worlds *)

Module Demo.

Import FlyteDirectory Transformer.

Definition s3 (s : string) : bool := String.prefix "s3://" s.

Definition numbered (stem : string) (n : nat) : string :=
  stem ++ String (ascii_of_nat (48 + n)) "".

Definition file_access : FileAccessProvider := {|
  is_remote := s3;
  random_local_path := numbered "/tmp/flyte/local/f";
  random_local_directory := numbered "/tmp/flyte/local/d";
  random_remote_directory := numbered "s3://raw-output/r";
  get_data_is_coroutine := false;
  get_data_outcome := fun _ local is_multipart _ fs =>
    (Ok tt, Os.update fs local (if is_multipart then Dir else File));
  put_data_outcome := fun _ dst _ _ _ => Ok dst;
  fs_listdir_outcome := fun _ =>
    Ok [ {| name := "bucket/x/a.txt"; type := "file" |};
         {| name := "bucket/x/sub"; type := "directory" |} ]
|}.

Definition ctx (local_execution : bool) : FlyteContext := {|
  Storage.file_access := file_access;
  is_local_execution := local_execution;
  working_directory := "/work"
|}.

(** A machine on which exactly [dirs] are directories. *)
Definition world (dirs : list string) : World := {|
  nodes := fun p => if existsb (String.eqb p) dirs then Dir else Absent;
  children := fun _ => Ok [];
  trace := [];
  fresh := 0
|}.


Definition plain : python_type := {| extension := ""; annotated_batch_size := None |}.

Definition meta : BlobMetadata := {| metadata_type := _blob_type "" |}.

(** A downloader that fails. *)
Definition failing : downloader :=
  callable false (fun fs => (Raise (OSError (Raised_outside "connection reset")), fs)).

End Demo.

(** ** More string methods: [rstrip], slicing, [%032x] *)

Module Text.

(** [s.rstrip(c)] for a single character [c] *)
Fixpoint rstrip_char (c : ascii) (s : string) : string :=
  match s with
  | EmptyString => EmptyString
  | String d rest =>
      match rstrip_char c rest with
      | EmptyString => if Ascii.eqb c d then EmptyString else String d EmptyString
      | kept => String d kept
      end
  end.

(** [s[n:]] *)
Fixpoint drop (n : nat) (s : string) : string :=
  match n, s with
  | O, _ => s
  | S k, String _ rest => drop k rest
  | S _, EmptyString => EmptyString
  end.

Definition hex_digit (d : N) : ascii :=
  match d with
  | 0%N => "0" | 1%N => "1" | 2%N => "2" | 3%N => "3"
  | 4%N => "4" | 5%N => "5" | 6%N => "6" | 7%N => "7"
  | 8%N => "8" | 9%N => "9" | 10%N => "a" | 11%N => "b"
  | 12%N => "c" | 13%N => "d" | 14%N => "e" | _ => "f"
  end%char.

(** ['%0{width}x' % n], the low [width] hexadecimal digits of [n] *)
Fixpoint hex_fixed (width : nat) (n : N) : string :=
  match width with
  | O => EmptyString
  | S k => hex_fixed k (n / 16) ++ String (hex_digit (n mod 16)) EmptyString
  end.

Definition is_hex_digit (c : ascii) : bool :=
  let n := nat_of_ascii c in
  (Nat.leb 48 n && Nat.leb n 57 || Nat.leb 97 n && Nat.leb n 102)%bool.

Fixpoint forallb_string (p : ascii -> bool) (s : string) : bool :=
  match s with
  | EmptyString => true
  | String c rest => (p c && forallb_string p rest)%bool
  end.

(** [s.endswith(c)] for a single character [c] *)
Fixpoint ends_with_char (c : ascii) (s : string) : bool :=
  match s with
  | EmptyString => false
  | String d EmptyString => Ascii.eqb c d
  | String _ rest => ends_with_char c rest
  end.

End Text.

(** ** class FlyteDirectory, the methods that build on the codec *)

Module Methods.

Import FlyteDirectory Transformer.

Section Platform.

(** [os.name], [fsspec.utils.get_protocol] on the value it is handed ([None]
    standing for a falsy [None] or [False]), and the successive results of
    [random.getrandbits(128)]. *)
Variable os_name : string.
Variable get_protocol : option string -> result string.
Variable getrandbits : nat -> N.

(** [self.path or self.remote_source or self.remote_directory]: the first
    truthy one, else the last. *)
Definition protocol_subject (self : t) : option string :=
  let last :=
    match _remote_directory self with
    | RD_None | RD_False => None
    | RD_str s | RD_Path s | RD_PathLike s => Some s
    end in
  if negb (String.eqb (path self) "") then Some (path self)
  else match _remote_source self with
       | Some s => if negb (String.eqb s "") then Some s else last
       | None => last
       end.

(** The property [sep] *)
Definition sep (self : t) : result ascii :=
  if String.eqb os_name "nt" then
    match get_protocol (protocol_subject self) with
    | Ok protocol => if String.eqb protocol "file" then Ok "\"%char else Ok "/"%char
    | Raise e => Raise e
    end
  else Ok "/"%char.

(** [UUID(int=random.getrandbits(128)).hex] *)
Definition random_name : M string :=
  n <- next_fresh ;;
  ret (Text.hex_fixed 32 (getrandbits n mod 2 ^ 128)%N).

(** [if not name: name = ...] *)
Definition name_or_random (name : option string) : M string :=
  match name with
  | Some given => if String.eqb given "" then random_name else ret given
  | None => random_name
  end.

(** [self.sep.join([str(self.path).rstrip(self.sep), name])] *)
Definition child_path_of (self : t) (name : string) : M string :=
  s <- of_result (sep self) ;;
  ret (Text.rstrip_char s (path self) ++ String s name).

(** [new_file(name)] *)
Definition new_file (self : t) (name : option string) : M FlyteFile :=
  name <- name_or_random name ;;
  new_path <- child_path_of self name ;;
  ret {| file_path := new_path; file_downloader := noop; file_remote_source := None |}.

(** [new_dir(name)] *)
Definition new_dir (self : t) (name : option string) : M t :=
  name <- name_or_random name ;;
  new_path <- child_path_of self name ;;
  ret (__init__ "" new_path None RD_None).

End Platform.

(** [from_source(source)] on the class [cls]: the literal it builds carries a
    multipart blob only. *)
Definition from_source (ctx : FlyteContext) (cls : python_type) (source : string)
    : M t :=
  blob_to_python_value ctx
    (blob_literal {| metadata_type := {| blob_format := ""; dimensionality := MULTIPART |} |}
                  source)
    cls.

(** [type(self)] as the codec sees it: the class of the handle, not annotated. *)
Definition type_of (self : t) : python_type :=
  {| extension := format self; annotated_batch_size := None |}.

(** [lv.scalar.blob.uri]; the codec only emits blob literals, so the
    attribute error of a literal without blob is never met by [_serialize]. *)
Definition blob_uri (lv : Literal) : result string :=
  match scalar lv with
  | Some {| blob := Some b |} => Ok (uri b)
  | _ => Raise (OSError (Raised_outside "AttributeError"))
  end.

(** [_serialize] and [serialize_flyte_dir]: [{"path": lv.scalar.blob.uri}] *)
Definition _serialize (ctx : FlyteContext) (self : t) : M mapping :=
  lv <- async_to_literal ctx (A_FlyteDirectory self) (type_of self) ;;
  uri <- of_result (blob_uri lv) ;;
  ret [("path", uri)].

(** [_deserialize(value)] on the class [cls] *)
Definition _deserialize (ctx : FlyteContext) (cls : python_type) (value : mapping) : M t :=
  dict_to_flyte_directory ctx value cls.

(** What [fs.walk] yields for one directory: the file names, or with
    [detail=True] the names with their metadata. *)
Inductive walked : Type :=
| Names (files : list string)
| Details (files : list (string * mapping)).

(** What [crawl] yields beside the base path. *)
Inductive crawled : Type :=
| Relative_path (p : string)
| Relative_detail (p : string) (v : mapping).

Section Crawl.

(** [fsspec.core.strip_protocol] and [fs.walk(path, maxdepth, topdown, **kwargs)]
    of the filesystem for the path, as the triples' base and files. *)
Variable strip_protocol : string -> string.
Variable walk : string -> option nat -> bool -> mapping -> list (string * walked).

(** [crawl(maxdepth, topdown, **kwargs)], as the list of what it yields *)
Definition crawl (self : t) (maxdepth : option nat) (topdown : bool) (kwargs : mapping)
    : list (string * crawled) :=
  let final_path := final_path self in
  let base_path_len := String.length (strip_protocol final_path) + 1 in
  flat_map
    (fun '(base, files) =>
       let current_base := Text.drop base_path_len base in
       match files with
       | Details d =>
           map (fun '(f, v) =>
                  (final_path, Relative_detail (PosixPath.join current_base f) v)) d
       | Names l =>
           map (fun f => (final_path, Relative_path (PosixPath.join current_base f))) l
       end)
    (walk final_path maxdepth topdown kwargs).

End Crawl.

End Methods.

(** ** Observing the codec and the methods *)

Module ObserveMore.

Import FlyteDirectory Transformer Observe Methods.

(** What [async_to_literal] returns once [put_data] has answered. *)
Definition uploaded (pt : python_type) (r : result string) : result Literal :=
  match r with
  | Ok remote => Ok (blob_literal (meta_of pt) remote)
  | Raise e => Raise e
  end.

Definition is_get_data (e : event) : bool :=
  match e with Get_data _ _ _ _ => true | _ => false end.

(** What a run may add to the trace when it uploads at most once: [evs]
    holds no [get_data], at most one [put_data], and every [put_data] is a
    multipart upload of [src] with batch size [bs]. *)
Definition uploads_at_most (src : string) (bs : option nat) (evs : list event) : Prop :=
  count is_put_data evs <= 1
  /\ count is_get_data evs = 0
  /\ forall s dst m b, In (Put_data s dst m b) evs -> s = src /\ m = true /\ b = bs.

(** The literal [dict_to_flyte_directory] builds for a path. *)
Definition directory_literal (path : string) : Literal :=
  blob_literal {| metadata_type := {| blob_format := ""; dimensionality := MULTIPART |} |}
               path.

(** The handle [listdir] wraps around the entry [name] of the local
    directory [p] on the filesystem [fs]: a file handle for a regular file, a
    directory handle for anything else. *)
Definition local_child (fs : filesystem) (p name : string) : child :=
  let joined_path := PosixPath.join p name in
  match fs joined_path with
  | File => A_file {| file_path := joined_path; file_downloader := noop;
                      file_remote_source := None |}
  | _ => A_directory (__init__ "" joined_path None RD_None)
  end.

(** The base path [fs.walk] reports for the directory [rel] under [root]. *)
Definition under (root rel : string) : string :=
  if String.eqb rel "" then root else root ++ "/" ++ rel.

(** The files of one walked directory, relative to the crawled root. *)
Definition relative_entries (final_path rel : string) (files : walked)
    : list (string * crawled) :=
  match files with
  | Names l =>
      map (fun f => (final_path, Relative_path (PosixPath.join rel f))) l
  | Details d =>
      map (fun '(f, v) => (final_path, Relative_detail (PosixPath.join rel f) v)) d
  end.

Definition file_count (files : walked) : nat :=
  match files with Names l => length l | Details d => length d end.

Fixpoint last_char (s : string) : option ascii :=
  match s with
  | EmptyString => None
  | String c EmptyString => Some c
  | String _ rest => last_char rest
  end.

(** A format as it is written bare: it neither begins nor ends with white
    space and does not begin with [~] or [.]. *)
Definition canonical_extension (s : string) : bool :=
  match s with
  | EmptyString => true
  | String c _ =>
      (negb (Str.is_space c) && negb (Ascii.eqb "~" c) && negb (Ascii.eqb "." c)
       && match last_char s with
          | Some l => negb (Str.is_space l)
          | None => true
          end)%bool
  end.

End ObserveMore.

(** * The Kubeflow PyTorch plugin (flytekitplugins/kfpytorch/task.py) *)

Module KfPytorch.

Local Open Scope Z_scope.

(** Exceptions of the module, with the fixed messages of the source. *)
Inductive raised : Type :=
| ValueError (message : string)
| ImportError (message : string)
| FlyteRecoverableException (message : string) (timestamp : Z)
| FlyteUserRuntimeException (message : string) (timestamp : Z)
| IgnoreOutputs
| Propagated (what : string).

Definition TORCH_IMPORT_ERROR_MESSAGE : string :=
  "PyTorch is not installed. Please install `flytekitplugins-kfpytorch['elastic']`.".

Inductive RestartPolicy : Type := ALWAYS | FAILURE | NEVER.

Inductive CleanPodPolicy : Type := NONE | ALL | RUNNING.

Record SchedulingPolicy : Type := {
  queue : option string;
  priority_class : option string;
  min_available : option Z
}.

Record RunPolicy : Type := {
  clean_pod_policy : option CleanPodPolicy;
  ttl_seconds_after_finished : option Z;
  active_deadline_seconds : option Z;
  backoff_limit : option Z;
  scheduling_policy : option SchedulingPolicy;
  suspend : option bool
}.

(** [flytekit.Resources], as the conversion reads it. *)
Definition Resources : Type := list (string * string).

Module Worker.
Record t : Type := {
  image : option string;
  requests : option Resources;
  limits : option Resources;
  replicas : option Z;
  restart_policy : option RestartPolicy
}.
End Worker.

Module Master.
Record t : Type := {
  image : option string;
  requests : option Resources;
  limits : option Resources;
  restart_policy : option RestartPolicy
}.
End Master.

Record PyTorch : Type := {
  master : Master.t;
  worker : Worker.t;
  run_policy : option RunPolicy;
  num_workers : option Z;
  increase_shared_mem : bool
}.

Inductive nnodes_t : Type :=
| Nodes_int (n : Z)
| Nodes_str (s : string).

Record Elastic : Type := {
  nnodes : nnodes_t;
  nproc_per_node : Z;
  start_method : string;
  monitor_interval : Z;
  max_restarts : Z;
  rdzv_configs : list (string * Z);
  elastic_increase_shared_mem : bool;
  elastic_run_policy : option RunPolicy
}.

(** The protobuf messages of flyteidl the plugin fills; a field left at
    [None] is unset. *)
Module Idl.

Record SchedulingPolicy : Type := {
  queue : option string;
  priority_class : option string;
  min_available : option Z
}.

Record RunPolicy : Type := {
  clean_pod_policy : option CleanPodPolicy;
  ttl_seconds_after_finished : option Z;
  active_deadline_seconds : option Z;
  backoff_limit : option Z;
  scheduling_policy : SchedulingPolicy;
  suspend : option bool
}.

Record ReplicaSpec : Type := {
  replicas : option Z;
  image : option string;
  resources : option (Resources * Resources);
  restart_policy : option RestartPolicy
}.

Record ElasticConfig : Type := {
  rdzv_backend : string;
  min_replicas : Z;
  max_replicas : Z;
  nproc_per_node : Z;
  max_restarts : Z
}.

Record TrainingTask : Type := {
  worker_replicas : option ReplicaSpec;
  master_replicas : option ReplicaSpec;
  elastic_config : option ElasticConfig;
  run_policy : option RunPolicy
}.

End Idl.

(** The truth value of an optional integer: [None] and [0] are falsy. *)
Definition truthy (n : option Z) : bool :=
  match n with
  | Some z => negb (z =? 0)
  | None => false
  end.

Definition is_None {A} (x : option A) : bool :=
  match x with None => true | Some _ => false end.

(** [_convert_run_policy_to_flyte_idl]: the scheduling policy message is
    always built, from the fields of the given one or with all fields unset. *)
Definition _convert_run_policy_to_flyte_idl (run_policy : RunPolicy) : Idl.RunPolicy :=
  {| Idl.clean_pod_policy := clean_pod_policy run_policy;
     Idl.ttl_seconds_after_finished := ttl_seconds_after_finished run_policy;
     Idl.active_deadline_seconds := active_deadline_seconds run_policy;
     Idl.backoff_limit := backoff_limit run_policy;
     Idl.scheduling_policy :=
       {| Idl.queue :=
            match scheduling_policy run_policy with
            | Some sp => queue sp
            | None => None
            end;
          Idl.priority_class :=
            match scheduling_policy run_policy with
            | Some sp => priority_class sp
            | None => None
            end;
          Idl.min_available :=
            match scheduling_policy run_policy with
            | Some sp => min_available sp
            | None => None
            end |};
     Idl.suspend := suspend run_policy |}.

(** How a task was declared: the [shared_memory] argument of the task and the
    pod template given to it. *)
Inductive shared_memory_t : Type :=
| Shm_None
| Shm_bool (b : bool)
| Shm_size (s : string).

Section Tasks.

(** [flytekit.PodTemplate] with [PodTemplate()], and the collaborators that
    are not under src: [convert_resources_to_resource_model(...)] followed by
    [to_flyte_idl()] ([None] for a falsy model),
    [add_shared_mem_volume_to_pod_template], and
    [torch.distributed.run.parse_min_max_nnodes]. *)
Variable PodTemplate : Type.
Variable empty_pod_template : PodTemplate.
Variable resources_to_flyte_idl :
  option Resources -> option Resources -> option (Resources * Resources).
Variable add_shared_mem_volume_to_pod_template : PodTemplate -> PodTemplate.
Variable parse_min_max_nnodes : string -> raised + (Z * Z).

(** [if increase_shared_mem and (shared_memory is False or shared_memory is None)] *)
Definition with_shared_memory (increase : bool) (shared_memory : shared_memory_t)
    (pod_template : option PodTemplate) : option PodTemplate :=
  if (increase
      && match shared_memory with
         | Shm_None | Shm_bool false => true
         | Shm_bool true | Shm_size _ => false
         end)%bool
  then Some (add_shared_mem_volume_to_pod_template
               match pod_template with
               | Some given => given
               | None => empty_pod_template
               end)
  else pod_template.

(** *** class PyTorchFunctionTask *)

Record PyTorchFunctionTask : Type := {
  task_config : PyTorch;
  task_type : string;
  task_type_version : Z;
  shared_memory : shared_memory_t;
  pod_template : option PodTemplate
}.

Definition _PYTORCH_TASK_TYPE : string := "pytorch".

(** [PyTorchFunctionTask.__init__] *)
Definition PyTorchFunctionTask__init__ (task_config : PyTorch)
    (shared_memory : shared_memory_t) (pod_template : option PodTemplate)
    : raised + PyTorchFunctionTask :=
  if (truthy (num_workers task_config)
      && truthy (Worker.replicas (worker task_config)))%bool
  then inl (ValueError "Cannot specify both `num_workers` and `worker.replicas`. Please use `worker.replicas` as `num_workers` is depreacated.")
  else if (is_None (num_workers task_config)
           && is_None (Worker.replicas (worker task_config)))%bool
  then inl (ValueError "Must specify either `num_workers` or `worker.replicas`. Please use `worker.replicas` as `num_workers` is depreacated.")
  else inr {| task_config := task_config;
              task_type := _PYTORCH_TASK_TYPE;
              task_type_version := 1;
              shared_memory := shared_memory;
              pod_template :=
                with_shared_memory (increase_shared_mem task_config)
                                   shared_memory pod_template |}.

(** [_convert_replica_spec] for the master: it always has one replica. *)
Definition _convert_replica_spec_master (replica_config : Master.t) : Idl.ReplicaSpec :=
  {| Idl.replicas := Some 1;
     Idl.image := Master.image replica_config;
     Idl.resources := resources_to_flyte_idl (Master.requests replica_config)
                                             (Master.limits replica_config);
     Idl.restart_policy := Master.restart_policy replica_config |}.

(** [_convert_replica_spec] for a worker group *)
Definition _convert_replica_spec_worker (replica_config : Worker.t) : Idl.ReplicaSpec :=
  {| Idl.replicas := Worker.replicas replica_config;
     Idl.image := Worker.image replica_config;
     Idl.resources := resources_to_flyte_idl (Worker.requests replica_config)
                                             (Worker.limits replica_config);
     Idl.restart_policy := Worker.restart_policy replica_config |}.

Definition set_replicas (spec : Idl.ReplicaSpec) (n : option Z) : Idl.ReplicaSpec :=
  {| Idl.replicas := n;
     Idl.image := Idl.image spec;
     Idl.resources := Idl.resources spec;
     Idl.restart_policy := Idl.restart_policy spec |}.

(** [PyTorchFunctionTask.get_custom], as the message handed to [MessageToDict] *)
Definition get_custom (self : PyTorchFunctionTask) : Idl.TrainingTask :=
  let worker := _convert_replica_spec_worker (worker (task_config self)) in
  let worker :=
    if truthy (num_workers (task_config self))
    then set_replicas worker (num_workers (task_config self))
    else worker in
  let run_policy :=
    match run_policy (task_config self) with
    | Some rp => Some (_convert_run_policy_to_flyte_idl rp)
    | None => None
    end in
  {| Idl.worker_replicas := Some worker;
     Idl.master_replicas := Some (_convert_replica_spec_master (master (task_config self)));
     Idl.elastic_config := None;
     Idl.run_policy := run_policy |}.

(** *** class PytorchElasticFunctionTask *)

Record PytorchElasticFunctionTask : Type := {
  elastic_task_config : Elastic;
  elastic_task_type : string;
  elastic_task_type_version : Z;
  min_nodes : Z;
  max_nodes : Z;
  rdzv_backend : string;
  elastic_shared_memory : shared_memory_t;
  elastic_pod_template : option PodTemplate
}.

Definition _ELASTIC_TASK_TYPE : string := "pytorch".
Definition _ELASTIC_TASK_TYPE_STANDALONE : string := "python-task".

(** [task_config.nnodes == 1]: a string is never equal to [1]. *)
Definition nnodes_is_1 (n : nnodes_t) : bool :=
  match n with
  | Nodes_int z => z =? 1
  | Nodes_str _ => false
  end.

(** [str(task_config.nnodes)] *)
Definition str_nnodes (n : nnodes_t) : string :=
  match n with
  | Nodes_int z => NilZero.string_of_int (Z.to_int z)
  | Nodes_str s => s
  end.

(** [PytorchElasticFunctionTask.__init__]; [torch_installed] tells whether
    [from torch.distributed import run] succeeds. *)
Definition PytorchElasticFunctionTask__init__ (torch_installed : bool)
    (task_config : Elastic) (shared_memory : shared_memory_t)
    (pod_template : option PodTemplate) : raised + PytorchElasticFunctionTask :=
  let task_type :=
    if nnodes_is_1 (nnodes task_config)
    then _ELASTIC_TASK_TYPE_STANDALONE else _ELASTIC_TASK_TYPE in
  if negb torch_installed then inl (ImportError TORCH_IMPORT_ERROR_MESSAGE)
  else
    match parse_min_max_nnodes (str_nnodes (nnodes task_config)) with
    | inl e => inl e
    | inr (min_nodes, max_nodes) =>
        inr {| elastic_task_config := task_config;
               elastic_task_type := task_type;
               elastic_task_type_version := 1;
               min_nodes := min_nodes;
               max_nodes := max_nodes;
               rdzv_backend := "c10d";
               elastic_shared_memory := shared_memory;
               elastic_pod_template :=
                 with_shared_memory (elastic_increase_shared_mem task_config)
                                    shared_memory pod_template |}
    end.

(** [PytorchElasticFunctionTask.get_custom]: [None] stands for what the plain
    Python task returns, [Some] for the PyTorch job message. *)
Definition elastic_get_custom (self : PytorchElasticFunctionTask)
    : option Idl.TrainingTask :=
  if nnodes_is_1 (nnodes (elastic_task_config self)) then None
  else
    let elastic_config :=
      {| Idl.rdzv_backend := rdzv_backend self;
         Idl.min_replicas := min_nodes self;
         Idl.max_replicas := max_nodes self;
         Idl.nproc_per_node := nproc_per_node (elastic_task_config self);
         Idl.max_restarts := max_restarts (elastic_task_config self) |} in
    let run_policy :=
      match elastic_run_policy (elastic_task_config self) with
      | Some rp => Some (_convert_run_policy_to_flyte_idl rp)
      | None => None
      end in
    Some {| Idl.worker_replicas :=
              Some {| Idl.replicas := Some (max_nodes self); Idl.image := None;
                      Idl.resources := None; Idl.restart_policy := None |};
            Idl.master_replicas := None;
            Idl.elastic_config := Some elastic_config;
            Idl.run_policy := run_policy |}.

End Tasks.

(** *** _execute *)

Section Execute.

(** The values tasks return, decks, output metadata and task arguments. *)
Variable Value Deck OutputMetadata Kwargs : Type.

(** [isinstance(deck, flytekit.deck.deck.TimeLineDeck)] *)
Variable is_timeline_deck : Deck -> bool.

Record ElasticWorkerResult : Type := {
  return_value : Value;
  decks : list Deck;
  om : option OutputMetadata
}.

Record LaunchConfig : Type := {
  run_id : string;
  config_min_nodes : Z;
  config_max_nodes : Z;
  config_nproc_per_node : Z;
  config_rdzv_backend : string;
  config_rdzv_configs : list (string * Z);
  rdzv_endpoint : string;
  config_max_restarts : Z;
  config_monitor_interval : Z;
  config_start_method : string
}.

(** What is launched in the workers, with its arguments. *)
Inductive entrypoint : Type :=
| spawn_helper (fn : list Byte.byte) (raw_output_prefix : string)
               (checkpoint_dest checkpoint_src : option string) (kwargs : Kwargs)
| fn_partial (kwargs : Kwargs).

(** The first failure of a [ChildFailedError]. *)
Record ProcessFailure : Type := { timestamp : Z }.

(** How the call of [elastic_launch(config, entrypoint)] on its arguments ends: with the results by
    rank, with a [ChildFailedError] (its first failure, [format_msg()] and
    [str]), with a [SignalException], or with another exception. *)
Inductive launch_outcome : Type :=
| Returned (out : list (Z * ElasticWorkerResult))
| ChildFailedError (first_failure : ProcessFailure) (format_msg str : string)
| SignalException
| Another_exception (what : string).

Inductive logged : Type :=
| Warning_rendezvous_might_timeout
| Warning_setting_OMP_NUM_THREADS
| Exception_agent_terminating.

(** The process around the task: [os.environ], the decks of the current
    context, what was added to the output metadata tracker, what was logged,
    and what was launched. *)
Record Process : Type := {
  environ : string -> option string;
  current_decks : list Deck;
  tracked : list (Value * OutputMetadata);
  log : list logged;
  launched : list (LaunchConfig * entrypoint)
}.

(** [flytekit.current_context()]: the execution name, the raw output prefix
    and the checkpoint paths, [None] when reading them raises
    [NotImplementedError]. *)
Record ExecutionParameters : Type := {
  execution_id_name : string;
  raw_output_prefix : string;
  checkpoint : option (option string * option string)
}.

Variable PodTemplate : Type.
Variable torch_installed : bool.
Variable cloudpickle_dumps_task_function : list Byte.byte.
Variable is_recoverable_worker_error : ProcessFailure -> bool.
Variable elastic_launch :
  LaunchConfig -> entrypoint -> (string -> option string) -> launch_outcome.

Definition setenv (env : string -> option string) (k v : string)
    : string -> option string :=
  fun q => if String.eqb q k then Some v else env q.

Definition add_log (l : logged) (p : Process) : Process :=
  {| environ := environ p; current_decks := current_decks p; tracked := tracked p;
     log := (log p ++ [l])%list; launched := launched p |}.

Definition set_environ (env : string -> option string) (p : Process) : Process :=
  {| environ := env; current_decks := current_decks p; tracked := tracked p;
     log := log p; launched := launched p |}.

Definition add_launch (c : LaunchConfig) (e : entrypoint) (p : Process) : Process :=
  {| environ := environ p; current_decks := current_decks p; tracked := tracked p;
     log := log p; launched := (launched p ++ [(c, e)])%list |}.

(** [out[0]] when [0 in out] *)
Fixpoint rank_zero (out : list (Z * ElasticWorkerResult)) : option ElasticWorkerResult :=
  match out with
  | [] => None
  | (rank, r) :: rest => if rank =? 0 then Some r else rank_zero rest
  end.

(** The end of [_execute], from [if 0 in out:]. *)
Definition collect (out : list (Z * ElasticWorkerResult)) (p : Process)
    : (raised + Value) * Process :=
  match rank_zero out with
  | Some r =>
      let decks := (current_decks p
                    ++ filter (fun deck => negb (is_timeline_deck deck)) (decks r))%list in
      let tracked :=
        match om r with
        | Some m => (tracked p ++ [(return_value r, m)])%list
        | None => tracked p
        end in
      (inr (return_value r),
       {| environ := environ p; current_decks := decks; tracked := tracked;
          log := log p; launched := launched p |})
  | None => (inl IgnoreOutputs, p)
  end.

(** [PytorchElasticFunctionTask._execute] on the keyword arguments [kwargs] *)
Definition _execute (self : PytorchElasticFunctionTask PodTemplate)
    (ctx : ExecutionParameters) (kwargs : Kwargs) (p : Process)
    : (raised + Value) * Process :=
  if negb torch_installed then (inl (ImportError TORCH_IMPORT_ERROR_MESSAGE), p)
  else
    let dist_env_vars_set := negb (is_None (environ p "PET_NNODES")) in
    let p :=
      if (negb dist_env_vars_set && (min_nodes _ self >? 1))%bool
      then add_log Warning_rendezvous_might_timeout p else p in
    let p :=
      if (is_None (environ p "OMP_NUM_THREADS")
          && (nproc_per_node (elastic_task_config _ self) >? 1))%bool
      then set_environ (setenv (environ p) "OMP_NUM_THREADS" "1")
                       (add_log Warning_setting_OMP_NUM_THREADS p)
      else p in
    let config :=
      {| run_id := execution_id_name ctx;
         config_min_nodes := min_nodes _ self;
         config_max_nodes := max_nodes _ self;
         config_nproc_per_node := nproc_per_node (elastic_task_config _ self);
         config_rdzv_backend := rdzv_backend _ self;
         config_rdzv_configs := rdzv_configs (elastic_task_config _ self);
         rdzv_endpoint :=
           match environ p "PET_RDZV_ENDPOINT" with
           | Some endpoint => endpoint
           | None => "localhost:0"
           end;
         config_max_restarts := max_restarts (elastic_task_config _ self);
         config_monitor_interval := monitor_interval (elastic_task_config _ self);
         config_start_method := start_method (elastic_task_config _ self) |} in
    let target :=
      if String.eqb (start_method (elastic_task_config _ self)) "spawn" then
        let '(checkpoint_dest, checkpoint_src) :=
          match checkpoint ctx with
          | Some paths => paths
          | None => (None, None)
          end in
        Some (spawn_helper cloudpickle_dumps_task_function (raw_output_prefix ctx)
                           checkpoint_dest checkpoint_src kwargs)
      else if String.eqb (start_method (elastic_task_config _ self)) "fork" then
        Some (fn_partial kwargs)
      else None in
    match target with
    | None => (inl (ValueError "Bad start method"), p)
    | Some launcher =>
        let p := add_launch config launcher p in
        match elastic_launch config launcher (environ p) with
        | ChildFailedError first_failure format_msg str =>
            if is_recoverable_worker_error first_failure
            then (inl (FlyteRecoverableException format_msg (timestamp first_failure)), p)
            else (inl (FlyteUserRuntimeException str (timestamp first_failure)), p)
        | SignalException => (inl IgnoreOutputs, add_log Exception_agent_terminating p)
        | Another_exception what => (inl (Propagated what), p)
        | Returned out => collect out p
        end
    end.

End Execute.

Arguments task_config {PodTemplate} _.
Arguments task_type {PodTemplate} _.
Arguments task_type_version {PodTemplate} _.
Arguments shared_memory {PodTemplate} _.
Arguments pod_template {PodTemplate} _.
Arguments get_custom {PodTemplate} _ _.
Arguments elastic_task_config {PodTemplate} _.
Arguments elastic_task_type {PodTemplate} _.
Arguments elastic_task_type_version {PodTemplate} _.
Arguments min_nodes {PodTemplate} _.
Arguments max_nodes {PodTemplate} _.
Arguments rdzv_backend {PodTemplate} _.
Arguments elastic_shared_memory {PodTemplate} _.
Arguments elastic_pod_template {PodTemplate} _.
Arguments elastic_get_custom {PodTemplate} _.
Arguments return_value {Value Deck OutputMetadata} _.
Arguments decks {Value Deck OutputMetadata} _.
Arguments om {Value Deck OutputMetadata} _.
Arguments spawn_helper {Kwargs} _ _ _ _ _.
Arguments fn_partial {Kwargs} _.
Arguments Returned {Value Deck OutputMetadata} _.
Arguments ChildFailedError {Value Deck OutputMetadata} _ _ _.
Arguments SignalException {Value Deck OutputMetadata}.
Arguments Another_exception {Value Deck OutputMetadata} _.
Arguments environ {Value Deck OutputMetadata Kwargs} _ _.
Arguments current_decks {Value Deck OutputMetadata Kwargs} _.
Arguments tracked {Value Deck OutputMetadata Kwargs} _.
Arguments log {Value Deck OutputMetadata Kwargs} _.
Arguments launched {Value Deck OutputMetadata Kwargs} _.
Arguments add_log {Value Deck OutputMetadata Kwargs} _ _.
Arguments set_environ {Value Deck OutputMetadata Kwargs} _ _.
Arguments add_launch {Value Deck OutputMetadata Kwargs} _ _ _.
Arguments rank_zero {Value Deck OutputMetadata} _.
Arguments collect {Value Deck OutputMetadata Kwargs} _ _ _.
Arguments _execute {Value Deck OutputMetadata Kwargs} _ {PodTemplate} _ _ _ _ _ _ _ _.

End KfPytorch.

(** * The Airflow connector (flytekitplugins/airflow/connector.py) *)

Module Airflow.

Inductive raised : Type :=
| FlyteUserException (message : string)
| AttributeError (message : string)
| Propagated (what : string).

(** [AirflowObj(module=..., name=..., parameters=...)], as the connector
    builds it. *)
Record AirflowObj : Type := {
  module : string;
  name : string;
  parameters : list (string * string)
}.

Record AirflowMetadata : Type := {
  airflow_operator : AirflowObj;
  airflow_trigger : option AirflowObj;
  airflow_trigger_callback : option string;
  job_id : option string
}.

Inductive phase : Type := RUNNING | SUCCEEDED | FAILED.

Record TaskLog : Type := { uri : string; log_name : string }.

Record Resource : Type := {
  resource_phase : phase;
  message : option string;
  log_links : list TaskLog
}.

(** What [_get_airflow_instance] returned, by the [isinstance] tests of the
    connector: a sensor is an operator too and is asked first. *)
Inductive kind : Type :=
| A_sensor
| An_operator
| Something_else.

(** [td.trigger] of a [TaskDeferred]: its module, the name of its class and
    its [__dict__]. *)
Record Trigger : Type := {
  trigger_module : string;
  trigger_class_name : string;
  trigger_dict : list (string * string)
}.

(** How [airflow_instance.execute(context)] ends. *)
Inductive executed : Type :=
| Execute_returned
| TaskDeferred (trigger : Trigger) (method_name : string)
| Execute_raised (what : string).

(** How waiting two seconds for the first event of the trigger ends. *)
Inductive awaited : Type :=
| Event (payload : string)
| TimeoutError
| Trigger_AirflowException (str : string)
| Trigger_raised (what : string).

(** How looking the callback up and calling it with the payload ends. *)
Inductive called_back : Type :=
| Callback_returned
| Callback_AirflowException (str : string)
| Callback_TimeoutError
| Callback_raised (what : string).

(** An Airflow operator, sensor or trigger instance, by what the connector
    asks of it; [dataproc] holds [region] and [project_id] when the instance
    is a [DataprocJobBaseOperator], [instance_job_id] is the [job_id]
    attribute when there is one. *)
Record instance : Type := {
  instance_kind : kind;
  execute : executed;
  poke : raised + bool;
  run_first_event : awaited;
  call_back : option string -> string -> called_back;
  dataproc : option (string * string);
  instance_job_id : option string
}.

(** [dict.pop(key, None)] on a copy *)
Definition pop (key : string) (d : list (string * string)) : list (string * string) :=
  filter (fun kv => negb (String.eqb (fst kv) key)) d.

Section Connector.

(** [_get_airflow_instance], and whether the Dataproc provider can be
    imported. *)
Variable _get_airflow_instance : AirflowObj -> instance.
Variable dataproc_provider_installed : bool.

(** [create], from the unpickled task configuration *)
Definition create (airflow_obj : AirflowObj) : raised + AirflowMetadata :=
  let airflow_instance := _get_airflow_instance airflow_obj in
  let resource_meta :=
    {| airflow_operator := airflow_obj; airflow_trigger := None;
       airflow_trigger_callback := None; job_id := None |} in
  match instance_kind airflow_instance with
  | An_operator =>
      match execute airflow_instance with
      | Execute_returned => inr resource_meta
      | TaskDeferred trigger method_name =>
          let parameters := trigger_dict trigger in
          let parameters := pop "task_instance" parameters in
          let parameters := pop "trigger_id" parameters in
          inr {| airflow_operator := airflow_obj;
                 airflow_trigger :=
                   Some {| module := trigger_module trigger;
                           name := trigger_class_name trigger;
                           parameters := parameters |};
                 airflow_trigger_callback := Some method_name;
                 job_id := None |}
      | Execute_raised what => inl (Propagated what)
      end
  | A_sensor | Something_else => inr resource_meta
  end.

(** [get_log_links] *)
Definition get_log_links (airflow_operator : instance) (airflow_trigger : option instance)
    : raised + list TaskLog :=
  if dataproc_provider_installed then
    match dataproc airflow_operator with
    | Some (region, project_id) =>
        match airflow_trigger with
        | Some trigger =>
            match instance_job_id trigger with
            | Some job_id =>
                inr [ {| uri := "https://console.cloud.google.com/dataproc/jobs/"
                                ++ job_id ++ "/monitoring?region=" ++ region
                                ++ "&project=" ++ project_id;
                         log_name := "Dataproc Console" |} ]
            | None => inl (AttributeError "job_id")
            end
        | None => inl (AttributeError "'NoneType' object has no attribute 'job_id'")
        end
    | None => inr []
    end
  else inr [].

(** The phase and the message [get] arrives at before it builds the resource. *)
Definition poll (resource_meta : AirflowMetadata)
    (airflow_operator_instance : instance) (airflow_trigger_instance : option instance)
    : raised + (phase * option string) :=
  match instance_kind airflow_operator_instance with
  | A_sensor =>
      match poke airflow_operator_instance with
      | inr ok => inr (if ok then SUCCEEDED else RUNNING, None)
      | inl e => inl e
      end
  | An_operator =>
      match airflow_trigger_instance with
      | Some trigger =>
          match run_first_event trigger with
          | Event payload =>
              match call_back airflow_operator_instance
                              (airflow_trigger_callback resource_meta) payload with
              | Callback_returned => inr (SUCCEEDED, None)
              | Callback_AirflowException str => inr (FAILED, Some str)
              | Callback_TimeoutError => inr (RUNNING, None)
              | Callback_raised what => inl (Propagated what)
              end
          | TimeoutError => inr (RUNNING, None)
          | Trigger_AirflowException str => inr (FAILED, Some str)
          | Trigger_raised what => inl (Propagated what)
          end
      | None => inr (SUCCEEDED, None)
      end
  | Something_else => inl (FlyteUserException "Only sensor and operator are supported.")
  end.

(** [get] *)
Definition get (resource_meta : AirflowMetadata) : raised + Resource :=
  let airflow_operator_instance := _get_airflow_instance (airflow_operator resource_meta) in
  let airflow_trigger_instance :=
    match airflow_trigger resource_meta with
    | Some trigger => Some (_get_airflow_instance trigger)
    | None => None
    end in
  match poll resource_meta airflow_operator_instance airflow_trigger_instance with
  | inl e => inl e
  | inr (cur_phase, message) =>
      match get_log_links airflow_operator_instance airflow_trigger_instance with
      | inl e => inl e
      | inr log_links =>
          inr {| resource_phase := cur_phase; message := message;
                 log_links := log_links |}
      end
  end.

End Connector.

End Airflow.

(** A deferrable Dataproc operator, its trigger, and a file sensor, behind a
    [_get_airflow_instance] that tells them apart by class name. *)
Module AirflowDemo.
Import Airflow.

Definition submit_trigger : Trigger :=
  {| trigger_module := "airflow.providers.google.cloud.triggers.dataproc";
     trigger_class_name := "DataprocSubmitTrigger";
     trigger_dict := [("job_id", "j-1"); ("task_instance", "ti");
                      ("region", "us-west1"); ("trigger_id", "7")] |}.

Definition submit_job : instance :=
  {| instance_kind := An_operator;
     execute := TaskDeferred submit_trigger "execute_complete";
     poke := inl (AttributeError "poke");
     run_first_event := Trigger_raised "not a trigger";
     call_back := fun method_name payload =>
       if String.eqb payload "ERROR" then Callback_AirflowException "Job failed"
       else Callback_returned;
     dataproc := Some ("us-west1", "p");
     instance_job_id := None |}.

Definition running_trigger : instance :=
  {| instance_kind := Something_else;
     execute := Execute_raised "not an operator";
     poke := inl (AttributeError "poke");
     run_first_event := Event "ERROR";
     call_back := fun _ _ => Callback_raised "not an operator";
     dataproc := None;
     instance_job_id := Some "j-1" |}.

Definition file_sensor : instance :=
  {| instance_kind := A_sensor;
     execute := Execute_raised "a sensor is not executed";
     poke := inr false;
     run_first_event := Trigger_raised "not a trigger";
     call_back := fun _ _ => Callback_raised "no callback";
     dataproc := None;
     instance_job_id := None |}.

Definition _get_airflow_instance (airflow_obj : AirflowObj) : instance :=
  if String.eqb (name airflow_obj) "DataprocSubmitJobOperator" then submit_job
  else if String.eqb (name airflow_obj) "DataprocSubmitTrigger" then running_trigger
  else file_sensor.

Definition submit_obj : AirflowObj :=
  {| module := "airflow.providers.google.cloud.operators.dataproc";
     name := "DataprocSubmitJobOperator";
     parameters := [("region", "us-west1")] |}.

Definition sensor_obj : AirflowObj :=
  {| module := "airflow.sensors.filesystem"; name := "FileSensor";
     parameters := [("filepath", "/tmp/1234")] |}.

End AirflowDemo.

(** ** Properties *)

Import FlyteDirectory Transformer Observe.

Ltac unfold_io :=
  unfold bind, ret, raise, log, of_result, next_fresh, set_nodes in *.

Ltac run_codec :=
  unfold async_to_literal, emit, handle_should_upload,
         async_to_python_value, blob_to_python_value, truthy_generic,
         Os.isdir, FileAccess.async_put_data,
         FileAccess.get_random_remote_directory,
         FileAccess.get_random_local_directory in *;
  unfold_io; cbn [scalar blob binary generic uri metadata metadata_type
                  dimensionality blob_literal _remote_source _remote_directory
                  path __init__ set_remote_source is_path_or_str is_False
                  or_None negb andb orb dimensionality_eqb fst snd] in *.

(** C3: a handle whose [_remote_source] is set is re-encoded as a literal
    with exactly that uri, and the world is left as it was: no [put_data],
    no call at all.  In particular the handle [async_to_python_value] decodes
    from a multipart blob literal with a remote uri carries that uri as its
    [_remote_source], so encoding it again gives the uri back. *)
Theorem remote_source_passthrough :
  forall (ctx : FlyteContext) (pt : python_type),
    (forall d remote_source w,
        _remote_source d = Some remote_source ->
        async_to_literal ctx (A_FlyteDirectory d) pt w
        = (Ok (blob_literal (meta_of pt) remote_source), w))
    /\
    (forall MESSAGEPACK msgpack_loads meta uri ept w,
        is_remote (file_access ctx) uri = true ->
        dimensionality (metadata_type meta) = MULTIPART ->
        exists fd w',
          async_to_python_value MESSAGEPACK msgpack_loads ctx
                                (blob_literal meta uri) ept w = (Ok fd, w')
          /\ _remote_source fd = Some uri
          /\ count is_transfer (trace w') = count is_transfer (trace w)
          /\ forall w2,
              async_to_literal ctx (A_FlyteDirectory fd) pt w2
              = (Ok (blob_literal (meta_of pt) uri), w2)).
Proof.
  intros ctx pt; split.
  - intros d remote_source w Hsrc.
    unfold async_to_literal. rewrite Hsrc. reflexivity.
  - intros MESSAGEPACK msgpack_loads meta uri ept w Hremote Hdim.
    run_codec. rewrite Hdim, Hremote. cbn.
    eexists; eexists. split; [reflexivity|].
    repeat split.
    cbn. unfold count. rewrite filter_app. cbn. now rewrite app_nil_r.
Qed.

Lemma remote_source_passthrough_witness :
  let fd := set_remote_source (__init__ "" "/tmp/flyte/local/d0" None RD_None) "s3://bucket/x" in
  async_to_literal (Demo.ctx false) (A_FlyteDirectory fd) Demo.plain (Demo.world [])
  = (Ok (blob_literal Demo.meta "s3://bucket/x"), Demo.world [])
  /\ exists fd' w',
      async_to_python_value "msgpack" (fun _ => Ok []) (Demo.ctx false)
        (blob_literal Demo.meta "s3://bucket/x") Demo.plain (Demo.world []) = (Ok fd', w')
      /\ _remote_source fd' = Some "s3://bucket/x".
Proof.
  split.
  - apply (proj1 (remote_source_passthrough (Demo.ctx false) Demo.plain)).
    reflexivity.
  - destruct (proj2 (remote_source_passthrough (Demo.ctx false) Demo.plain)
                "msgpack" (fun _ => Ok []) Demo.meta "s3://bucket/x" Demo.plain
                (Demo.world []) eq_refl eq_refl)
      as (fd' & w' & Hrun & Hsrc & _).
    exists fd', w'. split; assumption.
Defined.

(** C7: a handle constructed with [remote_directory=False] is encoded as a
    literal whose uri is its path, whatever the path and the context are,
    and the world is left as it was, so [put_data] is not called.  More
    generally no handle whose [_remote_directory] is [False] makes
    [async_to_literal] call anything; its literal carries the remote source
    when one is set and the path otherwise. *)
Theorem no_upload_sentinel :
  forall (ctx : FlyteContext) (pt : python_type),
    (forall cls p dl w,
        async_to_literal ctx (A_FlyteDirectory (__init__ cls p dl RD_False)) pt w
        = (Ok (blob_literal (meta_of pt) p), w))
    /\
    (forall d w,
        _remote_directory d = RD_False ->
        async_to_literal ctx (A_FlyteDirectory d) pt w
        = (Ok (blob_literal (meta_of pt)
                            match _remote_source d with
                            | Some remote_source => remote_source
                            | None => path d
                            end), w)).
Proof.
  intros ctx pt; split.
  - intros; reflexivity.
  - intros d w Hrd. run_codec.
    destruct (_remote_source d); [reflexivity|].
    rewrite Hrd. reflexivity.
Qed.

Lemma no_upload_sentinel_witness :
  async_to_literal (Demo.ctx false)
    (A_FlyteDirectory (__init__ "" "/data/out" None RD_False)) Demo.plain
    (Demo.world ["/data/out"])
  = (Ok (blob_literal Demo.meta "/data/out"), Demo.world ["/data/out"]).
Proof.
  apply (proj2 (no_upload_sentinel (Demo.ctx false) Demo.plain)
               (__init__ "" "/data/out" None RD_False)).
  reflexivity.
Defined.

(** C1: the code does not do what the claim says, nor what its own comment
    and the class documentation say of a path that is already remote.  A
    handle whose path is remote but which carries an explicit destination
    string keeps [should_upload]: on a machine without a local directory of
    that name the call raises instead of emitting a literal, and with such a
    directory [put_data] is called and the literal carries the destination,
    not the path. *)
Lemma remote_path_with_explicit_destination :
  let d := __init__ "" "s3://bucket/data" None (RD_str "s3://dest/out") in
  is_remote (file_access (Demo.ctx false)) (path d) = true
  /\ handle_should_upload (Demo.ctx false) d (path d) = true
  /\ fst (async_to_literal (Demo.ctx false) (A_FlyteDirectory d) Demo.plain
                           (Demo.world []))
     = Raise (FlyteAssertion (Expected_a_directory "s3://bucket/data"))
  /\ fst (async_to_literal (Demo.ctx false) (A_FlyteDirectory d) Demo.plain
                           (Demo.world ["s3://bucket/data"]))
     = Ok (blob_literal Demo.meta "s3://dest/out")
  /\ count is_put_data
           (trace (snd (async_to_literal (Demo.ctx false) (A_FlyteDirectory d)
                                         Demo.plain (Demo.world ["s3://bucket/data"]))))
     = 1.
Proof. repeat split. Qed.

(** X26: a remote source path settles [should_upload] as false for a plain
    string or path, and for a handle without remote source whose
    [_remote_directory] is neither a [str] nor a [pathlib.Path]; the literal
    then carries the source path and the world is left as it was: no call is
    made at all. *)
Theorem remote_path_not_uploaded :
  forall (ctx : FlyteContext) (pt : python_type) (w : World),
    (forall d,
        _remote_source d = None ->
        is_path_or_str (_remote_directory d) = false ->
        is_remote (file_access ctx) (path d) = true ->
        handle_should_upload ctx d (path d) = false
        /\ async_to_literal ctx (A_FlyteDirectory d) pt w
           = (Ok (blob_literal (meta_of pt) (path d)), w))
    /\
    (forall s,
        is_remote (file_access ctx) s = true ->
        async_to_literal ctx (A_str s) pt w = (Ok (blob_literal (meta_of pt) s), w)
        /\ async_to_literal ctx (A_Path s) pt w = (Ok (blob_literal (meta_of pt) s), w)).
Proof.
  intros ctx pt w; split.
  - intros d Hsrc Hrd Hremote. split.
    + unfold handle_should_upload. rewrite Hrd, Hremote.
      now rewrite orb_true_r.
    + run_codec. rewrite Hsrc, Hrd, Hremote. now rewrite orb_true_r.
  - intros s Hremote. split; run_codec; now rewrite Hremote.
Qed.

Lemma remote_path_not_uploaded_witness :
  async_to_literal (Demo.ctx false)
    (A_FlyteDirectory (__init__ "" "s3://bucket/data" None RD_None)) Demo.plain
    (Demo.world [])
  = (Ok (blob_literal Demo.meta "s3://bucket/data"), Demo.world [])
  /\ async_to_literal (Demo.ctx false) (A_str "s3://bucket/data") Demo.plain (Demo.world [])
     = (Ok (blob_literal Demo.meta "s3://bucket/data"), Demo.world []).
Proof.
  pose proof (remote_path_not_uploaded (Demo.ctx false) Demo.plain (Demo.world []))
    as (Hhandle & Hplain).
  split.
  - apply (Hhandle (__init__ "" "s3://bucket/data" None RD_None)); reflexivity.
  - apply (Hplain "s3://bucket/data"); reflexivity.
Defined.

(** C2, as stated, fails: under local execution a plain string naming a
    local directory is uploaded; [put_data] is called once and the literal
    carries what it returns, not the source path. *)
Lemma local_execution_plain_path_uploaded :
  is_local_execution (Demo.ctx true) = true
  /\ fst (async_to_literal (Demo.ctx true) (A_str "/data/out") Demo.plain
                           (Demo.world ["/data/out"]))
     = Ok (blob_literal Demo.meta "s3://raw-output/r0")
  /\ trace (snd (async_to_literal (Demo.ctx true) (A_str "/data/out") Demo.plain
                                  (Demo.world ["/data/out"])))
     = [Is_dir "/data/out"; Random_remote_directory; Is_dir "/data/out";
        Put_data "/data/out" "s3://raw-output/r0" true None].
Proof. repeat split. Qed.

(** C2, amended: under local execution a handle without remote source whose
    [_remote_directory] is neither a [str] nor a [pathlib.Path] is encoded as
    a literal carrying its path, and the world is left as it was. *)
Theorem local_execution_handle_not_uploaded :
  forall (ctx : FlyteContext) (d : FlyteDirectory.t) (pt : python_type) (w : World),
    is_local_execution ctx = true ->
    _remote_source d = None ->
    is_path_or_str (_remote_directory d) = false ->
    handle_should_upload ctx d (path d) = false
    /\ async_to_literal ctx (A_FlyteDirectory d) pt w
       = (Ok (blob_literal (meta_of pt) (path d)), w).
Proof.
  intros ctx d pt w Hlocal Hsrc Hrd. split.
  - unfold handle_should_upload. rewrite Hrd, Hlocal.
    now rewrite !orb_true_r.
  - run_codec. rewrite Hsrc, Hrd, Hlocal.
    now rewrite !orb_true_r.
Qed.

Lemma local_execution_handle_not_uploaded_witness :
  async_to_literal (Demo.ctx true)
    (A_FlyteDirectory (__init__ "" "/data/out" None RD_None)) Demo.plain
    (Demo.world ["/data/out"])
  = (Ok (blob_literal Demo.meta "/data/out"), Demo.world ["/data/out"]).
Proof.
  apply (proj2 (local_execution_handle_not_uploaded (Demo.ctx true)
                  (__init__ "" "/data/out" None RD_None) Demo.plain
                  (Demo.world ["/data/out"]) eq_refl eq_refl eq_refl)).
Defined.

(** C5: on a literal that carries neither a binary nor a generic payload,
    [async_to_python_value] raises [TypeTransformerFailedError] "Cannot
    convert from ..." when there is no blob to take the uri from, and
    [TypeTransformerFailedError] "... is not a directory." when the blob's
    dimensionality is not [MULTIPART]; neither changes the world.  With a
    [MULTIPART] blob no [TypeTransformerFailedError] is raised. *)
Theorem blob_reference_checks :
  forall MESSAGEPACK msgpack_loads (ctx : FlyteContext) (lv : Literal)
         (ept : python_type) (w : World),
    (forall sc, scalar lv = Some sc -> binary sc = None /\ generic sc = None) ->
    let run := async_to_python_value MESSAGEPACK msgpack_loads ctx lv ept w in
    ((forall sc, scalar lv = Some sc -> blob sc = None) ->
     run = (Raise (TypeTransformerFailedError Cannot_convert_from), w))
    /\
    (forall sc b,
        scalar lv = Some sc -> blob sc = Some b ->
        dimensionality (metadata_type (metadata b)) <> MULTIPART ->
        run = (Raise (TypeTransformerFailedError (Is_not_a_directory (uri b))), w))
    /\
    (forall sc b,
        scalar lv = Some sc -> blob sc = Some b ->
        dimensionality (metadata_type (metadata b)) = MULTIPART ->
        forall m, fst run <> Raise (TypeTransformerFailedError m)).
Proof.
  intros MESSAGEPACK msgpack_loads ctx lv ept w Hpayload run.
  assert (Hgate : run = blob_to_python_value ctx lv ept w).
  { subst run. unfold async_to_python_value.
    destruct (scalar lv) as [sc|] eqn:Hsc; [|reflexivity].
    destruct (Hpayload sc eq_refl) as [Hbin Hgen].
    now rewrite Hbin, Hgen. }
  rewrite Hgate. clear Hgate run.
  unfold blob_to_python_value.
  repeat split.
  - intros Hnone. destruct (scalar lv) as [sc|]; [|reflexivity].
    now rewrite (Hnone sc eq_refl).
  - intros sc b Hsc Hblob Hdim. rewrite Hsc, Hblob.
    destruct (dimensionality (metadata_type (metadata b))); [reflexivity|congruence].
  - intros sc b Hsc Hblob Hdim m. rewrite Hsc, Hblob, Hdim.
    cbn [dimensionality_eqb negb].
    unfold Os.isdir, FileAccess.get_random_local_directory. unfold_io.
    destruct (is_remote (file_access ctx) (uri b)); cbn.
    + discriminate.
    + destruct (nodes w (uri b)); cbn; discriminate.
Qed.

Lemma blob_reference_checks_witness :
  let single := {| metadata_type := {| blob_format := ""; dimensionality := SINGLE |} |} in
  async_to_python_value "msgpack" (fun _ => Ok []) (Demo.ctx false)
    {| scalar := Some {| blob := None; binary := None; generic := None |} |}
    Demo.plain (Demo.world [])
  = (Raise (TypeTransformerFailedError Cannot_convert_from), Demo.world [])
  /\ async_to_python_value "msgpack" (fun _ => Ok []) (Demo.ctx false)
       (blob_literal single "s3://bucket/file.csv") Demo.plain (Demo.world [])
     = (Raise (TypeTransformerFailedError (Is_not_a_directory "s3://bucket/file.csv")),
        Demo.world []).
Proof.
  split.
  - refine (proj1 (blob_reference_checks "msgpack" (fun _ => Ok []) (Demo.ctx false)
                     {| scalar := Some {| blob := None; binary := None; generic := None |} |}
                     Demo.plain (Demo.world []) _) _).
    + intros sc Hsc. injection Hsc as <-. split; reflexivity.
    + intros sc Hsc. injection Hsc as <-. reflexivity.
  - refine (proj1 (proj2 (blob_reference_checks "msgpack" (fun _ => Ok []) (Demo.ctx false)
                     (blob_literal _ "s3://bucket/file.csv")
                     Demo.plain (Demo.world []) _)) _ _ eq_refl eq_refl _).
    + intros sc Hsc. injection Hsc as <-. split; reflexivity.
    + discriminate.
Defined.

(** C6: for a multipart blob literal whose uri is not remote,
    [async_to_python_value] raises [FlyteAssertion] "Expected a directory,
    but the given uri ... is not a directory." unless the uri is a directory
    on the local filesystem; when it is, the handle returned has the uri as
    path, [remote_directory] set to [False], the default [noop] downloader
    and no remote source, and encoding it again gives the uri back without
    any call. *)
Theorem local_uri_must_be_a_directory :
  forall MESSAGEPACK msgpack_loads (ctx : FlyteContext) (meta : BlobMetadata)
         (uri : string) (ept : python_type) (w : World),
    dimensionality (metadata_type meta) = MULTIPART ->
    is_remote (file_access ctx) uri = false ->
    let run := async_to_python_value MESSAGEPACK msgpack_loads ctx
                                     (blob_literal meta uri) ept w in
    (nodes w uri <> Dir ->
     fst run = Raise (FlyteAssertion (Expected_a_directory_but_uri uri)))
    /\
    (nodes w uri = Dir ->
     exists fd,
       fst run = Ok fd
       /\ path fd = uri
       /\ _remote_directory fd = RD_False
       /\ _downloader fd = noop
       /\ _remote_source fd = None
       /\ count is_transfer (trace (snd run)) = count is_transfer (trace w)
       /\ forall ctx' pt w',
           async_to_literal ctx' (A_FlyteDirectory fd) pt w'
           = (Ok (blob_literal (meta_of pt) uri), w')).
Proof.
  intros MESSAGEPACK msgpack_loads ctx meta uri ept w Hdim Hlocal run.
  subst run. run_codec. rewrite Hdim, Hlocal. cbn.
  split.
  - intros Hnode. destruct (nodes w uri); cbn; congruence.
  - intros Hnode. rewrite Hnode. cbn.
    eexists. split; [reflexivity|]. cbn.
    repeat split.
    unfold count. rewrite filter_app. cbn. now rewrite app_nil_r.
Qed.

Lemma local_uri_must_be_a_directory_witness :
  fst (async_to_python_value "msgpack" (fun _ => Ok []) (Demo.ctx false)
         (blob_literal Demo.meta "/data/missing") Demo.plain (Demo.world ["/data/out"]))
  = Raise (FlyteAssertion (Expected_a_directory_but_uri "/data/missing"))
  /\ exists fd,
      fst (async_to_python_value "msgpack" (fun _ => Ok []) (Demo.ctx false)
             (blob_literal Demo.meta "/data/out") Demo.plain (Demo.world ["/data/out"]))
      = Ok fd
      /\ _remote_directory fd = RD_False.
Proof.
  split.
  - apply (proj1 (local_uri_must_be_a_directory "msgpack" (fun _ => Ok []) (Demo.ctx false)
                    Demo.meta "/data/missing" Demo.plain (Demo.world ["/data/out"])
                    eq_refl eq_refl)).
    discriminate.
  - destruct (proj2 (local_uri_must_be_a_directory "msgpack" (fun _ => Ok [])
                       (Demo.ctx false) Demo.meta "/data/out" Demo.plain
                       (Demo.world ["/data/out"]) eq_refl eq_refl) eq_refl)
      as (fd & Hrun & _ & Hrd & _).
    exists fd. split; assumption.
Defined.

(** *** Downloading *)

Lemma count_app (p : event -> bool) (l1 l2 : list event) :
  count p (l1 ++ l2) = count p l1 + count p l2.
Proof. unfold count. now rewrite filter_app, length_app. Qed.

(** One call of a downloader logs one [Call_downloader], whatever the
    downloader is and however it ends. *)
Lemma call_logs_once (ctx : FlyteContext) (d : downloader) (w : World) :
  count is_downloader_call (trace (snd (call ctx d w)))
  = 1 + count is_downloader_call (trace w).
Proof.
  unfold call, FileAccess.get_data. unfold_io.
  destruct d as [|remote local is_multipart batch_size|is_coroutine f];
    cbn [snd trace nodes].
  - rewrite count_app. cbn. lia.
  - destruct (get_data_outcome _ _ _ _ _ _) as [r fs]. cbn [snd trace].
    rewrite !count_app. cbn. lia.
  - destruct (f (nodes w)) as [r fs]. cbn [snd trace].
    rewrite count_app. cbn. lia.
Qed.

Lemma run_downloader_is_call (ctx : FlyteContext) (d : downloader) :
  (if iscoroutinefunction_underlying ctx d then synced_call ctx d else call ctx d)
  = call ctx d.
Proof. now destruct (iscoroutinefunction_underlying ctx d). Qed.

Lemma download_when_downloaded (ctx : FlyteContext) (self : t) (w : World) :
  _downloaded self = true ->
  download ctx self w = (Ok (path self), self, w).
Proof. intros H. unfold download, __fspath__. now rewrite H. Qed.

Lemma download_times_when_downloaded (ctx : FlyteContext) (n : nat) :
  forall (self : t) (w : World),
    _downloaded self = true ->
    download_times ctx n self w = (repeat (Ok (path self)) n, self, w).
Proof.
  induction n as [|n IH]; intros self w H; cbn [download_times repeat].
  - reflexivity.
  - rewrite (download_when_downloaded ctx self w H).
    now rewrite (IH self w H).
Qed.

(** C4: on a handle that has not been downloaded and whose downloader
    succeeds, [n >= 1] calls of [download()] all return the handle's path,
    leave the handle with [_downloaded] set and the path as it was, and leave
    the world as the single run of the downloader left it: the downloader was
    called exactly once, by the first call. *)
Theorem download_runs_downloader_once :
  forall (ctx : FlyteContext) (self : t) (w w1 : World) (n : nat),
    _downloaded self = false ->
    call ctx (_downloader self) w = (Ok tt, w1) ->
    1 <= n ->
    download ctx self w = (Ok (path self), set_downloaded self true, w1)
    /\ download_times ctx n self w
       = (repeat (Ok (path self)) n, set_downloaded self true, w1)
    /\ count is_downloader_call (trace w1) = 1 + count is_downloader_call (trace w).
Proof.
  intros ctx self w w1 n Hfresh Hcall Hn.
  assert (Hfirst : download ctx self w = (Ok (path self), set_downloaded self true, w1)).
  { unfold download, __fspath__. rewrite Hfresh, run_downloader_is_call.
    now rewrite Hcall. }
  split; [exact Hfirst|split].
  - destruct n as [|n]; [lia|].
    cbn [download_times repeat]. rewrite Hfirst.
    now rewrite (download_times_when_downloaded ctx n (set_downloaded self true) w1 eq_refl).
  - pose proof (call_logs_once ctx (_downloader self) w) as Hlog.
    now rewrite Hcall in Hlog.
Qed.

Lemma download_runs_downloader_once_witness :
  let fd := __init__ "" "/tmp/flyte/local/d0"
                     (Some (partial_get_data "s3://bucket/x" "/tmp/flyte/local/d0" true None))
                     RD_None in
  fst (fst (download_times (Demo.ctx false) 3 fd (Demo.world [])))
  = [Ok "/tmp/flyte/local/d0"; Ok "/tmp/flyte/local/d0"; Ok "/tmp/flyte/local/d0"]
  /\ trace (snd (download_times (Demo.ctx false) 3 fd (Demo.world [])))
     = [Call_downloader; Get_data "s3://bucket/x" "/tmp/flyte/local/d0" true None].
Proof.
  intros fd.
  destruct (download_runs_downloader_once (Demo.ctx false) fd (Demo.world [])
              (snd (call (Demo.ctx false) (_downloader fd) (Demo.world []))) 3
              eq_refl eq_refl ltac:(lia)) as (_ & Htimes & _).
  rewrite Htimes. split; reflexivity.
Defined.

(** C10: when the downloader raises, [download()] raises the same exception
    and leaves the handle as it was, [_downloaded] still false and the path
    unchanged; the call after that runs the downloader again, so across
    failures the downloader is called more than once, and once it succeeds
    the handle is marked downloaded. *)
Theorem failed_download_is_retried :
  forall (ctx : FlyteContext) (self : t) (w w1 : World) (e : exn),
    _downloaded self = false ->
    call ctx (_downloader self) w = (Raise e, w1) ->
    download ctx self w = (Raise e, self, w1)
    /\ count is_downloader_call (trace w1) = 1 + count is_downloader_call (trace w)
    /\ count is_downloader_call (trace (snd (download ctx self w1)))
       = 2 + count is_downloader_call (trace w)
    /\ (forall w2,
           call ctx (_downloader self) w1 = (Ok tt, w2) ->
           download ctx self w1 = (Ok (path self), set_downloaded self true, w2)).
Proof.
  intros ctx self w w1 e Hfresh Hcall.
  assert (Hw1 : count is_downloader_call (trace w1)
                = 1 + count is_downloader_call (trace w)).
  { pose proof (call_logs_once ctx (_downloader self) w) as Hlog.
    now rewrite Hcall in Hlog. }
  repeat split.
  - unfold download, __fspath__. rewrite Hfresh, run_downloader_is_call.
    now rewrite Hcall.
  - exact Hw1.
  - pose proof (call_logs_once ctx (_downloader self) w1) as Hlog.
    unfold download, __fspath__. rewrite Hfresh, run_downloader_is_call.
    destruct (call ctx (_downloader self) w1) as [[[]|e'] w2]; cbn in *; lia.
  - intros w2 Hretry.
    unfold download, __fspath__. rewrite Hfresh, run_downloader_is_call.
    now rewrite Hretry.
Qed.

Lemma failed_download_is_retried_witness :
  let fd := __init__ "" "/tmp/flyte/local/d0" (Some Demo.failing) RD_None in
  download (Demo.ctx false) fd (Demo.world [])
  = (Raise (OSError (Raised_outside "connection reset")), fd,
     snd (call (Demo.ctx false) Demo.failing (Demo.world [])))
  /\ trace (snd (download (Demo.ctx false) fd
                   (snd (call (Demo.ctx false) Demo.failing (Demo.world [])))))
     = [Call_downloader; Call_downloader].
Proof.
  intros fd. split.
  - apply (proj1 (failed_download_is_retried (Demo.ctx false) fd (Demo.world [])
                    (snd (call (Demo.ctx false) Demo.failing (Demo.world [])))
                    (OSError (Raised_outside "connection reset")) eq_refl eq_refl)).
  - reflexivity.
Defined.

(** *** Paths and [os.makedirs] *)

Lemma string_length_app (a b : string) :
  String.length (a ++ b) = String.length a + String.length b.
Proof. induction a as [|c a IH]; cbn; [reflexivity|now rewrite IH]. Qed.

(** A head of [seen ++ rest] found in [rest] is not empty, holds [seen] and
    falls short of the whole. *)
Lemma heads_from_bounds (rest : string) :
  forall seen h,
    In h (PosixPath.heads_from seen rest) ->
    h <> ""
    /\ String.length seen <= String.length h
    /\ String.length h < String.length seen + String.length rest.
Proof.
  induction rest as [|c rest IH]; intros seen h Hin; cbn in Hin; [contradiction|].
  apply in_app_or in Hin. destruct Hin as [Hhere|Hlater].
  - destruct (Ascii.eqb c PosixPath.sep && negb (String.eqb seen "")
              && negb (PosixPath.endswith_sep seen)
              && PosixPath.has_component rest)%bool eqn:Hcond;
      [|contradiction].
    destruct Hhere as [<-|[]].
    apply andb_prop in Hcond. destruct Hcond as [Hcond _].
    apply andb_prop in Hcond. destruct Hcond as [Hcond _].
    apply andb_prop in Hcond. destruct Hcond as [_ Hseen].
    apply negb_true_iff, String.eqb_neq in Hseen.
    split; [exact Hseen|]. cbn. lia.
  - destruct (IH _ _ Hlater) as (Hne & Hlow & Hhigh).
    rewrite string_length_app in Hlow, Hhigh. cbn in Hlow, Hhigh |- *.
    split; [exact Hne|]. lia.
Qed.

Lemma heads_from_NoDup (rest : string) :
  forall seen, NoDup (PosixPath.heads_from seen rest).
Proof.
  induction rest as [|c rest IH]; intros seen; cbn; [constructor|].
  destruct (Ascii.eqb c PosixPath.sep && negb (String.eqb seen "")
            && negb (PosixPath.endswith_sep seen)
            && PosixPath.has_component rest)%bool; cbn [app]; [|apply IH].
  constructor; [|apply IH].
  intros Hin. apply heads_from_bounds in Hin. destruct Hin as (_ & Hlow & _).
  rewrite string_length_app in Hlow. cbn in Hlow. lia.
Qed.


Lemma string_app_assoc (a b c : string) : (a ++ b) ++ c = a ++ (b ++ c).
Proof. induction a as [|x a IH]; cbn; [reflexivity|now rewrite IH]. Qed.

Lemma string_app_empty_r (a : string) : a ++ "" = a.
Proof. induction a as [|x a IH]; cbn; [reflexivity|now rewrite IH]. Qed.

Lemma has_component_app_l (a b : string) :
  PosixPath.has_component a = true -> PosixPath.has_component (a ++ b) = true.
Proof.
  induction a as [|c a IH]; cbn; [discriminate|].
  destruct (Ascii.eqb c PosixPath.sep); cbn; [exact IH|reflexivity].
Qed.

Lemma has_component_end (a : string) :
  a <> "" -> PosixPath.endswith_sep a = false -> PosixPath.has_component a = true.
Proof.
  induction a as [|c a IH]; intros Hne Hend; [congruence|].
  destruct a as [|d a].
  - cbn in Hend |- *. now rewrite Hend.
  - change (PosixPath.has_component (String c (String d a)))
      with (negb (Ascii.eqb c PosixPath.sep) || PosixPath.has_component (String d a))%bool.
    rewrite IH; [apply orb_true_r|discriminate|exact Hend].
Qed.

Lemma endswith_sep_app (a : string) (c : ascii) :
  PosixPath.endswith_sep (a ++ String c "") = Ascii.eqb c PosixPath.sep.
Proof.
  induction a as [|x a IH]; [reflexivity|].
  cbn [append PosixPath.endswith_sep].
  destruct (a ++ String c "") eqn:Happ; [|exact IH].
  destruct a; discriminate.
Qed.

(** Where a head of [seen ++ rest] lies: it ends a component, and a
    separator follows. *)
Lemma heads_from_prefix (rest : string) :
  forall seen h,
    In h (PosixPath.heads_from seen rest) ->
    exists r1 r2,
      rest = r1 ++ String PosixPath.sep r2
      /\ h = seen ++ r1
      /\ PosixPath.endswith_sep h = false
      /\ PosixPath.has_component r2 = true.
Proof.
  induction rest as [|c rest IH]; intros seen h Hin; cbn in Hin; [contradiction|].
  apply in_app_or in Hin. destruct Hin as [Hhere|Hlater].
  - destruct (Ascii.eqb c PosixPath.sep) eqn:Hc; [|contradiction].
    destruct (String.eqb seen ""); [contradiction|].
    destruct (PosixPath.endswith_sep seen) eqn:Hend; [contradiction|].
    destruct (PosixPath.has_component rest) eqn:Hahead; [|contradiction].
    cbn in Hhere. destruct Hhere as [<-|[]].
    apply Ascii.eqb_eq in Hc. subst c.
    exists "", rest. now rewrite string_app_empty_r.
  - destruct (IH _ _ Hlater) as (r1 & r2 & -> & -> & Hend & Hahead).
    exists (String c r1), r2. rewrite string_app_assoc. cbn.
    rewrite string_app_assoc in Hend. now cbn in Hend.
Qed.

(** The heads found in a prefix that ends a component are found in the same
    way whatever follows. *)
Lemma heads_from_app (r1 : string) :
  forall seen r2,
    PosixPath.endswith_sep r1 = false ->
    PosixPath.heads_from seen (r1 ++ r2)
    = (PosixPath.heads_from seen r1 ++ PosixPath.heads_from (seen ++ r1) r2)%list.
Proof.
  induction r1 as [|c r1 IH]; intros seen r2 Hend.
  - cbn. now rewrite string_app_empty_r.
  - assert (Hshift : seen ++ String c r1 = (seen ++ String c "") ++ r1)
      by (now rewrite string_app_assoc).
    rewrite Hshift.
    destruct r1 as [|d r1].
    + cbn in Hend. cbn. rewrite Hend. cbn. now rewrite string_app_empty_r.
    + assert (Hend' : PosixPath.endswith_sep (String d r1) = false) by exact Hend.
      assert (Hahead : PosixPath.has_component (String d r1) = true)
        by (apply has_component_end; [discriminate|exact Hend']).
      change (String c (String d r1) ++ r2) with (String c (String d r1 ++ r2)).
      cbn [PosixPath.heads_from].
      rewrite (IH _ r2 Hend'), app_assoc.
      now rewrite (has_component_app_l _ r2 Hahead), Hahead.
Qed.

Lemma split_at_unique (A : Type) (x : A) (l1 l2 m1 m2 : list A) :
  ~ In x l1 -> ~ In x m1 ->
  (l1 ++ x :: l2 = m1 ++ x :: m2)%list -> l1 = m1.
Proof.
  revert m1. induction l1 as [|a l1 IH]; intros [|b m1] Hl Hm Heq; cbn in *.
  - reflexivity.
  - injection Heq as -> _. exfalso. apply Hm. now left.
  - injection Heq as -> _. exfalso. apply Hl. now left.
  - injection Heq as -> Heq. f_equal. apply IH; [tauto|tauto|exact Heq].
Qed.

(** The heads of a head of [name] are the heads of [name] above it: what
    [os.makedirs(head)] goes through is the rest of the chain. *)
Lemma heads_of_head (name : string) (outer later : list string) (h : string) :
  PosixPath.heads name = (outer ++ h :: later)%list ->
  PosixPath.heads h = outer.
Proof.
  intros Hheads.
  assert (Hin : In h (PosixPath.heads name))
    by (rewrite Hheads; apply in_or_app; right; now left).
  assert (Hout : ~ In h outer).
  { pose proof (heads_from_NoDup name "") as Hnodup.
    fold (PosixPath.heads name) in Hnodup. rewrite Hheads in Hnodup.
    apply NoDup_remove_2 in Hnodup.
    intros Hout. apply Hnodup. apply in_or_app. now left. }
  destruct (heads_from_prefix _ _ _ Hin) as (r1 & r2 & Hname & Hh & Hend & Hahead).
  cbn in Hh. subst r1.
  assert (Hne : h <> "") by (now apply heads_from_bounds in Hin).
  unfold PosixPath.heads in Hheads |- *.
  rewrite Hname, (heads_from_app h "" _ Hend) in Hheads.
  cbn [append PosixPath.heads_from] in Hheads.
  rewrite Ascii.eqb_refl, Hend, Hahead in Hheads.
  apply String.eqb_neq in Hne. rewrite Hne in Hheads. cbn [negb andb app] in Hheads.
  eapply split_at_unique; [|exact Hout|exact Hheads].
  intros Hself. apply heads_from_bounds in Hself. cbn in Hself. lia.
Qed.

(** So the chain [os.makedirs(name)] follows, deepest head first, continues
    with the chain of its first head. *)
Lemma chain_of_head (name head : string) (up : list string) :
  rev (PosixPath.heads name) = head :: up ->
  rev (PosixPath.heads head) = up.
Proof.
  intros Hchain.
  assert (Hheads : PosixPath.heads name = (rev up ++ [head])%list).
  { rewrite <- (rev_involutive (PosixPath.heads name)), Hchain. reflexivity. }
  rewrite (heads_of_head name (rev up) [] head Hheads).
  apply rev_involutive.
Qed.







(** *** Scratch directories *)




(** *** Listing a remote directory *)















(** ** Further properties of the codec *)

Import ObserveMore.

(** Events logged one after the other, as one list appended to the trace. *)
Ltac flatten_trace :=
  repeat match goal with
         | |- context [((?a ++ ?b) ++ ?c)%list] => rewrite <- (app_assoc a b c)
         end;
  cbn [app].

(** X1: a plain string or [pathlib.Path] that is not remote and names a local
    directory is uploaded: the path is checked, a random remote directory is
    asked for, the path is checked again and [put_data] is called once, as a
    multipart with the batch size of the type; the literal carries what
    [put_data] returns, and an exception of [put_data] is the exception of
    the call. *)
Theorem plain_local_directory_is_uploaded :
  forall (ctx : FlyteContext) (s : string) (pt : python_type) (w : World),
    is_remote (file_access ctx) s = false ->
    nodes w s = Dir ->
    let dst := random_remote_directory (file_access ctx) (fresh w) in
    let answer := put_data_outcome (file_access ctx) s dst true (get_batch_size pt) (nodes w) in
    let calls := [Is_dir s; Random_remote_directory; Is_dir s;
                  Put_data s dst true (get_batch_size pt)] in
    forall python_val,
      python_val = A_str s \/ python_val = A_Path s ->
      fst (async_to_literal ctx python_val pt w) = uploaded pt answer
      /\ trace (snd (async_to_literal ctx python_val pt w)) = (trace w ++ calls)%list.
Proof.
  intros ctx s pt w Hlocal Hdir dst answer calls python_val Hval.
  subst dst answer calls.
  destruct Hval as [-> | ->]; run_codec; rewrite Hlocal; cbn [negb nodes];
    rewrite Hdir; cbn [negb nodes trace fresh children];
    rewrite Hdir; cbn [negb nodes trace fresh children];
    flatten_trace;
    destruct (put_data_outcome _ _ _ _ _ _); split; reflexivity.
Qed.

Lemma plain_local_directory_is_uploaded_witness :
  fst (async_to_literal (Demo.ctx false) (A_str "/data/out")
         {| extension := "csv"; annotated_batch_size := Some 8 |}
         (Demo.world ["/data/out"]))
  = Ok (blob_literal {| metadata_type := _blob_type "csv" |} "s3://raw-output/r0")
  /\ trace (snd (async_to_literal (Demo.ctx false) (A_str "/data/out")
                    {| extension := "csv"; annotated_batch_size := Some 8 |}
                    (Demo.world ["/data/out"])))
     = [Is_dir "/data/out"; Random_remote_directory; Is_dir "/data/out";
        Put_data "/data/out" "s3://raw-output/r0" true (Some 8)].
Proof.
  pose proof (plain_local_directory_is_uploaded (Demo.ctx false) "/data/out"
                {| extension := "csv"; annotated_batch_size := Some 8 |}
                (Demo.world ["/data/out"]) eq_refl eq_refl
                (A_str "/data/out") (or_introl eq_refl)) as [Hresult Htrace].
  split; [exact Hresult|exact Htrace].
Defined.

(** X2: a handle without remote source that carries a destination, a
    non-empty [str] or a [pathlib.Path], and whose path is a local directory
    is uploaded to exactly that destination: no random remote directory is
    asked for, [put_data] is called once with the destination, and this is so
    under local execution and for a remote-looking path as well. *)
Theorem explicit_destination_is_used :
  forall (ctx : FlyteContext) (d : FlyteDirectory.t) (dst : string)
         (pt : python_type) (w : World),
    _remote_source d = None ->
    (_remote_directory d = RD_str dst /\ dst <> "") \/ _remote_directory d = RD_Path dst ->
    nodes w (path d) = Dir ->
    async_to_literal ctx (A_FlyteDirectory d) pt w
    = (uploaded pt (put_data_outcome (file_access ctx) (path d) dst true
                                     (get_batch_size pt) (nodes w)),
       {| nodes := nodes w; children := children w;
          trace := (trace w ++ [Is_dir (path d);
                                Put_data (path d) dst true (get_batch_size pt)])%list;
          fresh := fresh w |}).
Proof.
  intros ctx d dst pt w Hsrc Hrd Hdir.
  assert (Hgate : is_path_or_str (_remote_directory d) = true
                  /\ or_None (_remote_directory d) = Some dst).
  { destruct Hrd as [[-> Hne]| ->]; cbn; [|now split].
    apply String.eqb_neq in Hne. now rewrite Hne. }
  destruct Hgate as [Hstr Hdst].
  run_codec. rewrite Hsrc, Hstr, Hdst. cbn [negb andb nodes trace].
  rewrite Hdir. cbn [negb nodes trace fresh children].
  flatten_trace.
  now destruct (put_data_outcome _ _ _ _ _ _).
Qed.

Lemma explicit_destination_is_used_witness :
  fst (async_to_literal (Demo.ctx true)
         (A_FlyteDirectory (__init__ "" "/data/out" None (RD_str "s3://dest/out")))
         Demo.plain (Demo.world ["/data/out"]))
  = Ok (blob_literal Demo.meta "s3://dest/out").
Proof.
  assert (Hne : "s3://dest/out" <> "") by discriminate.
  pose proof (explicit_destination_is_used (Demo.ctx true)
                (__init__ "" "/data/out" None (RD_str "s3://dest/out")) "s3://dest/out"
                Demo.plain (Demo.world ["/data/out"]) eq_refl
                (or_introl (conj eq_refl Hne)) eq_refl) as Hrun.
  rewrite Hrun. reflexivity.
Defined.

Ltac solve_in :=
  let H := fresh "Hin" in
  intros ? ? ? ? H; cbn [In] in H;
  repeat (destruct H as [H|H];
          [try discriminate H;
           try (injection H as <- <- <- <-; repeat split; reflexivity)|]);
  try contradiction.

Lemma emit_uploads (ctx : FlyteContext) (meta : BlobMetadata) (bs : option nat)
    (should_upload : bool) (remote_directory : option string) (source_path : string)
    (w : World) :
  let w' := snd (emit ctx meta bs should_upload remote_directory source_path w) in
  exists evs,
      trace w' = (trace w ++ evs)%list
      /\ uploads_at_most source_path bs evs
      /\ (count is_put_data evs = 1 -> nodes w source_path = Dir).
Proof.
  unfold emit, Os.isdir, FileAccess.async_put_data,
         FileAccess.get_random_remote_directory, uploads_at_most.
  unfold_io.
  destruct should_upload.
  - destruct remote_directory as [rd|]; cbn [nodes trace fresh fst snd];
      destruct (nodes w source_path) eqn:Hnode; cbn [negb nodes trace fresh fst snd];
      try destruct (put_data_outcome _ _ _ _ _ _);
      cbn [snd nodes trace];
      flatten_trace; eexists; (split; [reflexivity|]);
      (split; [split; [cbn; lia|split; [reflexivity|solve_in]]|]);
      first [reflexivity | cbn; discriminate].
  - cbn. exists []. rewrite app_nil_r.
    split; [reflexivity|]. split; [split; [cbn; lia|split; [reflexivity|solve_in]]|].
    cbn. discriminate.
Qed.

(** X3: whatever it is handed, [async_to_literal] never calls [get_data] and
    calls [put_data] at most once; when it does, the upload is a multipart
    with the batch size of the type, its source is the source path, and that
    path is a directory on the local filesystem. *)
Theorem upload_only_of_local_directories :
  forall (ctx : FlyteContext) (python_val : python_value) (pt : python_type) (w : World),
    let w' := snd (async_to_literal ctx python_val pt w) in
    exists evs,
        trace w' = (trace w ++ evs)%list
        /\ count is_put_data evs <= 1
        /\ count is_get_data evs = 0
        /\ forall src dst m b,
            In (Put_data src dst m b) evs ->
            m = true /\ b = get_batch_size pt /\ nodes w src = Dir
            /\ match python_val with
               | A_FlyteDirectory d => src = path d
               | A_str s | A_Path s => src = s
               | Another => False
               end.
Proof.
  intros ctx python_val pt w.
  assert (Hquiet : forall (r : result Literal),
             exists evs,
                 trace (snd (r, w)) = (trace w ++ evs)%list
                 /\ count is_put_data evs <= 1
                 /\ count is_get_data evs = 0
                 /\ forall src dst m b,
                     In (Put_data src dst m b) evs ->
                     m = true /\ b = get_batch_size pt /\ nodes w src = Dir
                     /\ match python_val with
                        | A_FlyteDirectory d => src = path d
                        | A_str s | A_Path s => src = s
                        | Another => False
                        end).
  { intros r. exists []. cbn [snd].
    rewrite app_nil_r. split; [reflexivity|].
    split; [cbn; lia|]. split; [reflexivity|]. intros src dst m b []. }
  assert (Hemit : forall su rd sp,
             match python_val with
             | A_FlyteDirectory d => sp = path d
             | A_str s | A_Path s => sp = s
             | Another => False
             end ->
             let w' := snd (emit ctx {| metadata_type := _blob_type (get_format pt) |}
                                 (get_batch_size pt) su rd sp w) in
             exists evs,
                 trace w' = (trace w ++ evs)%list
                 /\ count is_put_data evs <= 1
                 /\ count is_get_data evs = 0
                 /\ forall src dst m b,
                     In (Put_data src dst m b) evs ->
                     m = true /\ b = get_batch_size pt /\ nodes w src = Dir
                     /\ match python_val with
                        | A_FlyteDirectory d => src = path d
                        | A_str s | A_Path s => src = s
                        | Another => False
                        end).
  { intros su rd sp Hsp.
    destruct (emit_uploads ctx {| metadata_type := _blob_type (get_format pt) |}
                (get_batch_size pt) su rd sp w)
      as (evs & Htrace & (Hle & Hget & Hput) & Hdir).
    exists evs.
    split; [exact Htrace|]. split; [exact Hle|]. split; [exact Hget|].
    intros src dst m b Hin.
    destruct (Hput src dst m b Hin) as (-> & -> & ->).
    split; [reflexivity|]. split; [reflexivity|]. split; [|exact Hsp].
    apply Hdir.
    assert (Hpos : 0 < count is_put_data evs).
    { clear - Hin. induction evs as [|e evs IH]; [destruct Hin|].
      destruct Hin as [->|Hin]; [cbn; lia|].
      specialize (IH Hin). unfold count in *. cbn.
      destruct (is_put_data e); cbn; lia. }
    lia. }
  assert (Hplain : forall s,
             match python_val with
             | A_FlyteDirectory d => s = path d
             | A_str s' | A_Path s' => s = s'
             | Another => False
             end ->
             let w' :=
               snd ((is_dir <- Os.isdir s ;;
                     if negb is_dir
                     then raise (ValueError (Expected_a_directory s))
                     else emit ctx {| metadata_type := _blob_type (get_format pt) |}
                               (get_batch_size pt) true None s) w) in
             exists evs,
                 trace w' = (trace w ++ evs)%list
                 /\ count is_put_data evs <= 1
                 /\ count is_get_data evs = 0
                 /\ forall src dst m b,
                     In (Put_data src dst m b) evs ->
                     m = true /\ b = get_batch_size pt /\ nodes w src = Dir
                     /\ match python_val with
                        | A_FlyteDirectory d => src = path d
                        | A_str s' | A_Path s' => src = s'
                        | Another => False
                        end).
  { intros s Hs.
    unfold emit, Os.isdir, FileAccess.async_put_data,
           FileAccess.get_random_remote_directory.
    unfold_io. cbn [nodes trace fresh fst snd].
    destruct (nodes w s) eqn:Hnode; cbn [negb nodes trace fresh fst snd];
      try rewrite Hnode; cbn [negb nodes trace fresh fst snd];
      try destruct (put_data_outcome _ _ _ _ _ _);
      cbn [snd nodes trace];
      flatten_trace; eexists; (split; [reflexivity|]);
      (split; [cbn; lia|]); (split; [reflexivity|]);
      intros src dst m b Hin; cbn [In] in Hin;
      repeat (destruct Hin as [Hin|Hin];
              [try discriminate Hin;
               try (injection Hin as <- <- <- <-;
                    split; [reflexivity|split; [reflexivity|split; assumption]])|]);
      try contradiction. }
  unfold async_to_literal.
  destruct python_val as [d|s|s|].
  - destruct (_remote_source d); [apply Hquiet|]. now apply Hemit.
  - destruct (is_remote (file_access ctx) s); [now apply Hemit|]. now apply Hplain.
  - destruct (is_remote (file_access ctx) s); [now apply Hemit|]. now apply Hplain.
  - apply Hquiet.
Qed.

(** X4: a path that is not a directory on the local filesystem is never
    uploaded.  Given as a plain string or [pathlib.Path] that is not remote,
    it is refused with [ValueError] after the one directory check, before
    any remote directory is asked for.  Given as the path of a handle that is
    to be uploaded, it is refused with [FlyteAssertion], without a
    [put_data]; a random remote directory has then been asked for already
    when the handle names no destination. *)
Theorem not_a_directory_is_refused :
  forall (ctx : FlyteContext) (pt : python_type) (w : World),
    (forall s,
        is_remote (file_access ctx) s = false ->
        nodes w s <> Dir ->
        let w' := {| nodes := nodes w; children := children w;
                     trace := (trace w ++ [Is_dir s])%list; fresh := fresh w |} in
        async_to_literal ctx (A_str s) pt w
        = (Raise (ValueError (Expected_a_directory s)), w')
        /\ async_to_literal ctx (A_Path s) pt w
           = (Raise (ValueError (Expected_a_directory s)), w'))
    /\
    (forall d,
        _remote_source d = None ->
        handle_should_upload ctx d (path d) = true ->
        nodes w (path d) <> Dir ->
        let run := async_to_literal ctx (A_FlyteDirectory d) pt w in
        fst run = Raise (FlyteAssertion (Expected_a_directory (path d)))
        /\ count is_put_data (trace (snd run)) = count is_put_data (trace w)
        /\ fresh (snd run)
           = match or_None (_remote_directory d) with
             | Some _ => fresh w
             | None => S (fresh w)
             end).
Proof.
  intros ctx pt w. split.
  - intros s Hlocal Hnode w'. subst w'. run_codec. rewrite Hlocal.
    cbn [negb nodes]. destruct (nodes w s); cbn; try congruence; now split.
  - intros d Hsrc Hup Hnode run. subst run.
    unfold async_to_literal. rewrite Hsrc, Hup.
    unfold emit, Os.isdir, FileAccess.get_random_remote_directory. unfold_io.
    destruct (or_None (_remote_directory d)) as [rd|];
      cbn [nodes trace fresh fst snd];
      destruct (nodes w (path d)); cbn [negb fst snd trace fresh]; try congruence;
      (split; [reflexivity|]);
      (split; [|reflexivity]);
      rewrite ?count_app; cbn; lia.
Qed.

Lemma not_a_directory_is_refused_witness :
  fst (async_to_literal (Demo.ctx false) (A_str "/data/missing") Demo.plain
                        (Demo.world ["/data/out"]))
  = Raise (ValueError (Expected_a_directory "/data/missing"))
  /\ fst (async_to_literal (Demo.ctx false)
            (A_FlyteDirectory (__init__ "" "/data/missing" None RD_None)) Demo.plain
            (Demo.world ["/data/out"]))
     = Raise (FlyteAssertion (Expected_a_directory "/data/missing")).
Proof.
  pose proof (not_a_directory_is_refused (Demo.ctx false) Demo.plain
                (Demo.world ["/data/out"])) as [Hplain Hhandle].
  split.
  - assert (Hnode : nodes (Demo.world ["/data/out"]) "/data/missing" <> Dir)
      by (cbn; discriminate).
    pose proof (proj1 (Hplain "/data/missing" eq_refl Hnode)) as Hrun.
    rewrite Hrun. reflexivity.
  - assert (Hnode : nodes (Demo.world ["/data/out"])
                          (path (__init__ "" "/data/missing" None RD_None)) <> Dir)
      by (cbn; discriminate).
    exact (proj1 (Hhandle (__init__ "" "/data/missing" None RD_None) eq_refl eq_refl Hnode)).
Defined.

(** X5: a literal with a binary payload is decoded from the payload alone,
    whatever else its scalar carries.  A tag other than [MESSAGEPACK] raises
    [TypeTransformerFailedError] "Unsupported binary format", an exception of
    the decoder is the exception of the call, a decoded mapping without
    [path] raises [ValueError], all three without touching the world; a
    mapping with [path] is decoded exactly as the multipart blob literal of
    that path. *)
Theorem binary_payload_is_decoded_by_path :
  forall MESSAGEPACK msgpack_loads (ctx : FlyteContext) (sc : Scalar) (b : Binary)
         (ept : python_type) (w : World),
    binary sc = Some b ->
    let run := async_to_python_value MESSAGEPACK msgpack_loads ctx
                                     {| scalar := Some sc |} ept w in
    (tag b <> MESSAGEPACK ->
     run = (Raise (TypeTransformerFailedError (Unsupported_binary_format (tag b))), w))
    /\
    (tag b = MESSAGEPACK ->
     (forall e, msgpack_loads (value b) = Raise e -> run = (Raise e, w))
     /\ (forall m,
            msgpack_loads (value b) = Ok m ->
            (get "path" m = None ->
             run = (Raise (ValueError Path_should_not_be_None), w))
            /\ (forall p,
                   get "path" m = Some p ->
                   run = async_to_python_value MESSAGEPACK msgpack_loads ctx
                                               (directory_literal p) ept w))).
Proof.
  intros MESSAGEPACK msgpack_loads ctx sc b ept w Hbin run. subst run.
  unfold async_to_python_value. cbn [scalar]. rewrite Hbin.
  unfold from_binary_idl. split.
  - intros Htag. apply String.eqb_neq in Htag. now rewrite Htag.
  - intros Htag. apply String.eqb_eq in Htag. rewrite Htag. unfold_io.
    split.
    + intros e He. now rewrite He.
    + intros m Hm. rewrite Hm. unfold dict_to_flyte_directory. split.
      * intros Hnone. now rewrite Hnone.
      * intros p Hp. now rewrite Hp.
Qed.

Lemma binary_payload_is_decoded_by_path_witness :
  let payload := {| value := []; tag := "msgpack" |} in
  let lv := {| scalar := Some {| blob := None; binary := Some payload; generic := None |} |} in
  async_to_python_value "msgpack" (fun _ => Ok [("path", "s3://bucket/x")]) (Demo.ctx false)
    lv Demo.plain (Demo.world [])
  = async_to_python_value "msgpack" (fun _ => Ok [("path", "s3://bucket/x")]) (Demo.ctx false)
      (directory_literal "s3://bucket/x") Demo.plain (Demo.world [])
  /\ async_to_python_value "json" (fun _ => Ok [("path", "s3://bucket/x")]) (Demo.ctx false)
       lv Demo.plain (Demo.world [])
     = (Raise (TypeTransformerFailedError (Unsupported_binary_format "msgpack")),
        Demo.world []).
Proof.
  intros payload lv. split.
  - pose proof (binary_payload_is_decoded_by_path "msgpack"
                  (fun _ => Ok [("path", "s3://bucket/x")]) (Demo.ctx false)
                  {| blob := None; binary := Some payload; generic := None |} payload
                  Demo.plain (Demo.world []) eq_refl) as [_ Hdecode].
    destruct (Hdecode eq_refl) as [_ Hmapping].
    exact (proj2 (Hmapping [("path", "s3://bucket/x")] eq_refl) "s3://bucket/x" eq_refl).
  - pose proof (binary_payload_is_decoded_by_path "json"
                  (fun _ => Ok [("path", "s3://bucket/x")]) (Demo.ctx false)
                  {| blob := None; binary := Some payload; generic := None |} payload
                  Demo.plain (Demo.world []) eq_refl) as [Htag _].
    apply Htag. discriminate.
Defined.

(** X6: a literal with no binary payload and a generic payload that has
    fields is decoded from the payload alone: without [path] among the fields
    the call raises [ValueError] and touches nothing, with [path] the literal
    is decoded exactly as the multipart blob literal of that path. *)
Theorem generic_payload_is_decoded_by_path :
  forall MESSAGEPACK msgpack_loads (ctx : FlyteContext) (sc : Scalar) (g : mapping)
         (ept : python_type) (w : World),
    binary sc = None ->
    generic sc = Some g ->
    g <> [] ->
    let run := async_to_python_value MESSAGEPACK msgpack_loads ctx
                                     {| scalar := Some sc |} ept w in
    (get "path" g = None -> run = (Raise (ValueError Path_should_not_be_None), w))
    /\ (forall p,
           get "path" g = Some p ->
           run = async_to_python_value MESSAGEPACK msgpack_loads ctx
                                       (directory_literal p) ept w).
Proof.
  intros MESSAGEPACK msgpack_loads ctx sc g ept w Hbin Hgen Hfields run. subst run.
  unfold async_to_python_value. cbn [scalar]. rewrite Hbin, Hgen.
  destruct g as [|field g]; [congruence|]. cbn [truthy_generic].
  unfold from_generic_idl, dict_to_flyte_directory. split.
  - intros Hnone. now rewrite Hnone.
  - intros p Hp. now rewrite Hp.
Qed.

Lemma generic_payload_is_decoded_by_path_witness :
  let lv := {| scalar := Some {| blob := None; binary := None;
                                 generic := Some [("name", "x")] |} |} in
  async_to_python_value "msgpack" (fun _ => Ok []) (Demo.ctx false) lv Demo.plain
                        (Demo.world [])
  = (Raise (ValueError Path_should_not_be_None), Demo.world []).
Proof.
  intros lv.
  assert (Hfields : [("name", "x")] <> @nil (string * string)) by discriminate.
  exact (proj1 (generic_payload_is_decoded_by_path "msgpack" (fun _ => Ok []) (Demo.ctx false)
                  {| blob := None; binary := None; generic := Some [("name", "x")] |}
                  [("name", "x")] Demo.plain (Demo.world []) eq_refl eq_refl Hfields)
               eq_refl).
Defined.

(** ** Further properties of the handle *)

Import Methods.

(** X7: [from_source] on a remote source returns a handle that has not been
    downloaded, with the source as remote source and a random local directory
    as path; building it asks for that directory and transfers nothing.  The
    first [download()] then calls [get_data] once, from the source to that
    path, as a multipart with the batch size of the class: when the transfer
    succeeds the path is returned and the handle is marked downloaded, when
    it raises the exception is the exception of [download()] and the handle
    stays as it was. *)
Theorem from_source_downloads_on_demand :
  forall (ctx : FlyteContext) (cls : python_type) (source : string) (w : World),
    is_remote (file_access ctx) source = true ->
    let local := random_local_directory (file_access ctx) (fresh w) in
    let bs := get_batch_size cls in
    exists fd w1,
      from_source ctx cls source w = (Ok fd, w1)
      /\ path fd = local
      /\ _remote_source fd = Some source
      /\ _downloaded fd = false
      /\ nodes w1 = nodes w
      /\ trace w1 = (trace w ++ [Random_local_directory])%list
      /\ trace (snd (download ctx fd w1))
         = (trace w ++ [Random_local_directory; Call_downloader;
                        Get_data source local true bs])%list
      /\ (fst (get_data_outcome (file_access ctx) source local true bs (nodes w)) = Ok tt ->
          fst (download ctx fd w1) = (Ok local, set_downloaded fd true))
      /\ (forall e,
             fst (get_data_outcome (file_access ctx) source local true bs (nodes w))
             = Raise e ->
             fst (download ctx fd w1) = (Raise e, fd)).
Proof.
  intros ctx cls source w Hremote local bs. subst local bs.
  unfold from_source, blob_to_python_value.
  unfold FileAccess.get_random_local_directory. unfold_io.
  cbn [scalar blob blob_literal uri metadata metadata_type dimensionality
       dimensionality_eqb negb].
  rewrite Hremote. cbn [negb nodes trace fresh children].
  eexists; eexists. split; [reflexivity|].
  cbn [path _remote_source _downloaded set_remote_source __init__ nodes trace].
  repeat (split; [reflexivity|]).
  unfold download, __fspath__.
  cbn [_downloaded _downloader set_remote_source __init__ path].
  rewrite run_downloader_is_call.
  unfold call, FileAccess.get_data. unfold_io. cbn [nodes trace fresh children].
  destruct (get_data_outcome (file_access ctx) source
              (random_local_directory (file_access ctx) (fresh w)) true
              (get_batch_size cls) (nodes w)) as [[[]|e] fs];
    cbn [fst snd trace]; flatten_trace.
  - split; [reflexivity|]. split; [reflexivity|]. intros e He. discriminate He.
  - split; [reflexivity|]. split; [intros He; discriminate He|].
    intros e' He. now injection He as <-.
Qed.

Lemma from_source_downloads_on_demand_witness :
  exists fd w1,
    from_source (Demo.ctx false) Demo.plain "s3://bucket/x" (Demo.world []) = (Ok fd, w1)
    /\ trace w1 = [Random_local_directory]
    /\ fst (download (Demo.ctx false) fd w1)
       = (Ok "/tmp/flyte/local/d0", set_downloaded fd true)
    /\ trace (snd (download (Demo.ctx false) fd w1))
       = [Random_local_directory; Call_downloader;
          Get_data "s3://bucket/x" "/tmp/flyte/local/d0" true None].
Proof.
  destruct (from_source_downloads_on_demand (Demo.ctx false) Demo.plain "s3://bucket/x"
              (Demo.world []) eq_refl)
    as (fd & w1 & Hrun & _ & _ & _ & _ & Htrace & Hcalls & Hok & _).
  exists fd, w1. split; [exact Hrun|]. split; [exact Htrace|].
  split; [exact (Hok eq_refl)|exact Hcalls].
Defined.

(** X8: a handle decoded from a local directory keeps the default [noop]
    downloader, so its [download()] does not raise and moves nothing: it
    calls the [noop], returns the uri and marks the handle downloaded; the
    only other call of the two steps is the directory check of the decoding. *)
Theorem local_handle_download_moves_nothing :
  forall (ctx : FlyteContext) (cls : python_type) (uri : string) (w : World),
    is_remote (file_access ctx) uri = false ->
    nodes w uri = Dir ->
    let fd := __init__ (extension cls) uri None RD_False in
    let w1 := {| nodes := nodes w; children := children w;
                 trace := (trace w ++ [Is_dir uri])%list; fresh := fresh w |} in
    let w2 := {| nodes := nodes w; children := children w;
                 trace := (trace w ++ [Is_dir uri; Call_downloader])%list;
                 fresh := fresh w |} in
    from_source ctx cls uri w = (Ok fd, w1)
    /\ download ctx fd w1 = (Ok uri, set_downloaded fd true, w2).
Proof.
  intros ctx cls uri w Hlocal Hdir fd w1 w2. subst fd w1 w2.
  unfold from_source, blob_to_python_value, Os.isdir. unfold_io.
  cbn [scalar blob blob_literal Literals.uri metadata metadata_type dimensionality
       dimensionality_eqb negb].
  rewrite Hlocal. cbn [negb nodes trace fresh children]. rewrite Hdir.
  cbn [negb]. split; [reflexivity|].
  unfold download, __fspath__, call. unfold_io. cbn.
  now flatten_trace.
Qed.

Lemma local_handle_download_moves_nothing_witness :
  fst (download (Demo.ctx false) (__init__ "" "/data/out" None RD_False)
         (snd (from_source (Demo.ctx false) Demo.plain "/data/out"
                           (Demo.world ["/data/out"]))))
  = (Ok "/data/out", set_downloaded (__init__ "" "/data/out" None RD_False) true).
Proof.
  destruct (local_handle_download_moves_nothing (Demo.ctx false) Demo.plain "/data/out"
              (Demo.world ["/data/out"]) eq_refl eq_refl) as [Hdecode Hdownload].
  rewrite Hdecode. cbn [snd]. exact (f_equal fst Hdownload).
Defined.

Lemma local_entries_run (p : string) (names : list string) :
  forall (fs : filesystem) (ch : string -> result (list string))
         (tr : list event) (fr : nat),
    mapM (listdir_local_entry p) names
         {| nodes := fs; children := ch; trace := tr; fresh := fr |}
    = (Ok (map (local_child fs p) names),
       {| nodes := fs; children := ch;
          trace := (tr ++ map (fun n => Is_file (PosixPath.join p n)) names)%list;
          fresh := fr |}).
Proof.
  induction names as [|n names IH]; intros fs ch tr fr; cbn [mapM map].
  - unfold ret. now rewrite app_nil_r.
  - unfold bind at 1. unfold listdir_local_entry at 1, Os.isfile. unfold_io.
    cbn [nodes children trace fresh].
    unfold local_child at 1.
    destruct (fs (PosixPath.join p n)); rewrite IH;
      now rewrite <- app_assoc.
Qed.

(** X9: when the path [listdir] enumerates is not remote it is listed once
    with [os.listdir]; an exception of the listing is the exception of the
    call.  Otherwise there is one child per name, in order, at the name
    joined to the path, with the [noop] downloader, not downloaded and
    without remote source: a file handle when the joined path is a regular
    file, a directory handle for anything else.  The call makes one file
    check per name and nothing more: no remote listing, no transfer, no
    random path, no change of the filesystem. *)
Theorem listdir_local_wraps_entries :
  forall (ctx : FlyteContext) (directory : FlyteDirectory.t) (w : World),
    is_remote (file_access ctx) (final_path directory) = false ->
    let p := final_path directory in
    (forall e,
        children w p = Raise e ->
        listdir ctx directory w
        = (Raise e, {| nodes := nodes w; children := children w;
                       trace := (trace w ++ [Os_listdir p])%list; fresh := fresh w |}))
    /\
    (forall names,
        children w p = Ok names ->
        listdir ctx directory w
        = (Ok (map (local_child (nodes w) p) names),
           {| nodes := nodes w; children := children w;
              trace := (trace w ++ Os_listdir p
                                :: map (fun n => Is_file (PosixPath.join p n)) names)%list;
              fresh := fresh w |})).
Proof.
  intros ctx directory w Hlocal p.
  unfold listdir. rewrite Hlocal. cbn [negb]. fold p.
  unfold Os.listdir. unfold_io. cbn [children]. split.
  - intros e He. now rewrite He.
  - intros names Hnames. rewrite Hnames. rewrite local_entries_run.
    now rewrite <- app_assoc.
Qed.

Lemma listdir_local_wraps_entries_witness :
  let w := {| nodes := fun q => if String.eqb q "/data/out/a.txt" then File
                                else if String.eqb q "/data/out/sub" then Dir
                                else if String.eqb q "/data/out" then Dir else Absent;
              children := fun _ => Ok ["a.txt"; "sub"; "gone"];
              trace := []; fresh := 0 |} in
  fst (listdir (Demo.ctx false) (__init__ "" "/data/out" None RD_False) w)
  = Ok [A_file {| file_path := "/data/out/a.txt"; file_downloader := noop;
                  file_remote_source := None |};
        A_directory (__init__ "" "/data/out/sub" None RD_None);
        A_directory (__init__ "" "/data/out/gone" None RD_None)].
Proof.
  intros w.
  pose proof (proj2 (listdir_local_wraps_entries (Demo.ctx false)
                       (__init__ "" "/data/out" None RD_False) w eq_refl)
                    ["a.txt"; "sub"; "gone"] eq_refl) as Hrun.
  rewrite Hrun. reflexivity.
Defined.

(** X10: the handles a remote listing returns fetch their own entry and
    nothing else.  Running the downloader of the child of an entry calls
    [get_data] once, from the entry's key under the listed path to the
    child's path, as a single object for a file and as a multipart otherwise;
    and the first [download()] of a directory child does exactly that,
    returning the child's path and marking it downloaded when the transfer
    succeeds. *)
Theorem listed_child_fetches_its_entry :
  forall (ctx : FlyteContext) (p : string) (n : nat) (key : entry) (c : child) (w : World),
    lazy_child_of ctx p n key c ->
    let remote := PosixPath.join p (PosixPath.last_component (name key)) in
    let fetch := Get_data remote (child_path c)
                          (negb (String.eqb (type key) "file")) None in
    trace (snd (call ctx (child_downloader c) w))
    = (trace w ++ [Call_downloader; fetch])%list
    /\ forall d,
        c = A_directory d ->
        trace (snd (download ctx d w)) = (trace w ++ [Call_downloader; fetch])%list
        /\ (fst (get_data_outcome (file_access ctx) remote (path d) true None (nodes w))
            = Ok tt ->
            fst (download ctx d w) = (Ok (path d), set_downloaded d true)).
Proof.
  intros ctx p n key c w (Hkind & Hsrc & Hpath & Hfresh & Hdl) remote fetch.
  subst remote fetch.
  assert (Hcall : forall local,
             child_path c = local ->
             trace (snd (call ctx (child_downloader c) w))
             = (trace w ++ [Call_downloader;
                            Get_data (PosixPath.join p (PosixPath.last_component (name key)))
                                     local (negb (String.eqb (type key) "file")) None])%list).
  { intros local Hlocal. rewrite Hdl, <- Hpath, Hlocal.
    unfold call, FileAccess.get_data. unfold_io. cbn [nodes trace].
    destruct (get_data_outcome _ _ _ _ _ _) as [r fs]. cbn [snd trace].
    now flatten_trace. }
  split; [now apply Hcall|].
  intros d ->. cbn [child_path child_downloader child_is_file child_downloaded] in *.
  unfold download, __fspath__. rewrite Hfresh, run_downloader_is_call.
  pose proof (Hcall (path d) eq_refl) as Htrace.
  assert (Hmulti : negb (String.eqb (type key) "file") = true)
    by (now rewrite <- Hkind).
  split.
  - destruct (call ctx (_downloader d) w) as [[[]|e] w1]; exact Htrace.
  - rewrite Hdl, <- Hpath, Hmulti.
    unfold call, FileAccess.get_data. unfold_io. cbn [nodes trace].
    destruct (get_data_outcome _ _ _ _ _ _) as [[[]|e] fs]; cbn [fst snd].
    + reflexivity.
    + discriminate.
Qed.

Lemma listed_child_fetches_its_entry_witness :
  let key := {| name := "bucket/x/sub"; type := "directory" |} in
  let d := set_remote_source
             (__init__ "" "/tmp/flyte/local/d1"
                       (Some (partial_get_data "s3://bucket/x/sub" "/tmp/flyte/local/d1"
                                               true None))
                       RD_None)
             "s3://bucket/x/sub" in
  trace (snd (download (Demo.ctx false) d (Demo.world [])))
  = [Call_downloader; Get_data "s3://bucket/x/sub" "/tmp/flyte/local/d1" true None].
Proof.
  intros key d.
  assert (Hchild : lazy_child_of (Demo.ctx false) "s3://bucket/x" 1 key (A_directory d))
    by (repeat split).
  exact (proj1 (proj2 (listed_child_fetches_its_entry (Demo.ctx false) "s3://bucket/x" 1
                         key (A_directory d) (Demo.world []) Hchild) d eq_refl)).
Defined.

(** X11: a handle with a remote source survives [_serialize] and
    [_deserialize] with that source.  [_serialize] returns the mapping of
    [path] to the remote source and calls nothing; [_deserialize] of that
    mapping returns a handle with the same remote source that has not been
    downloaded, at a fresh random local directory, its downloader bound to
    fetch the source there as a multipart with the batch size of the class;
    no transfer takes place. *)
Theorem serialize_keeps_remote_source :
  forall (ctx : FlyteContext) (cls : python_type) (d : FlyteDirectory.t)
         (source : string) (w : World),
    _remote_source d = Some source ->
    is_remote (file_access ctx) source = true ->
    let local := random_local_directory (file_access ctx) (fresh w) in
    _serialize ctx d w = (Ok [("path", source)], w)
    /\ exists fd w',
        _deserialize ctx cls [("path", source)] w = (Ok fd, w')
        /\ _remote_source fd = Some source
        /\ _downloaded fd = false
        /\ path fd = local
        /\ _downloader fd = partial_get_data source local true (get_batch_size cls)
        /\ trace w' = (trace w ++ [Random_local_directory])%list
        /\ nodes w' = nodes w.
Proof.
  intros ctx cls d source w Hsrc Hremote local. subst local. split.
  - unfold _serialize, async_to_literal. rewrite Hsrc. reflexivity.
  - unfold _deserialize, dict_to_flyte_directory.
    change (get "path" [("path", source)]) with (Some source).
    run_codec. rewrite Hremote. cbn.
    eexists; eexists. split; [reflexivity|]. cbn. repeat split.
Qed.

Lemma serialize_keeps_remote_source_witness :
  let d := set_remote_source (__init__ "" "/tmp/flyte/local/d7" None RD_None)
                             "s3://bucket/x" in
  _serialize (Demo.ctx false) d (Demo.world []) = (Ok [("path", "s3://bucket/x")], Demo.world [])
  /\ exists fd w',
      _deserialize (Demo.ctx false) Demo.plain [("path", "s3://bucket/x")] (Demo.world [])
      = (Ok fd, w')
      /\ _remote_source fd = Some "s3://bucket/x".
Proof.
  intros d.
  destruct (serialize_keeps_remote_source (Demo.ctx false) Demo.plain d "s3://bucket/x"
              (Demo.world []) eq_refl eq_refl) as (Hser & fd & w' & Hde & Hsrc & _).
  split; [exact Hser|]. exists fd, w'. split; assumption.
Defined.

(** X12: a handle decoded from a local directory is given back unchanged by
    [_serialize] followed by [_deserialize].  [_serialize] returns the mapping
    of [path] to the handle's path and calls nothing, in particular it
    uploads nothing; [_deserialize] of that mapping checks that the path is a
    directory and returns the same handle. *)
Theorem serialize_roundtrip_local :
  forall (ctx : FlyteContext) (cls : python_type) (p : string) (w : World),
    is_remote (file_access ctx) p = false ->
    nodes w p = Dir ->
    let d := __init__ (extension cls) p None RD_False in
    _serialize ctx d w = (Ok [("path", p)], w)
    /\ _deserialize ctx cls [("path", p)] w
       = (Ok d, {| nodes := nodes w; children := children w;
                   trace := (trace w ++ [Is_dir p])%list; fresh := fresh w |}).
Proof.
  intros ctx cls p w Hlocal Hdir d. subst d. split.
  - reflexivity.
  - unfold _deserialize, dict_to_flyte_directory.
    change (get "path" [("path", p)]) with (Some p).
    run_codec. rewrite Hlocal. cbn [negb nodes].
    rewrite Hdir. reflexivity.
Qed.

Lemma serialize_roundtrip_local_witness :
  fst (_deserialize (Demo.ctx false) Demo.plain [("path", "/data/out")]
                    (Demo.world ["/data/out"]))
  = Ok (__init__ "" "/data/out" None RD_False).
Proof.
  pose proof (proj2 (serialize_roundtrip_local (Demo.ctx false) Demo.plain "/data/out"
                       (Demo.world ["/data/out"]) eq_refl eq_refl)) as Hrun.
  rewrite Hrun. reflexivity.
Defined.

(** *** Children by name *)

Lemma rstrip_char_app (c : ascii) (s : string) :
  Text.rstrip_char c (s ++ String c "") = Text.rstrip_char c s.
Proof.
  induction s as [|d s IH]; cbn [append Text.rstrip_char].
  - now rewrite Ascii.eqb_refl.
  - now rewrite IH.
Qed.

Lemma rstrip_char_ends (c : ascii) (s : string) :
  Text.ends_with_char c (Text.rstrip_char c s) = false.
Proof.
  induction s as [|d s IH]; cbn [Text.rstrip_char]; [reflexivity|].
  destruct (Text.rstrip_char c s) as [|e kept] eqn:Hkept.
  - destruct (Ascii.eqb c d) eqn:Hcd; cbn; [reflexivity|exact Hcd].
  - exact IH.
Qed.

(** X13: [new_dir] and [new_file] with a name only build a path: the parent
    path without its trailing separators, one separator, the name.  They
    call nothing and leave the world as it was, the handle they return is
    fresh (no downloader, not downloaded, no remote source or destination),
    and trailing separators on the parent path make no difference.  The
    separator is the one [sep] gives, which is [/] on any host that is not
    [nt]; if [sep] raises, so do they. *)
Theorem new_dir_joins_with_one_separator :
  forall (os_name : string) (get_protocol : option string -> result string)
         (getrandbits : nat -> N) (self : FlyteDirectory.t) (name : string) (w : World),
    name <> "" ->
    (os_name <> "nt" -> sep os_name get_protocol self = Ok "/"%char)
    /\ (forall e,
           sep os_name get_protocol self = Raise e ->
           new_dir os_name get_protocol getrandbits self (Some name) w = (Raise e, w)
           /\ new_file os_name get_protocol getrandbits self (Some name) w = (Raise e, w))
    /\ (forall c,
           sep os_name get_protocol self = Ok c ->
           let parent := Text.rstrip_char c (path self) in
           new_dir os_name get_protocol getrandbits self (Some name) w
           = (Ok (__init__ "" (parent ++ String c name) None RD_None), w)
           /\ new_file os_name get_protocol getrandbits self (Some name) w
              = (Ok {| file_path := parent ++ String c name; file_downloader := noop;
                       file_remote_source := None |}, w)
           /\ Text.ends_with_char c parent = false
           /\ forall self',
               path self' = path self ++ String c "" ->
               sep os_name get_protocol self' = Ok c ->
               new_dir os_name get_protocol getrandbits self' (Some name) w
               = new_dir os_name get_protocol getrandbits self (Some name) w).
Proof.
  intros os_name get_protocol getrandbits self name w Hname.
  apply String.eqb_neq in Hname.
  split; [|split].
  - intros Hos. apply String.eqb_neq in Hos. unfold sep. now rewrite Hos.
  - intros e He.
    unfold new_dir, new_file, name_or_random, child_path_of. rewrite Hname, He.
    split; reflexivity.
  - intros c Hc parent. subst parent.
    unfold new_dir, new_file, name_or_random, child_path_of. rewrite Hname, Hc.
    split; [reflexivity|]. split; [reflexivity|].
    split; [apply rstrip_char_ends|].
    intros self' Hpath Hc'. rewrite Hc'. unfold_io.
    now rewrite Hpath, rstrip_char_app.
Qed.

Lemma new_dir_joins_with_one_separator_witness :
  new_dir "posix" (fun _ => Ok "file") (fun _ => 0%N)
          (__init__ "" "/data/out///" None RD_None) (Some "part") (Demo.world [])
  = (Ok (__init__ "" "/data/out/part" None RD_None), Demo.world []).
Proof.
  assert (Hname : "part" <> "") by discriminate.
  pose proof (new_dir_joins_with_one_separator "posix" (fun _ => Ok "file") (fun _ => 0%N)
                (__init__ "" "/data/out///" None RD_None) "part" (Demo.world []) Hname)
    as (_ & _ & Hjoin).
  exact (proj1 (Hjoin "/"%char eq_refl)).
Defined.

Lemma forallb_string_app (p : ascii -> bool) (a b : string) :
  Text.forallb_string p (a ++ b)
  = (Text.forallb_string p a && Text.forallb_string p b)%bool.
Proof.
  induction a as [|c a IH]; cbn; [reflexivity|].
  now rewrite IH, andb_assoc.
Qed.

Lemma string_app_last_inj (a b : string) (c d : ascii) :
  a ++ String c "" = b ++ String d "" -> a = b /\ c = d.
Proof.
  revert b. induction a as [|x a IH]; intros [|y b] H; cbn in H.
  - injection H as ->. now split.
  - injection H as -> H. destruct b; discriminate H.
  - injection H as -> H. destruct a; discriminate H.
  - injection H as -> H. destruct (IH b H) as [-> ->]. now split.
Qed.

Lemma hex_digit_is_hex (d : N) : Text.is_hex_digit (Text.hex_digit d) = true.
Proof.
  destruct d as [|p]; [reflexivity|].
  do 4 (try (destruct p as [p|p|]; try reflexivity)).
Qed.

Lemma hex_digit_inj (a b : N) :
  (a < 16)%N -> (b < 16)%N -> Text.hex_digit a = Text.hex_digit b -> a = b.
Proof.
  intros Ha Hb H.
  destruct a as [|p]; destruct b as [|q];
    do 4 (try (destruct p as [p|p|])); do 4 (try (destruct q as [q|q|]));
    try reflexivity; try discriminate H; try lia.
Qed.

Lemma hex_fixed_length (k : nat) : forall n, String.length (Text.hex_fixed k n) = k.
Proof.
  induction k as [|k IH]; intros n; cbn [Text.hex_fixed]; [reflexivity|].
  rewrite string_length_app, IH. cbn. lia.
Qed.

Lemma hex_fixed_is_hex (k : nat) :
  forall n, Text.forallb_string Text.is_hex_digit (Text.hex_fixed k n) = true.
Proof.
  induction k as [|k IH]; intros n; cbn [Text.hex_fixed]; [reflexivity|].
  rewrite forallb_string_app, IH. cbn. now rewrite hex_digit_is_hex.
Qed.

Lemma hex_fixed_inj (k : nat) :
  forall a b,
    (a < 16 ^ N.of_nat k)%N -> (b < 16 ^ N.of_nat k)%N ->
    Text.hex_fixed k a = Text.hex_fixed k b -> a = b.
Proof.
  induction k as [|k IH]; intros a b Ha Hb H.
  - cbn in Ha, Hb. lia.
  - cbn [Text.hex_fixed] in H.
    apply string_app_last_inj in H. destruct H as [Hhigh Hlow].
    rewrite Nat2N.inj_succ, N.pow_succ_r' in Ha, Hb.
    assert (Hq : (a / 16 = b / 16)%N).
    { apply IH; [| |exact Hhigh]; now apply N.Div0.div_lt_upper_bound. }
    assert (Hr : (a mod 16 = b mod 16)%N).
    { apply hex_digit_inj; [| |exact Hlow]; now apply N.mod_lt. }
    rewrite (N.Div0.div_mod a 16), (N.Div0.div_mod b 16). now rewrite Hq, Hr.
Qed.

(** X14: [new_dir] and [new_file] without a name, or with the empty name,
    draw 128 random bits and use their hexadecimal rendering as the name: 32
    characters, all of them hexadecimal digits, joined to the parent path as
    a given name would be.  The draw is the only effect, and two draws that
    differ give two names that differ. *)
Theorem unnamed_child_gets_hex_name :
  forall (os_name : string) (get_protocol : option string -> result string)
         (getrandbits : nat -> N) (self : FlyteDirectory.t) (name : option string)
         (c : ascii) (w : World),
    name = None \/ name = Some "" ->
    sep os_name get_protocol self = Ok c ->
    let drawn := fun i => (getrandbits i mod 2 ^ 128)%N in
    let hex := Text.hex_fixed 32 (drawn (fresh w)) in
    let new_path := Text.rstrip_char c (path self) ++ String c hex in
    let w' := {| nodes := nodes w; children := children w; trace := trace w;
                 fresh := S (fresh w) |} in
    new_dir os_name get_protocol getrandbits self name w
    = (Ok (__init__ "" new_path None RD_None), w')
    /\ new_file os_name get_protocol getrandbits self name w
       = (Ok {| file_path := new_path; file_downloader := noop;
                file_remote_source := None |}, w')
    /\ String.length hex = 32
    /\ Text.forallb_string Text.is_hex_digit hex = true
    /\ forall i, drawn i <> drawn (fresh w) -> Text.hex_fixed 32 (drawn i) <> hex.
Proof.
  intros os_name get_protocol getrandbits self name c w Hname Hc drawn hex new_path w'.
  subst new_path w'.
  assert (Hrandom : name_or_random getrandbits name = random_name getrandbits)
    by (destruct Hname as [-> | ->]; reflexivity).
  assert (Hbound : forall i, (getrandbits i mod 2 ^ 128 < 16 ^ N.of_nat 32)%N).
  { intros i.
    replace (16 ^ N.of_nat 32)%N with (2 ^ 128)%N by (vm_compute; reflexivity).
    apply N.mod_lt, N.pow_nonzero. discriminate. }
  subst hex drawn. cbv beta.
  split; [|split; [|split; [|split]]].
  - unfold new_dir, child_path_of. rewrite Hrandom, Hc.
    unfold random_name. unfold_io. cbn [fresh nodes children trace].
    reflexivity.
  - unfold new_file, child_path_of. rewrite Hrandom, Hc.
    unfold random_name. unfold_io. cbn [fresh nodes children trace].
    reflexivity.
  - apply hex_fixed_length.
  - apply hex_fixed_is_hex.
  - intros i Hdiff Heq. apply Hdiff.
    apply (hex_fixed_inj 32); [apply Hbound|apply Hbound|exact Heq].
Qed.

Lemma unnamed_child_gets_hex_name_witness :
  fst (new_dir "posix" (fun _ => Ok "file") (fun _ => 48879%N)
               (__init__ "" "/data/out/" None RD_None) None (Demo.world []))
  = Ok (__init__ "" "/data/out/0000000000000000000000000000beef" None RD_None).
Proof.
  pose proof (unnamed_child_gets_hex_name "posix" (fun _ => Ok "file") (fun _ => 48879%N)
                (__init__ "" "/data/out/" None RD_None) None "/"%char (Demo.world [])
                (or_introl eq_refl) eq_refl) as (Hrun & _).
  rewrite Hrun. reflexivity.
Defined.

(** *** Crawling *)

Lemma drop_all (s : string) : forall n, String.length s <= n -> Text.drop n s = "".
Proof.
  induction s as [|c s IH]; intros [|n] H; cbn in *; try reflexivity; try lia.
  apply IH. lia.
Qed.

Lemma drop_under (root rel : string) :
  Text.drop (String.length root + 1) (under root rel) = rel.
Proof.
  unfold under. destruct (String.eqb rel "") eqn:Hrel.
  - apply String.eqb_eq in Hrel. subst rel. apply drop_all. lia.
  - clear Hrel. induction root as [|c root IH]; [reflexivity|exact IH].
Qed.

(** X15: [crawl] pairs every entry with the one path it enumerates and
    yields one entry per walked file, in the order of the walk.  When the
    walk reports the crawled root and the directories under it by their path
    from the root, each file comes out under its path relative to the root:
    the file name for a file of the root itself, the directory's relative
    path joined with the name otherwise. *)
Theorem crawl_yields_relative_paths :
  forall (strip_protocol : string -> string)
         (walk : string -> option nat -> bool -> mapping -> list (string * walked))
         (self : FlyteDirectory.t) (maxdepth : option nat) (topdown : bool)
         (kwargs : mapping),
    let fp := final_path self in
    let yielded := crawl strip_protocol walk self maxdepth topdown kwargs in
    Forall (fun y => fst y = fp) yielded
    /\ length yielded
       = list_sum (map (fun b => file_count (snd b)) (walk fp maxdepth topdown kwargs))
    /\ (forall f, PosixPath.join "" f = f)
    /\ forall tree : list (string * walked),
        walk fp maxdepth topdown kwargs
        = map (fun '(rel, files) => (under (strip_protocol fp) rel, files)) tree ->
        yielded = flat_map (fun '(rel, files) => relative_entries fp rel files) tree.
Proof.
  intros strip_protocol walk self maxdepth topdown kwargs fp yielded.
  subst yielded. unfold crawl. fold fp.
  split; [|split; [|split]].
  - induction (walk fp maxdepth topdown kwargs) as [|[base files] rest IH];
      cbn [flat_map]; [constructor|].
    apply Forall_app. split; [|exact IH].
    destruct files as [l|d]; apply Forall_map, Forall_forall.
    + intros f _. reflexivity.
    + intros [f v] _. reflexivity.
  - induction (walk fp maxdepth topdown kwargs) as [|[base files] rest IH];
      cbn [flat_map map list_sum snd]; [reflexivity|].
    rewrite length_app, IH.
    destruct files as [l|d]; cbn [file_count]; rewrite length_map; reflexivity.
  - intros f. unfold PosixPath.join. now destruct (PosixPath.startswith_sep f).
  - intros tree ->.
    induction tree as [|[rel files] tree IH]; cbn [map flat_map]; [reflexivity|].
    rewrite IH, drop_under. reflexivity.
Qed.

Lemma crawl_yields_relative_paths_witness :
  crawl (fun _ => "bucket/x")
        (fun _ _ _ _ => [("bucket/x", Names ["a.txt"]); ("bucket/x/sub", Names ["b.txt"])])
        (set_remote_source (__init__ "" "/tmp/flyte/local/d0" None RD_None) "s3://bucket/x")
        None true []
  = [("s3://bucket/x", Relative_path "a.txt"); ("s3://bucket/x", Relative_path "sub/b.txt")].
Proof.
  pose proof (crawl_yields_relative_paths (fun _ => "bucket/x")
                (fun _ _ _ _ => [("bucket/x", Names ["a.txt"]);
                                 ("bucket/x/sub", Names ["b.txt"])])
                (set_remote_source (__init__ "" "/tmp/flyte/local/d0" None RD_None)
                                   "s3://bucket/x")
                None true []) as (_ & _ & _ & Hrelative).
  exact (Hrelative [("", Names ["a.txt"]); ("sub", Names ["b.txt"])] eq_refl).
Defined.

(** *** Formats *)

Lemma reverse_involutive (s : string) : Str.reverse (Str.reverse s) = s.
Proof.
  unfold Str.reverse.
  now rewrite list_ascii_of_string_of_list_ascii, rev_involutive,
              string_of_list_ascii_of_string.
Qed.

Lemma last_char_nonempty (d : ascii) (s : string) :
  exists l, last_char (String d s) = Some l.
Proof.
  revert d. induction s as [|e s IH]; intros d; [now exists d|].
  destruct (IH e) as [l Hl]. exists l. exact Hl.
Qed.

Lemma last_char_cons (c : ascii) (s : string) :
  last_char (String c s) = match last_char s with Some l => Some l | None => Some c end.
Proof.
  destruct s as [|d s]; [reflexivity|].
  change (last_char (String c (String d s))) with (last_char (String d s)).
  destruct (last_char_nonempty d s) as [l Hl]. now rewrite Hl.
Qed.

Lemma last_char_list (s : string) :
  forall l, last_char s = Some l ->
            exists front, list_ascii_of_string s = (front ++ [l])%list.
Proof.
  induction s as [|c s IH]; intros l H; [discriminate H|].
  rewrite last_char_cons in H. destruct (last_char s) as [l'|] eqn:Hlast.
  - injection H as <-. destruct (IH l' eq_refl) as [front Hfront].
    exists (c :: front). cbn. now rewrite Hfront.
  - injection H as <-. destruct s as [|d s].
    + now exists [].
    + destruct (last_char_nonempty d s) as [l' Hl']. congruence.
Qed.

Lemma lstrip_first (c : ascii) (s : string) :
  Str.is_space c = false -> Str.lstrip (String c s) = String c s.
Proof. intros H. cbn [Str.lstrip]. now rewrite H. Qed.

(** [strip] leaves alone what neither begins nor ends with white space. *)
Lemma strip_id (s : string) :
  match s with String c _ => Str.is_space c = false | EmptyString => True end ->
  match last_char s with Some l => Str.is_space l = false | None => True end ->
  Str.strip s = s.
Proof.
  intros Hfirst Hlast. unfold Str.strip.
  destruct s as [|c s]; [reflexivity|].
  rewrite (lstrip_first c s Hfirst).
  destruct (last_char (String c s)) as [l|] eqn:Hl.
  - destruct (last_char_list _ l Hl) as [front Hfront].
    assert (Hrev : Str.reverse (String c s)
                   = String l (string_of_list_ascii (rev front))).
    { unfold Str.reverse. rewrite Hfront, rev_app_distr. reflexivity. }
    rewrite Hrev, (lstrip_first l _ Hlast), <- Hrev.
    apply reverse_involutive.
  - destruct (last_char_nonempty c s) as [l Hl']. congruence.
Qed.

Lemma lstrip_char_first (c d : ascii) (s : string) :
  Ascii.eqb c d = false -> Str.lstrip_char c (String d s) = String d s.
Proof. intros H. cbn [Str.lstrip_char]. now rewrite H. Qed.

Lemma lstrip_char_not_first (c : ascii) (s : string) :
  match Str.lstrip_char c s with
  | String d _ => Ascii.eqb c d = false
  | EmptyString => True
  end.
Proof.
  induction s as [|d s IH]; cbn [Str.lstrip_char]; [exact I|].
  destruct (Ascii.eqb c d) eqn:H; [exact IH|exact H].
Qed.

Lemma class_getitem_canonical (ext : string) :
  canonical_extension ext = true -> __class_getitem__ (Some ext) = ext.
Proof.
  intros H. unfold __class_getitem__.
  destruct ext as [|c s]; [reflexivity|].
  unfold canonical_extension in H.
  apply andb_prop in H. destruct H as [H Hlast].
  apply andb_prop in H. destruct H as [H Hdot].
  apply andb_prop in H. destruct H as [Hspace Htilde].
  apply negb_true_iff in Hspace, Htilde, Hdot.
  rewrite strip_id.
  - rewrite (lstrip_char_first _ _ _ Htilde), (lstrip_char_first _ _ _ Hdot).
    reflexivity.
  - exact Hspace.
  - destruct (last_char (String c s)); [now apply negb_true_iff|exact I].
Qed.

(** X16: the class guessed from the literal type of a directory class is a
    directory class again: [guess_python_type] of [get_literal_type] never
    raises, and for a class whose format is written bare (no white space at
    either end, no leading [~] or [.]) it gives the format back.  On a
    literal type it raises [ValueError] exactly when there is no blob or the
    blob is not multipart. *)
Theorem guess_inverts_get_literal_type :
  forall (t : python_type),
    guess_python_type (get_literal_type t)
    = Ok (__class_getitem__ (Some (extension t)))
    /\ (canonical_extension (extension t) = true ->
        guess_python_type (get_literal_type t) = Ok (extension t))
    /\ forall lt : LiteralType,
        guess_python_type lt = Raise (ValueError Cannot_reverse)
        <-> (forall b, literal_type_blob lt = Some b -> dimensionality b = SINGLE).
Proof.
  intros t. split; [reflexivity|]. split.
  - intros H. unfold guess_python_type, get_literal_type, _blob_type, get_format.
    cbn [literal_type_blob dimensionality dimensionality_eqb blob_format].
    now rewrite (class_getitem_canonical _ H).
  - intros lt. unfold guess_python_type.
    destruct (literal_type_blob lt) as [b|].
    + destruct (dimensionality b) eqn:Hdim; cbn [dimensionality_eqb]; split.
      * intros _ b' Hb'. injection Hb' as <-. exact Hdim.
      * reflexivity.
      * discriminate.
      * intros H. specialize (H b eq_refl). congruence.
    + split; [intros _ b Hb; discriminate Hb|reflexivity].
Qed.

Lemma guess_inverts_get_literal_type_witness :
  guess_python_type (get_literal_type {| extension := "csv"; annotated_batch_size := None |})
  = Ok "csv".
Proof.
  exact (proj1 (proj2 (guess_inverts_get_literal_type
                         {| extension := "csv"; annotated_batch_size := None |}))
               eq_refl).
Defined.

(** X17: subscripting [FlyteDirectory] normalises the format.  The format of
    the class it returns never begins with a dot; [None], the empty string
    and a lone dot give the plain class; and for a format written bare, the
    format itself, the format after a dot, after a tilde and after a tilde
    and a dot all give the class of that format. *)
Theorem class_subscript_is_normalised :
  (forall item,
      match __class_getitem__ item with
      | String d _ => d <> "."%char
      | EmptyString => True
      end)
  /\ __class_getitem__ None = ""
  /\ forall ext,
      canonical_extension ext = true ->
      __class_getitem__ (Some ext) = ext
      /\ __class_getitem__ (Some ("." ++ ext)) = ext
      /\ __class_getitem__ (Some ("~" ++ ext)) = ext
      /\ __class_getitem__ (Some ("~." ++ ext)) = ext.
Proof.
  split; [|split; [reflexivity|]].
  - intros [item|]; [|exact I]. unfold __class_getitem__.
    pose proof (lstrip_char_not_first "."%char
                  (Str.lstrip_char "~"%char (Str.strip item))) as Hfirst.
    destruct (Str.lstrip_char "."%char (Str.lstrip_char "~"%char (Str.strip item)))
      as [|d s]; [exact I|].
    cbn [String.eqb]. intros ->. discriminate Hfirst.
  - intros ext Hext.
    pose proof (class_getitem_canonical ext Hext) as Hbare.
    assert (Hlast : forall c,
               Str.is_space c = false ->
               match last_char (String c ext) with
               | Some l => Str.is_space l = false
               | None => True
               end).
    { intros c Hc. rewrite last_char_cons.
      destruct ext as [|e s]; [exact Hc|].
      unfold canonical_extension in Hext.
      apply andb_prop in Hext. destruct Hext as [_ Hl].
      destruct (last_char (String e s)); [now apply negb_true_iff|exact Hc]. }
    assert (Htail : Str.lstrip_char "."%char (Str.lstrip_char "~"%char ext) = ext).
    { destruct ext as [|e s]; [reflexivity|].
      unfold canonical_extension in Hext.
      apply andb_prop in Hext. destruct Hext as [H _].
      apply andb_prop in H. destruct H as [H Hdot].
      apply andb_prop in H. destruct H as [_ Htilde].
      apply negb_true_iff in Htilde, Hdot.
      now rewrite (lstrip_char_first _ _ _ Htilde), (lstrip_char_first _ _ _ Hdot). }
    assert (Hdots : Str.lstrip_char "."%char ext = ext).
    { destruct ext as [|e s]; [reflexivity|].
      unfold canonical_extension in Hext.
      apply andb_prop in Hext. destruct Hext as [H _].
      apply andb_prop in H. destruct H as [_ Hdot].
      apply negb_true_iff in Hdot. now apply lstrip_char_first. }
    assert (Hempty : forall s, (if String.eqb s "" then "" else s) = s).
    { intros [|c s]; reflexivity. }
    split; [exact Hbare|]. unfold __class_getitem__. repeat split.
    + change ("." ++ ext) with (String "." ext).
      rewrite (strip_id (String "." ext) eq_refl (Hlast "."%char eq_refl)).
      cbn [Str.lstrip_char Ascii.eqb Bool.eqb]. now rewrite Hdots, Hempty.
    + change ("~" ++ ext) with (String "~" ext).
      rewrite (strip_id (String "~" ext) eq_refl (Hlast "~"%char eq_refl)).
      cbn [Str.lstrip_char Ascii.eqb Bool.eqb]. now rewrite Htail, Hempty.
    + change ("~." ++ ext) with (String "~" (String "." ext)).
      rewrite (strip_id (String "~" (String "." ext)) eq_refl).
      * cbn [Str.lstrip_char Ascii.eqb Bool.eqb]. now rewrite Hdots, Hempty.
      * rewrite last_char_cons. now destruct (last_char (String "." ext)) eqn:H;
          [specialize (Hlast "."%char eq_refl); rewrite H in Hlast|].
Qed.

Lemma class_subscript_is_normalised_witness :
  __class_getitem__ (Some ".csv") = "csv" /\ __class_getitem__ (Some "~.csv") = "csv".
Proof.
  destruct (proj2 (proj2 class_subscript_is_normalised) "csv" eq_refl)
    as (_ & Hdot & _ & Htilde).
  split; [exact Hdot|exact Htilde].
Defined.

(** ** The Kubeflow PyTorch plugin *)

Section PyTorchJobs.

Import KfPytorch.
Local Open Scope Z_scope.

Variable PodTemplate : Type.
Variable empty_pod_template : PodTemplate.
Variable resources_to_flyte_idl :
  option Resources -> option Resources -> option (Resources * Resources).
Variable add_shared_mem_volume_to_pod_template : PodTemplate -> PodTemplate.

Lemma truthy_spec (n : option Z) :
  truthy n = true <-> exists z, n = Some z /\ z <> 0.
Proof.
  destruct n as [z|]; cbn; split.
  - intros H. exists z. split; [reflexivity|].
    apply negb_true_iff, Z.eqb_neq in H. exact H.
  - intros (z' & Hz & Hne). injection Hz as <-.
    now apply negb_true_iff, Z.eqb_neq.
  - discriminate.
  - intros (z & Hz & _). discriminate Hz.
Qed.

(** X18: [PyTorchFunctionTask.__init__] raises [ValueError] exactly when
    [num_workers] and [worker.replicas] are both non-zero or both [None].
    For every task it accepts, the job [get_custom] builds has exactly one
    master replica, no elastic configuration, and as worker replica count
    [num_workers] when that is non-zero and [worker.replicas] otherwise; so
    whichever of the two was given non-zero is the count. *)
Theorem pytorch_job_replica_counts :
  forall (cfg : PyTorch) (shm : shared_memory_t) (pt : option PodTemplate),
    let made := PyTorchFunctionTask__init__ PodTemplate empty_pod_template
                  add_shared_mem_volume_to_pod_template cfg shm pt in
    ((exists m, made = inl (ValueError m))
     <-> (truthy (num_workers cfg) = true
          /\ truthy (Worker.replicas (worker cfg)) = true)
         \/ (num_workers cfg = None /\ Worker.replicas (worker cfg) = None))
    /\ forall task,
        made = inr task ->
        let job := get_custom resources_to_flyte_idl task in
        option_map Idl.replicas (Idl.master_replicas job) = Some (Some 1)
        /\ Idl.elastic_config job = None
        /\ option_map Idl.replicas (Idl.worker_replicas job)
           = Some (if truthy (num_workers cfg) then num_workers cfg
                   else Worker.replicas (worker cfg))
        /\ forall n,
            n <> 0 ->
            num_workers cfg = Some n \/ Worker.replicas (worker cfg) = Some n ->
            option_map Idl.replicas (Idl.worker_replicas job) = Some (Some n).
Proof.
  intros cfg shm pt made. subst made. unfold PyTorchFunctionTask__init__.
  destruct (truthy (num_workers cfg)) eqn:Hn;
    destruct (truthy (Worker.replicas (worker cfg))) eqn:Hr;
    cbn [andb].
  - split.
    + split; [intros _; left; now split|intros _; eexists; reflexivity].
    + intros task Htask. discriminate Htask.
  - assert (Hsome : is_None (num_workers cfg) = false).
    { apply truthy_spec in Hn. destruct Hn as (z & -> & _). reflexivity. }
    rewrite Hsome. cbn [andb]. split.
    + split.
      * intros (m & Hm). discriminate Hm.
      * intros [[_ H]|[H _]]; [discriminate H|].
        rewrite H in Hsome. discriminate Hsome.
    + intros task Htask. injection Htask as <-.
      unfold get_custom. cbn [task_config]. rewrite Hn.
      cbn. repeat split.
      intros n Hne [Hnum|Hrep]; [now rewrite Hnum|].
      assert (Htrue : truthy (Worker.replicas (worker cfg)) = true)
        by (apply truthy_spec; now exists n).
      congruence.
  - assert (Hsome : is_None (Worker.replicas (worker cfg)) = false).
    { apply truthy_spec in Hr. destruct Hr as (z & -> & _). reflexivity. }
    rewrite Hsome, andb_false_r. split.
    + split.
      * intros (m & Hm). discriminate Hm.
      * intros [[H _]|[_ H]]; [discriminate H|].
        rewrite H in Hsome. discriminate Hsome.
    + intros task Htask. injection Htask as <-.
      unfold get_custom. cbn [task_config]. rewrite Hn.
      cbn. repeat split.
      intros n Hne [Hnum|Hrep]; [|now rewrite Hrep].
      assert (Htrue : truthy (num_workers cfg) = true)
        by (apply truthy_spec; now exists n).
      congruence.
  - destruct (is_None (num_workers cfg) && is_None (Worker.replicas (worker cfg)))%bool
      eqn:Hnone.
    + apply andb_prop in Hnone. destruct Hnone as [Hnum Hrep].
      split.
      * split; [intros _; right|intros _; eexists; reflexivity].
        destruct (num_workers cfg); [discriminate Hnum|].
        destruct (Worker.replicas (worker cfg)); [discriminate Hrep|]. now split.
      * intros task Htask. discriminate Htask.
    + split.
      * split.
        -- intros (m & Hm). discriminate Hm.
        -- intros [[H _]|[Hnum Hrep]]; [discriminate H|].
           rewrite Hnum, Hrep in Hnone. discriminate Hnone.
      * intros task Htask. injection Htask as <-.
        unfold get_custom. cbn [task_config]. rewrite Hn.
        cbn. repeat split.
        intros n Hne [Hnum|Hrep].
        -- assert (Htrue : truthy (num_workers cfg) = true)
             by (apply truthy_spec; now exists n).
           congruence.
        -- now rewrite Hrep.
Qed.

End PyTorchJobs.

Lemma pytorch_job_replica_counts_witness :
  let plain_master := {| KfPytorch.Master.image := None; KfPytorch.Master.requests := None;
                         KfPytorch.Master.limits := None;
                         KfPytorch.Master.restart_policy := None |} in
  let workers n := {| KfPytorch.Worker.image := None; KfPytorch.Worker.requests := None;
                      KfPytorch.Worker.limits := None; KfPytorch.Worker.replicas := n;
                      KfPytorch.Worker.restart_policy := None |} in
  let cfg := {| KfPytorch.master := plain_master; KfPytorch.worker := workers (Some 4%Z);
                KfPytorch.run_policy := None; KfPytorch.num_workers := None;
                KfPytorch.increase_shared_mem := false |} in
  exists task,
    KfPytorch.PyTorchFunctionTask__init__ unit tt (fun t => t) cfg KfPytorch.Shm_None None
    = inr task
    /\ option_map KfPytorch.Idl.replicas
         (KfPytorch.Idl.worker_replicas (KfPytorch.get_custom (fun _ _ => None) task))
       = Some (Some 4%Z).
Proof.
  intros plain_master workers cfg.
  eexists. split; [reflexivity|].
  assert (Hne : 4%Z <> 0%Z) by discriminate.
  exact (proj2 (proj2 (proj2 (proj2 (pytorch_job_replica_counts unit tt (fun _ _ => None)
                                       (fun t => t) cfg KfPytorch.Shm_None None)
                                    _ eq_refl)))
               4%Z Hne (or_intror eq_refl)).
Defined.

Section ElasticTasks.

Import KfPytorch.
Local Open Scope Z_scope.

Variable PodTemplate : Type.
Variable empty_pod_template : PodTemplate.
Variable add_shared_mem_volume_to_pod_template : PodTemplate -> PodTemplate.
Variable parse_min_max_nnodes : string -> raised + (Z * Z).

Lemma nnodes_is_1_spec (n : nnodes_t) : nnodes_is_1 n = true <-> n = Nodes_int 1.
Proof.
  destruct n as [z|s]; cbn; split; try discriminate.
  - intros H. apply Z.eqb_eq in H. now subst z.
  - intros H. injection H as ->. reflexivity.
Qed.

(** X19: the task type an elastic task is created with and the custom it
    serialises agree.  The task is a plain [python-task] exactly when
    [nnodes] is the integer 1, and exactly then [get_custom] defers to the
    plain task.  For any other [nnodes], the string ["1"] included, the task
    type is [pytorch] and [get_custom] builds a job without master group
    whose worker replica count is the parsed maximum of [str(nnodes)] and
    whose elastic configuration carries the parsed minimum and maximum and
    the [c10d] backend.  Without torch the constructor raises [ImportError]. *)
Theorem elastic_task_type_matches_custom :
  forall (torch_installed : bool) (cfg : Elastic) (shm : shared_memory_t)
         (pt : option PodTemplate),
    let made := PytorchElasticFunctionTask__init__ PodTemplate empty_pod_template
                  add_shared_mem_volume_to_pod_template parse_min_max_nnodes
                  torch_installed cfg shm pt in
    (torch_installed = false -> made = inl (ImportError TORCH_IMPORT_ERROR_MESSAGE))
    /\ forall task,
        made = inr task ->
        parse_min_max_nnodes (str_nnodes (nnodes cfg))
        = inr (min_nodes task, max_nodes task)
        /\ (elastic_task_type task = "python-task" <-> nnodes cfg = Nodes_int 1)
        /\ (elastic_task_type task = "python-task"
            <-> elastic_get_custom task = None)
        /\ (nnodes cfg <> Nodes_int 1 ->
            elastic_task_type task = "pytorch"
            /\ exists job,
                elastic_get_custom task = Some job
                /\ Idl.master_replicas job = None
                /\ option_map Idl.replicas (Idl.worker_replicas job)
                   = Some (Some (max_nodes task))
                /\ option_map Idl.min_replicas (Idl.elastic_config job)
                   = Some (min_nodes task)
                /\ option_map Idl.max_replicas (Idl.elastic_config job)
                   = Some (max_nodes task)
                /\ option_map Idl.rdzv_backend (Idl.elastic_config job) = Some "c10d"%string).
Proof.
  intros torch_installed cfg shm pt made. subst made.
  unfold PytorchElasticFunctionTask__init__. split.
  - intros ->. reflexivity.
  - intros task Htask.
    destruct torch_installed; cbn [negb] in Htask; [|discriminate Htask].
    destruct (parse_min_max_nnodes (str_nnodes (nnodes cfg))) as [e|[lo hi]] eqn:Hparse;
      [discriminate Htask|].
    injection Htask as <-.
    unfold elastic_get_custom.
    cbn [min_nodes max_nodes elastic_task_type elastic_task_config rdzv_backend].
    pose proof (nnodes_is_1_spec (nnodes cfg)) as Hone.
    destruct (nnodes_is_1 (nnodes cfg)).
    + split; [reflexivity|]. split; [split; [intros _; now apply Hone|reflexivity]|].
      split; [split; reflexivity|].
      intros Hne. exfalso. apply Hne. now apply Hone.
    + split; [reflexivity|]. split.
      * split; [discriminate|]. intros H. apply Hone in H. discriminate H.
      * split; [split; discriminate|].
        intros _. split; [reflexivity|]. eexists. split; [reflexivity|].
        cbn. repeat split.
Qed.

End ElasticTasks.

Lemma elastic_task_type_matches_custom_witness :
  let cfg := {| KfPytorch.nnodes := KfPytorch.Nodes_str "1";
                KfPytorch.nproc_per_node := 2%Z; KfPytorch.start_method := "spawn";
                KfPytorch.monitor_interval := 5%Z; KfPytorch.max_restarts := 0%Z;
                KfPytorch.rdzv_configs := [("timeout", 900%Z); ("join_timeout", 900%Z)];
                KfPytorch.elastic_increase_shared_mem := true;
                KfPytorch.elastic_run_policy := None |} in
  exists task,
    KfPytorch.PytorchElasticFunctionTask__init__ unit tt (fun t => t)
      (fun _ => inr (1%Z, 1%Z)) true cfg KfPytorch.Shm_None None = inr task
    /\ KfPytorch.elastic_task_type task = "pytorch".
Proof.
  intros cfg. eexists. split; [reflexivity|].
  assert (Hne : KfPytorch.nnodes cfg <> KfPytorch.Nodes_int 1%Z) by discriminate.
  exact (proj1 (proj2 (proj2 (proj2 (proj2 (elastic_task_type_matches_custom unit tt
                                              (fun t => t) (fun _ => inr (1%Z, 1%Z)) true cfg
                                              KfPytorch.Shm_None None)
                                           _ eq_refl))) Hne)).
Defined.

Section ElasticExecution.

Import KfPytorch.
Local Open Scope Z_scope.

Variable Value Deck OutputMetadata Kwargs : Type.
Variable is_timeline_deck : Deck -> bool.
Variable PodTemplate : Type.
Variable cloudpickle_dumps_task_function : list Byte.byte.
Variable is_recoverable_worker_error : ProcessFailure -> bool.
Variable elastic_launch :
  LaunchConfig -> entrypoint Kwargs -> (string -> option string) ->
  launch_outcome Value Deck OutputMetadata.

Let execute (torch_installed : bool) :=
  @_execute Value Deck OutputMetadata Kwargs is_timeline_deck PodTemplate torch_installed
            cloudpickle_dumps_task_function is_recoverable_worker_error elastic_launch.

Lemma collect_environ (out : list (Z * ElasticWorkerResult Value Deck OutputMetadata))
    (p : Process Value Deck OutputMetadata Kwargs) :
  environ (snd (collect is_timeline_deck out p)) = environ p
  /\ launched (snd (collect is_timeline_deck out p)) = launched p.
Proof. unfold collect. destruct (rank_zero out); split; reflexivity. Qed.

(** X20: [_execute] changes the environment in one way only: when torch is
    installed, [OMP_NUM_THREADS] is not set and [nproc_per_node] is greater
    than 1, it sets [OMP_NUM_THREADS] to ["1"].  A value that is already set
    is never overwritten, every other variable is left alone, and this holds
    however the execution ends, a bad start method included. *)
Theorem execute_sets_omp_num_threads_if_absent :
  forall (torch_installed : bool) (self : PytorchElasticFunctionTask PodTemplate)
         (ctx : ExecutionParameters) (kwargs : Kwargs)
         (p : Process Value Deck OutputMetadata Kwargs),
    let p' := snd (execute torch_installed self ctx kwargs p) in
    (forall k, k <> "OMP_NUM_THREADS"%string ->
               environ p' k = environ p k)
    /\ (forall v, environ p "OMP_NUM_THREADS" = Some v ->
                  environ p' "OMP_NUM_THREADS" = Some v)
    /\ (environ p "OMP_NUM_THREADS" = None ->
        environ p' "OMP_NUM_THREADS"
        = if (torch_installed
              && (nproc_per_node (elastic_task_config self) >? 1))%bool
          then Some "1"%string else None).
Proof.
  intros torch_installed self ctx kwargs p p'. subst p' execute.
  unfold _execute.
  destruct torch_installed; cbn [negb andb];
    [|split; [reflexivity|split; [intros v Hv; exact Hv|intros Hnone; exact Hnone]]].
  set (p1 := if (negb (negb (is_None (environ p "PET_NNODES")))
                 && (min_nodes self >? 1))%bool
             then add_log Warning_rendezvous_might_timeout p else p).
  assert (Hp1 : forall k, environ p1 k = environ p k)
    by (intros k; subst p1; now destruct (_ && _)%bool).
  set (p2 := if (is_None (environ p1 "OMP_NUM_THREADS")
                 && (nproc_per_node (elastic_task_config self) >? 1))%bool
             then set_environ
                    (setenv (environ p1) "OMP_NUM_THREADS" "1")
                    (add_log Warning_setting_OMP_NUM_THREADS p1)
             else p1).
  assert (Hfinal : forall r : (raised + Value) * Process Value Deck OutputMetadata Kwargs,
                             environ (snd r) = environ p2 ->
                             (forall k, k <> "OMP_NUM_THREADS"%string ->
                                        environ (snd r) k = environ p k)
                             /\ (forall v, environ p "OMP_NUM_THREADS" = Some v ->
                                           environ (snd r) "OMP_NUM_THREADS" = Some v)
                             /\ (environ p "OMP_NUM_THREADS" = None ->
                                 environ (snd r) "OMP_NUM_THREADS"
                                 = if nproc_per_node (elastic_task_config self) >? 1
                                   then Some "1"%string else None)).
  { intros r ->. subst p2. rewrite (Hp1 "OMP_NUM_THREADS"%string).
    destruct (environ p "OMP_NUM_THREADS") as [v|] eqn:Homp; cbn [is_None andb].
    - split; [intros k _; apply Hp1|]. split; [intros v' Hv'; now rewrite Hp1, Homp|discriminate].
    - destruct (nproc_per_node (elastic_task_config self) >? 1);
        cbn [environ set_environ];
        [|split; [intros k _; apply Hp1|split; [discriminate|intros _; now rewrite Hp1, Homp]]].
      unfold setenv. split.
      + intros k Hk. apply String.eqb_neq in Hk. rewrite Hk. apply Hp1.
      + split; [discriminate|reflexivity]. }
  apply Hfinal.
  destruct (if String.eqb _ "spawn" then _ else _) as [launcher|]; [|reflexivity].
  destruct (elastic_launch _ _ _) as [out|failure msg str| |what].
  - now rewrite (proj1 (collect_environ _ _)).
  - now destruct (is_recoverable_worker_error failure).
  - reflexivity.
  - reflexivity.
Qed.

(** X21: with torch installed, a start method other than [spawn] and [fork]
    makes [_execute] raise [ValueError] without launching anything.
    Otherwise it launches exactly once, and the launch decides the result: a
    child failure raises [FlyteRecoverableException] with the formatted
    message when the first failure is recoverable and
    [FlyteUserRuntimeException] otherwise, both with the timestamp of the
    first failure; a signal raises [IgnoreOutputs]; results without rank 0
    raise [IgnoreOutputs]; results with rank 0 return its value. *)
Theorem execute_outcome_follows_launch :
  forall (self : PytorchElasticFunctionTask PodTemplate)
         (ctx : ExecutionParameters) (kwargs : Kwargs)
         (p : Process Value Deck OutputMetadata Kwargs),
    let method := start_method (elastic_task_config self) in
    let run := execute true self ctx kwargs p in
    (method <> "spawn"%string -> method <> "fork"%string ->
     fst run = inl (ValueError "Bad start method")
     /\ launched (snd run) = launched p)
    /\ (method = "spawn"%string \/ method = "fork"%string ->
        exists config target,
          launched (snd run) = (launched p ++ [(config, target)])%list
          /\ config_min_nodes config = min_nodes self
          /\ config_max_nodes config = max_nodes self
          /\ (target = fn_partial kwargs <-> method = "fork"%string)
          /\ fst run
             = match elastic_launch config target (environ (snd run)) with
               | ChildFailedError failure msg str =>
                   inl (if is_recoverable_worker_error failure
                        then FlyteRecoverableException msg (timestamp failure)
                        else FlyteUserRuntimeException str (timestamp failure))
               | SignalException => inl IgnoreOutputs
               | Another_exception what => inl (Propagated what)
               | Returned out =>
                   match rank_zero out with
                   | Some r => inr (return_value r)
                   | None => inl IgnoreOutputs
                   end
               end).
Proof.
  intros self ctx kwargs p method run. subst run execute.
  unfold _execute. cbn [negb]. fold method.
  set (p1 := if (negb (negb (is_None (environ p "PET_NNODES")))
                 && (min_nodes self >? 1))%bool
             then add_log Warning_rendezvous_might_timeout p else p).
  assert (Hp1 : launched p1 = launched p)
    by (subst p1; now destruct (_ && _)%bool).
  set (p2 := if (is_None (environ p1 "OMP_NUM_THREADS")
                 && (nproc_per_node (elastic_task_config self) >? 1))%bool
             then set_environ
                    (setenv (environ p1) "OMP_NUM_THREADS" "1")
                    (add_log Warning_setting_OMP_NUM_THREADS p1)
             else p1).
  assert (Hp2 : launched p2 = launched p)
    by (subst p2; destruct (is_None _ && _)%bool; exact Hp1).
  set (config := {| run_id := execution_id_name ctx; config_min_nodes := _ |}).
  assert (Hrun : forall launcher,
             let run := match elastic_launch config launcher
                                (environ (add_launch config launcher p2)) with
                        | Returned out =>
                            collect is_timeline_deck out
                                    (add_launch config launcher p2)
                        | ChildFailedError failure msg str =>
                            if is_recoverable_worker_error failure
                            then (inl (FlyteRecoverableException msg (timestamp failure)),
                                  add_launch config launcher p2)
                            else (inl (FlyteUserRuntimeException str (timestamp failure)),
                                  add_launch config launcher p2)
                        | SignalException =>
                            (inl IgnoreOutputs,
                             add_log Exception_agent_terminating
                                     (add_launch config launcher p2))
                        | Another_exception what =>
                            (inl (Propagated what), add_launch config launcher p2)
                        end in
             launched (snd run) = (launched p ++ [(config, launcher)])%list
             /\ fst run
                = match elastic_launch config launcher (environ (snd run)) with
                  | ChildFailedError failure msg str =>
                      inl (if is_recoverable_worker_error failure
                           then FlyteRecoverableException msg (timestamp failure)
                           else FlyteUserRuntimeException str (timestamp failure))
                  | SignalException => inl IgnoreOutputs
                  | Another_exception what => inl (Propagated what)
                  | Returned out =>
                      match rank_zero out with
                      | Some r => inr (return_value r)
                      | None => inl IgnoreOutputs
                      end
                  end).
  { intros launcher run.
    assert (Henv : environ (snd run)
                   = environ (add_launch config launcher p2)
                   /\ launched (snd run)
                      = launched (add_launch config launcher p2)).
    { subst run.
      destruct (elastic_launch _ _ _) as [out|failure msg str| |what].
      - apply collect_environ.
      - now destruct (is_recoverable_worker_error failure).
      - now split.
      - now split. }
    destruct Henv as [Henv Hlaunched]. rewrite Henv, Hlaunched.
    split; [cbn [launched add_launch]; now rewrite Hp2|].
    subst run.
    destruct (elastic_launch _ _ _) as [out|failure msg str| |what]; try reflexivity.
    - unfold collect. now destruct (rank_zero out).
    - now destruct (is_recoverable_worker_error failure). }
  split.
  - intros Hspawn Hfork.
    apply String.eqb_neq in Hspawn, Hfork. rewrite Hspawn, Hfork.
    split; [reflexivity|exact Hp2].
  - intros Hmethod.
    destruct (String.eqb method "spawn") eqn:Hspawn.
    + assert (Hspawned : forall dest src,
                 let target := spawn_helper cloudpickle_dumps_task_function
                                            (raw_output_prefix ctx) dest src kwargs in
                 target = fn_partial kwargs <-> method = "fork"%string).
      { intros dest src target. split; [discriminate|].
        intros Hfork. apply String.eqb_eq in Hspawn. congruence. }
      destruct (checkpoint ctx) as [[dest src]|].
      * destruct (Hrun (spawn_helper cloudpickle_dumps_task_function
                                     (raw_output_prefix ctx) dest src kwargs))
          as [Hlaunched Hresult].
        eexists; eexists. split; [exact Hlaunched|].
        split; [reflexivity|]. split; [reflexivity|].
        split; [apply Hspawned|exact Hresult].
      * destruct (Hrun (spawn_helper cloudpickle_dumps_task_function
                                     (raw_output_prefix ctx) None None kwargs))
          as [Hlaunched Hresult].
        eexists; eexists. split; [exact Hlaunched|].
        split; [reflexivity|]. split; [reflexivity|].
        split; [apply Hspawned|exact Hresult].
    + destruct Hmethod as [Hm|Hm]; [apply String.eqb_eq in Hm; congruence|].
      pose proof Hm as Hfork. apply String.eqb_eq in Hfork. rewrite Hfork.
      eexists; eexists.
      destruct (Hrun (fn_partial kwargs)) as [Hlaunched Hresult].
      split; [exact Hlaunched|]. split; [reflexivity|]. split; [reflexivity|].
      split; [|exact Hresult]. split; [intros _; exact Hm|reflexivity].
Qed.

(** The end of [_execute]: with a result of rank 0 its value is returned,
    its decks other than the timeline decks are appended to the decks of the
    current context and its output metadata is recorded when there is some;
    without one, [IgnoreOutputs] and nothing changed. *)
Lemma collect_rank_zero :
  forall (out : list (Z * ElasticWorkerResult Value Deck OutputMetadata))
         (p : Process Value Deck OutputMetadata Kwargs),
    let run := collect is_timeline_deck out p in
    ((forall r, ~ In (0, r) out) -> run = (inl IgnoreOutputs, p))
    /\ forall r,
        In (0, r) out ->
        exists r0,
          rank_zero out = Some r0
          /\ In (0, r0) out
          /\ fst run = inr (return_value r0)
          /\ current_decks (snd run)
             = (current_decks p
                ++ filter (fun d => negb (is_timeline_deck d)) (decks r0))%list
          /\ tracked (snd run)
             = match om r0 with
               | Some m => (tracked p ++ [(return_value r0, m)])%list
               | None => tracked p
               end
          /\ forall d,
              In d (current_decks (snd run)) ->
              In d (current_decks p)
              \/ (In d (decks r0) /\ is_timeline_deck d = false).
Proof.
  intros out p run. subst run. unfold collect.
  assert (Hzero : match rank_zero out with
                  | Some r0 => In (0, r0) out
                  | None => forall r, ~ In (0, r) out
                  end).
  { induction out as [|[rank r] out IH]; cbn [rank_zero]; [intros r []|].
    destruct (rank =? 0) eqn:Hrank.
    - apply Z.eqb_eq in Hrank. subst rank. now left.
    - destruct (rank_zero out) as [r0|].
      + now right.
      + intros r' [H|H]; [injection H as -> _; discriminate Hrank|exact (IH r' H)]. }
  destruct (rank_zero out) as [r0|]; split.
  - intros Hnone. exfalso. exact (Hnone r0 Hzero).
  - intros r _. exists r0. split; [reflexivity|]. split; [exact Hzero|].
    cbn [fst snd current_decks tracked]. split; [reflexivity|]. split; [reflexivity|].
    split; [reflexivity|].
    intros d Hd. apply in_app_or in Hd. destruct Hd as [Hd|Hd]; [now left|right].
    apply filter_In in Hd. destruct Hd as [Hin Hkeep].
    split; [exact Hin|now apply negb_true_iff].
  - reflexivity.
  - intros r Hr. exfalso. exact (Hzero r Hr).
Qed.

(** X22: the results of the workers are used through rank 0 only.  When
    the launch [_execute] makes returns results with one of rank 0,
    [_execute] returns its value, appends its decks to the decks of the
    current context in order, leaving out the timeline decks, and records
    its output metadata when it has some; nothing of another rank is used.
    When the results have none of rank 0 it raises [IgnoreOutputs] and
    leaves the decks and the recorded metadata as they were. *)
Theorem rank_zero_result_is_collected :
  forall (self : PytorchElasticFunctionTask PodTemplate)
         (ctx : ExecutionParameters) (kwargs : Kwargs)
         (p : Process Value Deck OutputMetadata Kwargs),
    let method := start_method (elastic_task_config self) in
    let run := execute true self ctx kwargs p in
    method = "spawn"%string \/ method = "fork"%string ->
    exists config target,
      launched (snd run) = (launched p ++ [(config, target)])%list
      /\ forall out,
          elastic_launch config target (environ (snd run)) = Returned out ->
          ((forall r, ~ In (0, r) out) ->
           fst run = inl IgnoreOutputs
           /\ current_decks (snd run) = current_decks p
           /\ tracked (snd run) = tracked p)
          /\ forall r,
              In (0, r) out ->
              exists r0,
                rank_zero out = Some r0
                /\ In (0, r0) out
                /\ fst run = inr (return_value r0)
                /\ current_decks (snd run)
                   = (current_decks p
                      ++ filter (fun d => negb (is_timeline_deck d)) (decks r0))%list
                /\ tracked (snd run)
                   = match om r0 with
                     | Some m => (tracked p ++ [(return_value r0, m)])%list
                     | None => tracked p
                     end
                /\ forall d,
                    In d (current_decks (snd run)) ->
                    In d (current_decks p)
                    \/ (In d (decks r0) /\ is_timeline_deck d = false).
Proof.
  intros self ctx kwargs p method run Hmethod. subst run execute.
  unfold _execute. cbn [negb]. fold method.
  set (p1 := if (negb (negb (is_None (environ p "PET_NNODES")))
                 && (min_nodes self >? 1))%bool
             then add_log Warning_rendezvous_might_timeout p else p).
  assert (Hp1 : launched p1 = launched p /\ current_decks p1 = current_decks p
                /\ tracked p1 = tracked p)
    by (subst p1; now destruct (_ && _)%bool).
  set (p2 := if (is_None (environ p1 "OMP_NUM_THREADS")
                 && (nproc_per_node (elastic_task_config self) >? 1))%bool
             then set_environ
                    (setenv (environ p1) "OMP_NUM_THREADS" "1")
                    (add_log Warning_setting_OMP_NUM_THREADS p1)
             else p1).
  assert (Hp2 : launched p2 = launched p /\ current_decks p2 = current_decks p
                /\ tracked p2 = tracked p)
    by (subst p2; destruct (is_None _ && _)%bool; exact Hp1).
  destruct Hp2 as (Hlaunched2 & Hdecks2 & Htracked2).
  set (config := {| run_id := execution_id_name ctx; config_min_nodes := _ |}).
  assert (Hrun : forall launcher,
             let run := match elastic_launch config launcher
                                (environ (add_launch config launcher p2)) with
                        | Returned out =>
                            collect is_timeline_deck out
                                    (add_launch config launcher p2)
                        | ChildFailedError failure msg str =>
                            if is_recoverable_worker_error failure
                            then (inl (FlyteRecoverableException msg (timestamp failure)),
                                  add_launch config launcher p2)
                            else (inl (FlyteUserRuntimeException str (timestamp failure)),
                                  add_launch config launcher p2)
                        | SignalException =>
                            (inl IgnoreOutputs,
                             add_log Exception_agent_terminating
                                     (add_launch config launcher p2))
                        | Another_exception what =>
                            (inl (Propagated what), add_launch config launcher p2)
                        end in
             launched (snd run) = (launched p ++ [(config, launcher)])%list
             /\ environ (snd run) = environ (add_launch config launcher p2)
             /\ forall out,
                 elastic_launch config launcher (environ (add_launch config launcher p2))
                 = Returned out ->
                 run = collect is_timeline_deck out (add_launch config launcher p2)).
  { intros launcher run. subst run.
    destruct (elastic_launch _ _ _) as [out|failure msg str| |what].
    - destruct (collect_environ out (add_launch config launcher p2)) as [Henv Hl].
      rewrite Henv, Hl. cbn [launched add_launch]. rewrite Hlaunched2.
      split; [reflexivity|]. split; [reflexivity|]. now intros out' [= <-].
    - destruct (is_recoverable_worker_error failure); cbn [snd launched add_launch];
        rewrite Hlaunched2; (split; [reflexivity|]); (split; [reflexivity|discriminate]).
    - cbn [snd launched add_launch add_log]. rewrite Hlaunched2.
      split; [reflexivity|]. split; [reflexivity|discriminate].
    - cbn [snd launched add_launch]. rewrite Hlaunched2.
      split; [reflexivity|]. split; [reflexivity|discriminate]. }
  assert (Hcollect : forall launcher,
             let run := match elastic_launch config launcher
                                (environ (add_launch config launcher p2)) with
                        | Returned out =>
                            collect is_timeline_deck out
                                    (add_launch config launcher p2)
                        | ChildFailedError failure msg str =>
                            if is_recoverable_worker_error failure
                            then (inl (FlyteRecoverableException msg (timestamp failure)),
                                  add_launch config launcher p2)
                            else (inl (FlyteUserRuntimeException str (timestamp failure)),
                                  add_launch config launcher p2)
                        | SignalException =>
                            (inl IgnoreOutputs,
                             add_log Exception_agent_terminating
                                     (add_launch config launcher p2))
                        | Another_exception what =>
                            (inl (Propagated what), add_launch config launcher p2)
                        end in
             launched (snd run) = (launched p ++ [(config, launcher)])%list
             /\ forall out,
                 elastic_launch config launcher (environ (snd run)) = Returned out ->
                 ((forall r, ~ In (0, r) out) ->
                  fst run = inl IgnoreOutputs
                  /\ current_decks (snd run) = current_decks p
                  /\ tracked (snd run) = tracked p)
                 /\ forall r,
                     In (0, r) out ->
                     exists r0,
                       rank_zero out = Some r0
                       /\ In (0, r0) out
                       /\ fst run = inr (return_value r0)
                       /\ current_decks (snd run)
                          = (current_decks p
                             ++ filter (fun d => negb (is_timeline_deck d)) (decks r0))%list
                       /\ tracked (snd run)
                          = match om r0 with
                            | Some m => (tracked p ++ [(return_value r0, m)])%list
                            | None => tracked p
                            end
                       /\ forall d,
                           In d (current_decks (snd run)) ->
                           In d (current_decks p)
                           \/ (In d (decks r0) /\ is_timeline_deck d = false)).
  { intros launcher run.
    destruct (Hrun launcher) as (Hl & Henv & Hout). fold run in Hl, Henv, Hout.
    split; [exact Hl|]. intros out Hlaunch. rewrite Henv in Hlaunch.
    rewrite (Hout out Hlaunch).
    pose proof (collect_rank_zero out (add_launch config launcher p2)) as [Hnone Hsome].
    cbn zeta in Hnone, Hsome.
    cbn [current_decks tracked add_launch] in Hsome.
    rewrite Hdecks2, Htracked2 in Hsome.
    split; [|exact Hsome].
    intros Hno. rewrite (Hnone Hno). cbn [fst snd current_decks tracked add_launch].
    now split. }
  destruct (String.eqb method "spawn") eqn:Hspawn.
  - destruct (checkpoint ctx) as [[dest src]|].
    + eexists; eexists. apply Hcollect.
    + eexists; eexists. apply Hcollect.
  - destruct Hmethod as [Hm|Hm]; [apply String.eqb_eq in Hm; congruence|].
    apply String.eqb_eq in Hm. rewrite Hm.
    eexists; eexists. apply Hcollect.
Qed.

End ElasticExecution.

Lemma execute_sets_omp_num_threads_if_absent_witness :
  let task := {| KfPytorch.elastic_task_config :=
                   {| KfPytorch.nnodes := KfPytorch.Nodes_int 2;
                      KfPytorch.nproc_per_node := 2%Z; KfPytorch.start_method := "threads";
                      KfPytorch.monitor_interval := 5%Z; KfPytorch.max_restarts := 0%Z;
                      KfPytorch.rdzv_configs := [];
                      KfPytorch.elastic_increase_shared_mem := true;
                      KfPytorch.elastic_run_policy := None |};
                 KfPytorch.elastic_task_type := "pytorch";
                 KfPytorch.elastic_task_type_version := 1%Z;
                 KfPytorch.min_nodes := 2%Z; KfPytorch.max_nodes := 2%Z;
                 KfPytorch.rdzv_backend := "c10d";
                 KfPytorch.elastic_shared_memory := KfPytorch.Shm_None;
                 KfPytorch.elastic_pod_template := @None unit |} in
  let ctx := {| KfPytorch.execution_id_name := "exec"; KfPytorch.raw_output_prefix := "s3://raw";
                KfPytorch.checkpoint := None |} in
  let p := {| KfPytorch.environ := fun _ => None; KfPytorch.current_decks := @nil string;
              KfPytorch.tracked := @nil (nat * unit); KfPytorch.log := [];
              KfPytorch.launched := @nil (KfPytorch.LaunchConfig * KfPytorch.entrypoint unit) |} in
  KfPytorch.environ
    (snd (KfPytorch._execute (fun _ => false) true [] (fun _ => false)
            (fun _ _ _ => KfPytorch.Returned []) task ctx tt p))
    "OMP_NUM_THREADS"
  = Some "1".
Proof.
  intros task ctx p.
  exact (proj2 (proj2 (execute_sets_omp_num_threads_if_absent nat string unit unit
                         (fun _ => false) unit [] (fun _ => false)
                         (fun _ _ _ => KfPytorch.Returned []) true task ctx tt p))
               eq_refl).
Defined.

Lemma execute_outcome_follows_launch_witness :
  let task := {| KfPytorch.elastic_task_config :=
                   {| KfPytorch.nnodes := KfPytorch.Nodes_int 2;
                      KfPytorch.nproc_per_node := 2%Z; KfPytorch.start_method := "threads";
                      KfPytorch.monitor_interval := 5%Z; KfPytorch.max_restarts := 0%Z;
                      KfPytorch.rdzv_configs := [];
                      KfPytorch.elastic_increase_shared_mem := true;
                      KfPytorch.elastic_run_policy := None |};
                 KfPytorch.elastic_task_type := "pytorch";
                 KfPytorch.elastic_task_type_version := 1%Z;
                 KfPytorch.min_nodes := 2%Z; KfPytorch.max_nodes := 2%Z;
                 KfPytorch.rdzv_backend := "c10d";
                 KfPytorch.elastic_shared_memory := KfPytorch.Shm_None;
                 KfPytorch.elastic_pod_template := @None unit |} in
  let ctx := {| KfPytorch.execution_id_name := "exec"; KfPytorch.raw_output_prefix := "s3://raw";
                KfPytorch.checkpoint := None |} in
  let p := {| KfPytorch.environ := fun _ => None; KfPytorch.current_decks := @nil string;
              KfPytorch.tracked := @nil (nat * unit); KfPytorch.log := [];
              KfPytorch.launched := @nil (KfPytorch.LaunchConfig * KfPytorch.entrypoint unit) |} in
  fst (KfPytorch._execute (fun _ => false) true [] (fun _ => false)
         (fun _ _ _ => KfPytorch.Returned []) task ctx tt p)
  = inl (KfPytorch.ValueError "Bad start method").
Proof.
  intros task ctx p.
  assert (Hspawn : KfPytorch.start_method (KfPytorch.elastic_task_config task) <> "spawn")
    by discriminate.
  assert (Hfork : KfPytorch.start_method (KfPytorch.elastic_task_config task) <> "fork")
    by discriminate.
  exact (proj1 (proj1 (execute_outcome_follows_launch nat string unit unit
                         (fun _ => false) unit [] (fun _ => false)
                         (fun _ _ _ => KfPytorch.Returned []) task ctx tt p)
                      Hspawn Hfork)).
Defined.

Lemma rank_zero_result_is_collected_witness :
  let result v ds := {| KfPytorch.return_value := v; KfPytorch.decks := ds;
                        KfPytorch.om := @None unit |} in
  let out := [(1%Z, result 11 ["other"]); (0%Z, result 7 ["Timeline"; "plot"])] in
  let task := {| KfPytorch.elastic_task_config :=
                   {| KfPytorch.nnodes := KfPytorch.Nodes_int 2;
                      KfPytorch.nproc_per_node := 1%Z; KfPytorch.start_method := "fork";
                      KfPytorch.monitor_interval := 5%Z; KfPytorch.max_restarts := 0%Z;
                      KfPytorch.rdzv_configs := [];
                      KfPytorch.elastic_increase_shared_mem := true;
                      KfPytorch.elastic_run_policy := None |};
                 KfPytorch.elastic_task_type := "pytorch";
                 KfPytorch.elastic_task_type_version := 1%Z;
                 KfPytorch.min_nodes := 2%Z; KfPytorch.max_nodes := 2%Z;
                 KfPytorch.rdzv_backend := "c10d";
                 KfPytorch.elastic_shared_memory := KfPytorch.Shm_None;
                 KfPytorch.elastic_pod_template := @None unit |} in
  let ctx := {| KfPytorch.execution_id_name := "exec"; KfPytorch.raw_output_prefix := "s3://raw";
                KfPytorch.checkpoint := None |} in
  let p := {| KfPytorch.environ := fun _ => None; KfPytorch.current_decks := ["input"];
              KfPytorch.tracked := @nil (nat * unit); KfPytorch.log := [];
              KfPytorch.launched := @nil (KfPytorch.LaunchConfig * KfPytorch.entrypoint unit) |} in
  let run := KfPytorch._execute (String.eqb "Timeline") true [] (fun _ => false)
               (fun _ _ _ => KfPytorch.Returned out) task ctx tt p in
  fst run = inr 7
  /\ KfPytorch.current_decks (snd run) = ["input"; "plot"].
Proof.
  intros result out task ctx p run.
  destruct (rank_zero_result_is_collected nat string unit unit
              (String.eqb "Timeline") unit [] (fun _ => false)
              (fun _ _ _ => KfPytorch.Returned out) task ctx tt p
              (or_intror eq_refl))
    as (config & target & _ & Hout).
  destruct (proj2 (Hout out eq_refl) (result 7 ["Timeline"; "plot"])
                  (or_intror (or_introl eq_refl)))
    as (r0 & Hzero & _ & Hvalue & Hdecks & _).
  cbn in Hzero. injection Hzero as <-.
  split; [exact Hvalue|exact Hdecks].
Defined.

(** ** The Airflow connector *)

Section AirflowConnector.

Import Airflow.

Variable _get_airflow_instance : AirflowObj -> instance.
Variable dataproc_provider_installed : bool.

Lemma in_pop (key : string) (d : list (string * string)) (k v : string) :
  In (k, v) (pop key d) <-> In (k, v) d /\ k <> key.
Proof.
  unfold pop. rewrite filter_In. cbn [fst]. split.
  - intros [Hin Hk]. split; [exact Hin|].
    now apply negb_true_iff, String.eqb_neq in Hk.
  - intros [Hin Hk]. split; [exact Hin|].
    now apply negb_true_iff, String.eqb_neq.
Qed.

Lemma get_log_links_small (op : instance) (tr : option instance) (links : list TaskLog) :
  get_log_links dataproc_provider_installed op tr = inr links ->
  length links <= 1
  /\ (links <> [] -> dataproc_provider_installed = true /\ dataproc op <> None /\ tr <> None).
Proof.
  unfold get_log_links.
  destruct dataproc_provider_installed;
    [|intros H; injection H as <-; split; [cbn; lia|intros Hne; now contradiction Hne]].
  destruct (dataproc op) as [[region project_id]|];
    [|intros H; injection H as <-; split; [cbn; lia|intros Hne; now contradiction Hne]].
  destruct tr as [trigger|]; [|discriminate].
  destruct (instance_job_id trigger); [|discriminate].
  intros H. injection H as <-. split; [cbn; lia|].
  intros _. repeat split; discriminate.
Qed.

(** X23: what [get] reports is consistent.  A resource it returns carries a
    message exactly when its phase is [FAILED], and it is [FAILED] only for
    an operator that has a trigger.  A sensor is [SUCCEEDED] exactly when its
    [poke] answers true and [RUNNING] otherwise; an operator without trigger
    is [SUCCEEDED].  There is at most one log link, and only for a Dataproc
    operator with a trigger when the provider is installed.  For anything
    that is neither sensor nor operator [get] raises [FlyteUserException]. *)
Theorem get_reports_consistently :
  forall (resource_meta : AirflowMetadata),
    let operator := _get_airflow_instance (airflow_operator resource_meta) in
    let got := get _get_airflow_instance dataproc_provider_installed resource_meta in
    (instance_kind operator = Something_else ->
     got = inl (FlyteUserException "Only sensor and operator are supported."))
    /\ forall r,
        got = inr r ->
        (resource_phase r = FAILED <-> exists m, message r = Some m)
        /\ (resource_phase r = FAILED ->
            instance_kind operator = An_operator /\ airflow_trigger resource_meta <> None)
        /\ (instance_kind operator = A_sensor ->
            exists ok, poke operator = inr ok
                       /\ resource_phase r = if ok then SUCCEEDED else RUNNING)
        /\ (instance_kind operator = An_operator ->
            airflow_trigger resource_meta = None ->
            resource_phase r = SUCCEEDED)
        /\ length (log_links r) <= 1
        /\ (log_links r <> [] ->
            dataproc_provider_installed = true /\ dataproc operator <> None
            /\ airflow_trigger resource_meta <> None).
Proof.
  intros resource_meta operator got. subst got. unfold get. fold operator.
  set (trigger := match airflow_trigger resource_meta with
                  | Some t => Some (_get_airflow_instance t)
                  | None => None
                  end).
  assert (Htrigger : trigger <> None -> airflow_trigger resource_meta <> None).
  { subst trigger. destruct (airflow_trigger resource_meta); [discriminate|].
    intros H. now contradiction H. }
  split.
  - intros Hkind. unfold poll. now rewrite Hkind.
  - intros r Hr.
    destruct (poll resource_meta operator trigger) as [e|[cur_phase msg]] eqn:Hpoll;
      [discriminate Hr|].
    destruct (get_log_links dataproc_provider_installed operator trigger)
      as [e|links] eqn:Hlinks; [discriminate Hr|].
    injection Hr as <-. cbn [resource_phase message log_links].
    destruct (get_log_links_small operator trigger links Hlinks) as [Hlen Hdataproc].
    unfold poll in Hpoll.
    assert (Hcases :
              (cur_phase = FAILED <-> exists m, msg = Some m)
              /\ (cur_phase = FAILED ->
                  instance_kind operator = An_operator /\ trigger <> None)
              /\ (instance_kind operator = A_sensor ->
                  exists ok, poke operator = inr ok
                             /\ cur_phase = if ok then SUCCEEDED else RUNNING)
              /\ (instance_kind operator = An_operator -> trigger = None ->
                  cur_phase = SUCCEEDED)).
    { destruct (instance_kind operator).
      - destruct (poke operator) as [e|ok]; [discriminate Hpoll|].
        injection Hpoll as <- <-.
        split; [split; [destruct ok; discriminate|intros [m Hm]; discriminate Hm]|].
        split; [destruct ok; discriminate|].
        split; [intros _; now exists ok|discriminate].
      - destruct trigger as [t|].
        + assert (Hsome : Some t <> None) by discriminate.
          destruct (run_first_event t) as [payload| |str|what].
          * destruct (call_back operator _ payload) as [|str| |what];
              try discriminate Hpoll; injection Hpoll as <- <-;
              (split; [split; [try discriminate; intros _; eexists; reflexivity
                              |try (intros [m Hm]; discriminate Hm); reflexivity]|]);
              (split; [first [discriminate|now intros _]|]);
              (split; discriminate).
          * injection Hpoll as <- <-.
            split; [split; [discriminate|intros [m Hm]; discriminate Hm]|].
            split; [discriminate|]. split; discriminate.
          * injection Hpoll as <- <-.
            split; [split; [intros _; eexists; reflexivity|reflexivity]|].
            split; [now intros _|]. split; discriminate.
          * discriminate Hpoll.
        + injection Hpoll as <- <-.
          split; [split; [discriminate|intros [m Hm]; discriminate Hm]|].
          split; [discriminate|]. split; [discriminate|reflexivity].
      - discriminate Hpoll. }
    destruct Hcases as (Hmsg & Hfailed & Hsensor & Hplain).
    split; [exact Hmsg|]. split.
    + intros Hf. destruct (Hfailed Hf) as [Hk Ht]. split; [exact Hk|now apply Htrigger].
    + split; [exact Hsensor|]. split.
      * intros Hk Hnone. apply Hplain; [exact Hk|]. subst trigger. now rewrite Hnone.
      * split; [exact Hlen|]. intros Hne.
        destruct (Hdataproc Hne) as (Hp & Hd & Ht).
        split; [exact Hp|]. split; [exact Hd|now apply Htrigger].
Qed.

(** X24: [create] executes operators only, never a sensor.  When the
    operator defers, the metadata names the trigger by its module and class
    and the callback by the method name, and the recorded parameters are
    those of the trigger without [task_instance] and [trigger_id], every
    other one kept with its value; when it returns there is no trigger; an
    exception of [execute] is the exception of [create].  The metadata always
    carries the operator it was given and no job id. *)
Theorem create_records_the_trigger :
  forall (airflow_obj : AirflowObj),
    let made := create _get_airflow_instance airflow_obj in
    let operator := _get_airflow_instance airflow_obj in
    let bare := {| airflow_operator := airflow_obj; airflow_trigger := None;
                   airflow_trigger_callback := None; job_id := None |} in
    (instance_kind operator <> An_operator -> made = inr bare)
    /\ (instance_kind operator = An_operator ->
        (execute operator = Execute_returned -> made = inr bare)
        /\ (forall what, execute operator = Execute_raised what ->
                         made = inl (Propagated what))
        /\ (forall trigger method_name,
               execute operator = TaskDeferred trigger method_name ->
               exists recorded,
                 made = inr {| airflow_operator := airflow_obj;
                               airflow_trigger := Some recorded;
                               airflow_trigger_callback := Some method_name;
                               job_id := None |}
                 /\ module recorded = trigger_module trigger
                 /\ name recorded = trigger_class_name trigger
                 /\ forall k v,
                     In (k, v) (parameters recorded)
                     <-> In (k, v) (trigger_dict trigger)
                         /\ k <> "task_instance" /\ k <> "trigger_id"))
    /\ forall meta,
        made = inr meta -> airflow_operator meta = airflow_obj /\ job_id meta = None.
Proof.
  intros airflow_obj made operator bare. subst made bare. unfold create. fold operator.
  split; [|split].
  - intros Hkind. destruct (instance_kind operator); [reflexivity|now contradiction Hkind|reflexivity].
  - intros ->. split; [intros ->; reflexivity|]. split.
    + intros what ->. reflexivity.
    + intros trigger method_name ->. eexists. split; [reflexivity|].
      cbn [module name parameters]. split; [reflexivity|]. split; [reflexivity|].
      intros k v. rewrite !in_pop. tauto.
  - intros meta.
    destruct (instance_kind operator);
      try (intros H; injection H as <-; now split).
    destruct (execute operator); intros H;
      [injection H as <-; now split|injection H as <-; now split|discriminate H].
Qed.

(** X25: creation and polling fit together for what does not defer.  The
    metadata [create] makes for a sensor, or for an operator whose [execute]
    returns, has no trigger, and [get] on it reports what [poke] answers
    for the sensor ([SUCCEEDED] when true, [RUNNING] otherwise) and
    [SUCCEEDED] for the operator, without message and without log links.
    The one exception: for a Dataproc job operator with the provider
    installed, building the log link dereferences the trigger that is not
    there, and [get] raises [AttributeError]. *)
Theorem get_after_create_without_trigger :
  forall (airflow_obj : AirflowObj) (meta : AirflowMetadata),
    create _get_airflow_instance airflow_obj = inr meta ->
    let operator := _get_airflow_instance airflow_obj in
    let got := get _get_airflow_instance dataproc_provider_installed meta in
    let finished (cur_phase : phase) :=
      if (dataproc_provider_installed
          && match dataproc operator with Some _ => true | None => false end)%bool
      then inl (AttributeError "'NoneType' object has no attribute 'job_id'")
      else inr {| resource_phase := cur_phase; message := None; log_links := [] |} in
    (instance_kind operator = An_operator ->
     execute operator = Execute_returned ->
     airflow_trigger meta = None /\ got = finished SUCCEEDED)
    /\ (instance_kind operator = A_sensor ->
        airflow_trigger meta = None
        /\ forall ok,
            poke operator = inr ok ->
            got = finished (if ok then SUCCEEDED else RUNNING)).
Proof.
  intros airflow_obj meta Hmade operator got finished. subst got finished.
  unfold create in Hmade. fold operator in Hmade. split.
  - intros Hkind Hexec. rewrite Hkind, Hexec in Hmade. injection Hmade as <-.
    split; [reflexivity|].
    unfold get, poll, get_log_links. cbn [airflow_operator airflow_trigger].
    fold operator. rewrite Hkind.
    destruct dataproc_provider_installed; [|reflexivity].
    now destruct (dataproc operator) as [[region project_id]|].
  - intros Hkind. rewrite Hkind in Hmade. injection Hmade as <-.
    split; [reflexivity|]. intros ok Hok.
    unfold get, poll, get_log_links. cbn [airflow_operator airflow_trigger].
    fold operator. rewrite Hkind, Hok.
    destruct dataproc_provider_installed; [|reflexivity].
    now destruct (dataproc operator) as [[region project_id]|].
Qed.

End AirflowConnector.

Lemma create_records_the_trigger_witness :
  (exists recorded,
      Airflow.create AirflowDemo._get_airflow_instance AirflowDemo.submit_obj
      = inr {| Airflow.airflow_operator := AirflowDemo.submit_obj;
               Airflow.airflow_trigger := Some recorded;
               Airflow.airflow_trigger_callback := Some "execute_complete";
               Airflow.job_id := None |}
      /\ Airflow.name recorded = "DataprocSubmitTrigger"
      /\ In ("job_id", "j-1") (Airflow.parameters recorded)
      /\ ~ In ("task_instance", "ti") (Airflow.parameters recorded))
  /\ Airflow.create AirflowDemo._get_airflow_instance AirflowDemo.sensor_obj
     = inr {| Airflow.airflow_operator := AirflowDemo.sensor_obj;
              Airflow.airflow_trigger := None;
              Airflow.airflow_trigger_callback := None;
              Airflow.job_id := None |}.
Proof.
  split.
  - pose proof (proj1 (proj2 (create_records_the_trigger
                               AirflowDemo._get_airflow_instance AirflowDemo.submit_obj)))
      as Hoperator.
    destruct (proj2 (proj2 (Hoperator eq_refl)) AirflowDemo.submit_trigger
                    "execute_complete" eq_refl)
      as (recorded & Hmade & _ & Hname & Hparameters).
    exists recorded. split; [exact Hmade|]. split; [exact Hname|]. split.
    + apply Hparameters. split; [cbn; tauto|]. split; discriminate.
    + intros Hin. apply Hparameters in Hin. destruct Hin as (_ & Hkey & _).
      now apply Hkey.
  - assert (Hkind : Airflow.instance_kind
                      (AirflowDemo._get_airflow_instance AirflowDemo.sensor_obj)
                    <> Airflow.An_operator) by discriminate.
    pose proof (proj1 (create_records_the_trigger
                         AirflowDemo._get_airflow_instance AirflowDemo.sensor_obj) Hkind)
      as Hsensor.
    rewrite Hsensor. reflexivity.
Defined.

Lemma get_reports_consistently_witness :
  let meta := {| Airflow.airflow_operator := AirflowDemo.submit_obj;
                 Airflow.airflow_trigger :=
                   Some {| Airflow.module := "airflow.providers.google.cloud.triggers.dataproc";
                           Airflow.name := "DataprocSubmitTrigger";
                           Airflow.parameters := [("job_id", "j-1"); ("region", "us-west1")] |};
                 Airflow.airflow_trigger_callback := Some "execute_complete";
                 Airflow.job_id := None |} in
  let r := {| Airflow.resource_phase := Airflow.FAILED;
              Airflow.message := Some "Job failed";
              Airflow.log_links :=
                [ {| Airflow.uri := "https://console.cloud.google.com/dataproc/jobs/j-1/monitoring?region=us-west1&project=p";
                     Airflow.log_name := "Dataproc Console" |} ] |} in
  Airflow.get AirflowDemo._get_airflow_instance true meta = inr r
  /\ (Airflow.resource_phase r = Airflow.FAILED <-> exists m, Airflow.message r = Some m)
  /\ length (Airflow.log_links r) <= 1.
Proof.
  intros meta r.
  assert (Hgot : Airflow.get AirflowDemo._get_airflow_instance true meta = inr r)
    by reflexivity.
  split; [exact Hgot|].
  pose proof (proj2 (get_reports_consistently AirflowDemo._get_airflow_instance true meta)
                    r Hgot) as Hr.
  split; [exact (proj1 Hr)|exact (proj1 (proj2 (proj2 (proj2 (proj2 Hr)))))].
Defined.

Lemma get_after_create_without_trigger_witness :
  let meta := {| Airflow.airflow_operator := AirflowDemo.sensor_obj;
                 Airflow.airflow_trigger := None;
                 Airflow.airflow_trigger_callback := None;
                 Airflow.job_id := None |} in
  Airflow.create AirflowDemo._get_airflow_instance AirflowDemo.sensor_obj = inr meta
  /\ Airflow.get AirflowDemo._get_airflow_instance true meta
     = inr {| Airflow.resource_phase := Airflow.RUNNING; Airflow.message := None;
              Airflow.log_links := [] |}.
Proof.
  intros meta. split; [reflexivity|].
  pose proof (proj2 (proj2 (get_after_create_without_trigger
                              AirflowDemo._get_airflow_instance true
                              AirflowDemo.sensor_obj meta eq_refl)
                           eq_refl) false eq_refl) as Hgot.
  rewrite Hgot. reflexivity.
Defined.
